(** * SporeNet model converter (scripts/convert.py): a shallow embedding

    The converter script is a command-line driver around three external
    toolchains (TensorFlow / TFLite, PyTorch, ONNX + onnx2tf).  The Python
    functions are embedded as computations in a state-and-exception monad over
    a [World] (file system, module globals, standard output, a trace of the
    toolchain calls); the toolchains themselves are a record of oracles. *)

From Stdlib Require Import String Ascii List NArith Lia DecimalString DecimalNat.
From Stdlib.Strings Require Import Byte.
From stdpp Require Import base option gmap strings list.

Import ListNotations.
Open Scope string_scope.

#[local] Arguments String.append !s1 s2 : simpl nomatch.

(** ** Python [str] methods used by the script *)

Module PyStr.

(** [s.endswith(suf)] *)
Fixpoint endswith (s suf : string) : bool :=
  if String.eqb s suf then true
  else match s with
       | EmptyString => false
       | String _ s' => endswith s' suf
       end.

(** [s.replace(old, new)] for a non-empty [old] (every call site passes the
    literal '.tflite'): occurrences are found left to right and do not
    overlap.  [skip] counts the characters of a matched occurrence that are
    still to be dropped. *)
Fixpoint replace_from (skip : nat) (old new s : string) : string :=
  match s with
  | EmptyString => EmptyString
  | String c s' =>
      match skip with
      | S k => replace_from k old new s'
      | O =>
          if String.prefix old s
          then String.append new (replace_from (String.length old - 1) old new s')
          else String c (replace_from 0 old new s')
      end
  end.

Definition replace (s old new : string) : string := replace_from 0 old new s.

(** [old in s] *)
Definition contains (s old : string) : Prop :=
  exists pre post, s = String.append pre (String.append old post).

(** [str(n)] for a non-negative integer *)
Definition str_of_nat (n : nat) : string :=
  NilEmpty.string_of_uint (Nat.to_uint n).

End PyStr.

(** ** The file system *)

Inductive node : Type :=
| File (content : list byte)
| Dir.

#[global] Instance byte_eq_decision : EqDecision byte := Byte.byte_eq_dec.

#[global] Instance node_eq_dec : EqDecision node.
Proof. solve_decision. Defined.

Module Fs.

Definition exists_ (fs : gmap string node) (p : string) : bool :=
  bool_decide (is_Some (fs !! p)).

Definition isdir (fs : gmap string node) (p : string) : bool :=
  bool_decide (fs !! p = Some Dir).

(** [p] is [root] or lies below it *)
Definition under (root p : string) : bool :=
  String.eqb root p || String.prefix (String.append root "/") p.

(** what [shutil.rmtree(root)] leaves of a file system *)
Definition remove_tree (root : string) (fs : gmap string node) : gmap string node :=
  filter (fun kv => under root kv.1 = false) fs.

End Fs.

(** ** Values exchanged with the toolchains *)

Inductive DType : Type := float32 | float64 | int8 | uint8 | int32 | int64.

Inductive Optimize : Type := DEFAULT.

Inductive OpsSet : Type := TFLITE_BUILTINS | SELECT_TF_OPS | TFLITE_BUILTINS_INT8.

(** A dense array: its shape, element type and elements (raw bit patterns). *)
Record Tensor : Type := {
  t_shape : list nat;
  t_dtype : DType;
  t_data : list N
}.

(** What the script reads of a loaded TensorFlow object.  [signatures] is
    [None] when the object has no such attribute, and maps the default
    serving key to [None] when the key is missing; [input_shape] is [None]
    when the attribute is missing, its dimensions are [None] where the model
    leaves them open (the batch dimension of a Keras model). *)
Record Model : Type := {
  model_payload : list byte;
  signatures : option (option (list byte));
  input_shape : option (list (option nat))
}.

Inductive ConcreteFunc : Type :=
| ServingSignature (f : list byte)
| ModelItself (m : Model).

Inductive ConverterSource : Type :=
| from_keras_model (m : Model)
| from_concrete_functions (fns : list ConcreteFunc)
| from_saved_model (path : string).

(** The generator function [representative_dataset] closes over
    [input_shape] only; the closure is represented by the captured value. *)
Record RepresentativeDataset : Type := { rd_input_shape : list (option nat) }.

(** A [tf.lite.TFLiteConverter] object: where it was built from and the
    attributes the script assigns. *)
Record TFLiteConverter : Type := {
  source : ConverterSource;
  optimizations : list Optimize;
  representative_dataset : option RepresentativeDataset;
  supported_ops : list OpsSet;
  inference_input_type : DType;
  inference_output_type : DType
}.

(** A converter as its constructor returns it. *)
Definition new_converter (src : ConverterSource) : TFLiteConverter :=
  {| source := src;
     optimizations := [];
     representative_dataset := None;
     supported_ops := [TFLITE_BUILTINS];
     inference_input_type := float32;
     inference_output_type := float32 |}.

Definition set_optimizations (o : list Optimize) (c : TFLiteConverter) : TFLiteConverter :=
  {| source := source c;
     optimizations := o;
     representative_dataset := representative_dataset c;
     supported_ops := supported_ops c;
     inference_input_type := inference_input_type c;
     inference_output_type := inference_output_type c |}.

Definition set_representative_dataset (r : RepresentativeDataset) (c : TFLiteConverter)
  : TFLiteConverter :=
  {| source := source c;
     optimizations := optimizations c;
     representative_dataset := Some r;
     supported_ops := supported_ops c;
     inference_input_type := inference_input_type c;
     inference_output_type := inference_output_type c |}.

Definition set_supported_ops (o : list OpsSet) (c : TFLiteConverter) : TFLiteConverter :=
  {| source := source c;
     optimizations := optimizations c;
     representative_dataset := representative_dataset c;
     supported_ops := o;
     inference_input_type := inference_input_type c;
     inference_output_type := inference_output_type c |}.

Definition set_inference_input_type (d : DType) (c : TFLiteConverter) : TFLiteConverter :=
  {| source := source c;
     optimizations := optimizations c;
     representative_dataset := representative_dataset c;
     supported_ops := supported_ops c;
     inference_input_type := d;
     inference_output_type := inference_output_type c |}.

Definition set_inference_output_type (d : DType) (c : TFLiteConverter) : TFLiteConverter :=
  {| source := source c;
     optimizations := optimizations c;
     representative_dataset := representative_dataset c;
     supported_ops := supported_ops c;
     inference_input_type := inference_input_type c;
     inference_output_type := d |}.

(** One entry of [interpreter.get_input_details()] / [get_output_details()]. *)
Record TensorDetail : Type := {
  td_shape : list nat;
  td_dtype : DType
}.

(** The object [torch.load] returns: a module, or something without [eval]
    (a bare state dictionary). *)
Record TorchModel : Type := {
  tm_payload : list byte;
  tm_is_module : bool
}.

(** ** Exceptions, standard output, toolchain calls *)

Inductive Exn : Type :=
| ImportError (msg : string)
| ValueError (msg : string)
| NameError (name : string)
| AttributeError (name : string)
| KeyError (key : string)
| IndexError
| TypeError (msg : string)
| FileNotFoundError (path : string)
| IsADirectoryError (path : string)
| NotADirectoryError (path : string)
| FileExistsError (path : string)
| ToolchainError (tool cause : string)
| SystemExit (code : nat).

(** [except Exception] catches everything the script can see but
    [SystemExit]. *)
Definition is_Exception (e : Exn) : bool :=
  match e with
  | SystemExit _ => false
  | _ => true
  end.

Inductive Framework : Type := tensorflow | pytorch | onnx.

(** The lines the script prints, one constructor per [print] call. *)
Inductive Msg : Type :=
| MsgTensorFlowNotFound
| MsgPyTorchNotFound
| MsgOnnxNotFound
| MsgConvertingTensorFlow (model_path : string)
| MsgEnablingQuantization
| MsgIntegerQuantizationEnabled
| MsgIntegerQuantizationFailed (e : Exn)
| MsgModelConversionSuccessful
| MsgConversionFailed (e : Exn)
| MsgRetrying
| MsgConvertedWithoutQuantization
| MsgModelInfo
| MsgSize (bytes : nat)
| MsgInputShape (shape : list nat)
| MsgOutputShape (shape : list nat)
| MsgInputType (d : DType)
| MsgOutputType (d : DType)
| MsgConvertingPyTorch (model_path : string)
| MsgConvertingToOnnx
| MsgConvertingOnnx (model_path : string)
| MsgOnnxConvertedSuccessfully
| MsgOnnxConversionFailed (e : Exn)
| MsgConsiderOnnx2tf
| MsgGeneratingHeader (header_path : string)
| MsgHeaderGenerated (bytes : nat)
| MsgModelFileNotFound (model : string)
| MsgBanner
| MsgInput (model : string)
| MsgOutput (output : string)
| MsgFramework (f : Framework)
| MsgQuantization (enabled : bool)
| MsgBlank
| MsgConvertedSuccessfully (output : string)
| MsgNextSteps (output : string).

(** The calls that leave the script, in the order they are made. *)
Inductive Event : Type :=
| EvImport (module : string)
| EvKerasLoadModel (path : string)
| EvSavedModelLoad (path : string)
| EvFromSavedModel (path : string)
| EvConvert (c : TFLiteConverter)
| EvInterpreter (model_content : list byte)
| EvTorchLoad (path : string)
| EvTorchOnnxExport (m : TorchModel) (dummy_input : Tensor) (path : string)
| EvOnnx2tf (input_onnx_file_path output_folder_path : string).

Inductive ToolResult (A : Type) : Type :=
| Ok (a : A)
| Err (cause : string).
Arguments Ok {A} a.
Arguments Err {A} cause.

(** The converters on which [convert()] was called, oldest first. *)
Definition conversions (tr : list Event) : list TFLiteConverter :=
  omap (fun e => match e with EvConvert c => Some c | _ => None end) tr.

(** The environment of the script: which imports succeed and what each
    library call answers.  [tflite_convert] sees the conversions made so far,
    so a toolchain may answer two calls on the same converter differently.
    [onnx2tf_convert] also tells which files it wrote below the output
    folder ([None]: it did not get as far as creating the folder). *)
Record Toolchain : Type := {
  import_tensorflow : bool;
  import_torch : bool;
  import_torchvision : bool;
  import_onnx : bool;
  import_onnx2tf : bool;
  keras_load_model : gmap string node -> string -> ToolResult Model;
  saved_model_load : gmap string node -> string -> ToolResult Model;
  saved_model_open : gmap string node -> string -> ToolResult unit;
  tflite_convert : list TFLiteConverter -> TFLiteConverter -> ToolResult (list byte);
  tflite_interpreter : list byte -> ToolResult (list TensorDetail * list TensorDetail);
  torch_load : gmap string node -> string -> ToolResult TorchModel;
  torch_randn : N -> list nat -> list N * N;
  torch_onnx_export : TorchModel -> Tensor -> ToolResult (list byte);
  onnx2tf_convert :
    gmap string node -> string -> ToolResult unit * option (list (string * node));
  np_random_random : N -> list nat -> list N * N;
  np_astype_float32 : N -> N
}.

(** A module-level name: not assigned yet, [None], or an imported module. *)
Inductive Global : Type := Unbound | NoneVal | Module.

Record World : Type := {
  fs : gmap string node;
  g_tf : Global;
  g_torch : Global;
  g_onnx : Global;
  torch_rng : N;
  trace : list Event;
  stdout : list Msg
}.

Definition set_fs (f : gmap string node) (w : World) : World :=
  {| fs := f; g_tf := g_tf w; g_torch := g_torch w; g_onnx := g_onnx w;
     torch_rng := torch_rng w; trace := trace w; stdout := stdout w |}.

Definition set_g_tf (g : Global) (w : World) : World :=
  {| fs := fs w; g_tf := g; g_torch := g_torch w; g_onnx := g_onnx w;
     torch_rng := torch_rng w; trace := trace w; stdout := stdout w |}.

Definition set_g_torch (g : Global) (w : World) : World :=
  {| fs := fs w; g_tf := g_tf w; g_torch := g; g_onnx := g_onnx w;
     torch_rng := torch_rng w; trace := trace w; stdout := stdout w |}.

Definition set_g_onnx (g : Global) (w : World) : World :=
  {| fs := fs w; g_tf := g_tf w; g_torch := g_torch w; g_onnx := g;
     torch_rng := torch_rng w; trace := trace w; stdout := stdout w |}.

Definition set_torch_rng (r : N) (w : World) : World :=
  {| fs := fs w; g_tf := g_tf w; g_torch := g_torch w; g_onnx := g_onnx w;
     torch_rng := r; trace := trace w; stdout := stdout w |}.

Definition add_event (e : Event) (w : World) : World :=
  {| fs := fs w; g_tf := g_tf w; g_torch := g_torch w; g_onnx := g_onnx w;
     torch_rng := torch_rng w; trace := trace w ++ [e]; stdout := stdout w |}.

Definition add_stdout (m : Msg) (w : World) : World :=
  {| fs := fs w; g_tf := g_tf w; g_torch := g_torch w; g_onnx := g_onnx w;
     torch_rng := torch_rng w; trace := trace w; stdout := stdout w ++ [m] |}.

(** A process as the operating system starts it. *)
Definition fresh_process (f : gmap string node) (seed : N) : World :=
  {| fs := f; g_tf := Unbound; g_torch := Unbound; g_onnx := Unbound;
     torch_rng := seed; trace := []; stdout := [] |}.

(** ** The monad of Python statements *)

Inductive Outcome (A : Type) : Type :=
| Return (a : A)
| Raise (e : Exn).
Arguments Return {A} a.
Arguments Raise {A} e.

Definition Py (A : Type) : Type := World -> Outcome A * World.

Definition ret {A} (a : A) : Py A := fun w => (Return a, w).

Definition raise {A} (e : Exn) : Py A := fun w => (Raise e, w).

Definition bind {A B} (m : Py A) (k : A -> Py B) : Py B :=
  fun w =>
    match m w with
    | (Return a, w') => k a w'
    | (Raise e, w') => (Raise e, w')
    end.

(** [try: m  except Exception as e: h e] *)
Definition try_except {A} (m : Py A) (h : Exn -> Py A) : Py A :=
  fun w =>
    match m w with
    | (Return a, w') => (Return a, w')
    | (Raise e, w') => if is_Exception e then h e w' else (Raise e, w')
    end.

Declare Scope py_scope.
Delimit Scope py_scope with py.
Notation "x <- m ;; k" := (bind m (fun x => k))
  (at level 100, m at next level, k at level 200, right associativity) : py_scope.
Notation "m ;; k" := (bind m (fun _ => k))
  (at level 100, k at level 200, right associativity) : py_scope.
Open Scope py_scope.

(** ** Primitive statements *)

Definition print (m : Msg) : Py unit := fun w => (Return tt, add_stdout m w).

Definition sys_exit {A} (code : nat) : Py A := raise (SystemExit code).

Definition log_call (e : Event) : Py unit := fun w => (Return tt, add_event e w).

(** The answer of a library call becomes a value or an exception. *)
Definition answer {A} (tool : string) (r : ToolResult A) : Py A :=
  match r with
  | Ok a => ret a
  | Err cause => raise (ToolchainError tool cause)
  end.

Definition os_path_exists (p : string) : Py bool :=
  fun w => (Return (Fs.exists_ (fs w) p), w).

Definition os_path_isdir (p : string) : Py bool :=
  fun w => (Return (Fs.isdir (fs w) p), w).

(** [with open(p, 'rb') as f: f.read()] *)
Definition read_binary (p : string) : Py (list byte) :=
  fun w =>
    match fs w !! p with
    | Some (File content) => (Return content, w)
    | Some Dir => (Raise (IsADirectoryError p), w)
    | None => (Raise (FileNotFoundError p), w)
    end.

(** [with open(p, 'wb') as f: f.write(data)]: the file is created or
    truncated, then written in full.  Paths are a flat name space: a missing
    parent folder is not modelled. *)
Definition write_binary (p : string) (data : list byte) : Py unit :=
  fun w =>
    match fs w !! p with
    | Some Dir => (Raise (IsADirectoryError p), w)
    | _ => (Return tt, set_fs (<[p := File data]> (fs w)) w)
    end.

(** [with open(p, 'w') as f: f.write(text)] *)
Definition write_text (p : string) (text : string) : Py unit :=
  write_binary p (list_byte_of_string text).

Definition os_remove (p : string) : Py unit :=
  fun w =>
    match fs w !! p with
    | Some (File _) => (Return tt, set_fs (delete p (fs w)) w)
    | Some Dir => (Raise (IsADirectoryError p), w)
    | None => (Raise (FileNotFoundError p), w)
    end.

Definition shutil_rmtree (p : string) : Py unit :=
  fun w =>
    match fs w !! p with
    | Some Dir => (Return tt, set_fs (Fs.remove_tree p (fs w)) w)
    | Some (File _) => (Raise (NotADirectoryError p), w)
    | None => (Raise (FileNotFoundError p), w)
    end.

(** Reading a module-level name. *)
Definition global (name : string) (get : World -> Global) : Py Global :=
  fun w =>
    match get w with
    | Unbound => (Raise (NameError name), w)
    | g => (Return g, w)
    end.

(** Using the name [tf] as a module. *)
Definition use_tf : Py unit :=
  g <- global "tf" g_tf ;;
  match g with
  | Module => ret tt
  | _ => raise (AttributeError "tf")
  end.

(** [l[0]] *)
Definition index0 {A} (l : list A) : Py A :=
  match l with
  | x :: _ => ret x
  | [] => raise IndexError
  end.

(** ** The header text *)

Definition nl : string := String (ascii_of_nat 10) EmptyString.

Definition hex_digit (n : N) : ascii :=
  match n with
  | 0 => "0" | 1 => "1" | 2 => "2" | 3 => "3" | 4 => "4" | 5 => "5" | 6 => "6"
  | 7 => "7" | 8 => "8" | 9 => "9" | 10 => "a" | 11 => "b" | 12 => "c"
  | 13 => "d" | 14 => "e" | _ => "f"
  end%N%char.

(** [f"{byte:02x}"] *)
Definition format_02x (b : byte) : string :=
  String (hex_digit (Byte.to_N b / 16)) (String (hex_digit (Byte.to_N b mod 16)) EmptyString).

(** [f"0x{byte:02x},"] *)
Definition hex_literal (b : byte) : string := "0x" ++ format_02x b ++ ",".

(** The first f-string of [generate_model_header]. *)
Definition header_top (len : nat) : string :=
  "// Auto-generated model header for SporeNet" ++ nl ++
  "// Model size: " ++ PyStr.str_of_nat len ++ " bytes" ++ nl ++
  nl ++
  "#ifndef SPORENET_MODEL_H" ++ nl ++
  "#define SPORENET_MODEL_H" ++ nl ++
  nl ++
  "#include <stdint.h>" ++ nl ++
  nl ++
  "// Model data" ++ nl ++
  "extern const unsigned char sporenet_model_data[];" ++ nl ++
  "extern const int sporenet_model_data_len;" ++ nl ++
  nl ++
  "const unsigned char sporenet_model_data[] = {" ++ nl.

(** The loop [for i, byte in enumerate(model_data)], from index [i] on,
    appending to [header_content]. *)
Fixpoint hex_array_loop (i : nat) (model_data : list byte) (header_content : string)
  : string :=
  match model_data with
  | [] => header_content
  | byte :: rest =>
      let header_content :=
        if (i mod 16 =? 0)%nat then header_content ++ nl ++ "  " else header_content in
      hex_array_loop (S i) rest (header_content ++ hex_literal byte)
  end.

(** The last f-string. *)
Definition header_bottom (len : nat) : string :=
  nl ++ "};" ++ nl ++
  nl ++
  "const int sporenet_model_data_len = " ++ PyStr.str_of_nat len ++ ";" ++ nl ++
  nl ++
  "#endif // SPORENET_MODEL_H" ++ nl.

(** [header_content] as it is written to the header file. *)
Definition header_content (model_data : list byte) : string :=
  hex_array_loop 0 model_data (header_top (length model_data))
  ++ header_bottom (length model_data).

Definition byte_of (n : N) : byte :=
  match Byte.of_N n with Some b => b | None => x00 end.

(** ** The script *)

Section Script.

Variable tc : Toolchain.

(** *** Library calls *)

Definition tf_keras_models_load_model (path : string) : Py Model :=
  use_tf ;;
  log_call (EvKerasLoadModel path) ;;
  fun w => answer "tensorflow" (keras_load_model tc (fs w) path) w.

Definition tf_saved_model_load (path : string) : Py Model :=
  use_tf ;;
  log_call (EvSavedModelLoad path) ;;
  fun w => answer "tensorflow" (saved_model_load tc (fs w) path) w.

Definition TFLiteConverter_from_keras_model (m : Model) : Py TFLiteConverter :=
  use_tf ;;
  ret (new_converter (from_keras_model m)).

Definition TFLiteConverter_from_concrete_functions (fns : list ConcreteFunc)
  : Py TFLiteConverter :=
  use_tf ;;
  ret (new_converter (from_concrete_functions fns)).

Definition TFLiteConverter_from_saved_model (path : string) : Py TFLiteConverter :=
  use_tf ;;
  log_call (EvFromSavedModel path) ;;
  (fun w => answer "tensorflow" (saved_model_open tc (fs w) path) w) ;;
  ret (new_converter (from_saved_model path)).

(** [converter.convert()] *)
Definition converter_convert (converter : TFLiteConverter) : Py (list byte) :=
  fun w =>
    answer "tflite" (tflite_convert tc (conversions (trace w)) converter)
           (add_event (EvConvert converter) w).

(** [tf.lite.Interpreter(model_content=...)], [allocate_tensors()] and the
    two [get_*_details()] calls. *)
Definition tf_lite_Interpreter (model_content : list byte)
  : Py (list TensorDetail * list TensorDetail) :=
  use_tf ;;
  log_call (EvInterpreter model_content) ;;
  answer "tflite" (tflite_interpreter tc model_content).

Definition torch_load_cpu (path : string) : Py TorchModel :=
  log_call (EvTorchLoad path) ;;
  fun w => answer "torch" (torch_load tc (fs w) path) w.

(** [model.eval()] *)
Definition torch_eval (m : TorchModel) : Py unit :=
  if tm_is_module m then ret tt else raise (AttributeError "eval").

(** [torch.randn] at a given shape *)
Definition torch_randn_tensor (shape : list nat) : Py Tensor :=
  fun w =>
    let (data, r) := torch_randn tc (torch_rng w) shape in
    (Return {| t_shape := shape; t_dtype := float32; t_data := data |},
     set_torch_rng r w).

(** [torch.onnx.export(model, dummy_input, path, ...)] *)
Definition torch_onnx_export_to (m : TorchModel) (dummy_input : Tensor) (path : string)
  : Py unit :=
  log_call (EvTorchOnnxExport m dummy_input path) ;;
  graph <- answer "torch" (torch_onnx_export tc m dummy_input) ;;
  write_binary path graph.

(** Creating folder [root] with the listed entries below it. *)
Definition make_tree (root : string) (entries : list (string * node))
    (f : gmap string node) : gmap string node :=
  foldr (fun kv acc => <[(root ++ "/" ++ kv.1) := kv.2]> acc) (<[root := Dir]> f) entries.

(** [import onnx2tf] inside [convert_onnx_model] *)
Definition import_onnx2tf_local : Py unit :=
  log_call (EvImport "onnx2tf") ;;
  if import_onnx2tf tc then ret tt else raise (ImportError "No module named onnx2tf").

(** [onnx2tf.convert(input_onnx_file_path=..., output_folder_path=...)] *)
Definition onnx2tf_convert_to (input_onnx_file_path output_folder_path : string)
  : Py unit :=
  log_call (EvOnnx2tf input_onnx_file_path output_folder_path) ;;
  fun w =>
    let (r, written) := onnx2tf_convert tc (fs w) input_onnx_file_path in
    match written with
    | None => answer "onnx2tf" r w
    | Some entries =>
        match fs w !! output_folder_path with
        | Some (File _) => (Raise (FileExistsError output_folder_path), w)
        | _ => answer "onnx2tf" r
                      (set_fs (make_tree output_folder_path entries (fs w)) w)
        end
    end.

(** *** The representative dataset

    [representative_dataset] is a generator function: calling it gives a
    fresh iterator, and each [next] on the iterator runs the loop body once.
    The random numbers come from NumPy's generator, whose state is threaded
    through. *)

(** [np.random.random(shape).astype(np.float32)]; a dimension that is
    [None] is a [TypeError]. *)
Definition np_random_float32 (shape : list (option nat)) (rng : N) : Outcome Tensor * N :=
  match mapM id shape with
  | Some dims =>
      let (data, rng') := np_random_random tc rng dims in
      (Return {| t_shape := dims; t_dtype := float32;
                 t_data := map (np_astype_float32 tc) data |}, rng')
  | None => (Raise (TypeError "NoneType object cannot be interpreted as an integer"), rng)
  end.

(** The iterator: the position in [range(100)] and the captured shape. *)
Record DatasetIterator : Type := {
  it_position : nat;
  it_input_shape : list (option nat)
}.

Definition representative_dataset_call (r : RepresentativeDataset) : DatasetIterator :=
  {| it_position := 0; it_input_shape := rd_input_shape r |}.

(** [next(it)]: [Return None] stands for [StopIteration]. *)
Definition iterator_next (it : DatasetIterator) (rng : N)
  : Outcome (option (list Tensor * DatasetIterator)) * N :=
  if (it_position it <? 100)%nat
  then
    match np_random_float32 (Some 1%nat :: it_input_shape it) rng with
    | (Return data, rng') =>
        (Return (Some ([data], {| it_position := S (it_position it);
                                  it_input_shape := it_input_shape it |})), rng')
    | (Raise e, rng') => (Raise e, rng')
    end
  else (Return None, rng).

(** [list(it)], with [fuel] bounding the number of [next] calls; [None]
    when the fuel runs out first. *)
Fixpoint iterator_to_list (fuel : nat) (it : DatasetIterator) (rng : N)
  : option (Outcome (list (list Tensor)) * N) :=
  match fuel with
  | O => None
  | S fuel' =>
      match iterator_next it rng with
      | (Return None, rng') => Some (Return [], rng')
      | (Return (Some (sample, it')), rng') =>
          match iterator_to_list fuel' it' rng' with
          | Some (Return samples, rng'') => Some (Return (sample :: samples), rng'')
          | other => other
          end
      | (Raise e, rng') => Some (Raise e, rng')
      end
  end.

(** *** [setup_imports] *)

Definition setup_imports : Py unit :=
  log_call (EvImport "tensorflow") ;;
  (if import_tensorflow tc
   then fun w => (Return tt, set_g_tf Module w)
   else print MsgTensorFlowNotFound ;; sys_exit 1) ;;
  log_call (EvImport "torch") ;;
  (if import_torch tc
   then
     (fun w => (Return tt, set_g_torch Module w)) ;;
     log_call (EvImport "torchvision") ;;
     if import_torchvision tc then ret tt
     else (fun w => (Return tt, set_g_torch NoneVal w)) ;; print MsgPyTorchNotFound
   else (fun w => (Return tt, set_g_torch NoneVal w)) ;; print MsgPyTorchNotFound) ;;
  log_call (EvImport "onnx") ;;
  (if import_onnx tc
   then
     (fun w => (Return tt, set_g_onnx Module w)) ;;
     log_call (EvImport "onnx2tf") ;;
     if import_onnx2tf tc then ret tt
     else (fun w => (Return tt, set_g_onnx NoneVal w)) ;; print MsgOnnxNotFound
   else (fun w => (Return tt, set_g_onnx NoneVal w)) ;; print MsgOnnxNotFound).

(** *** [convert_tensorflow_model] *)

(** Lines 43-59: loading the model and building the converter. *)
Definition load_tensorflow_model (model_path : string) : Py (Model * TFLiteConverter) :=
  mc <- (if PyStr.endswith model_path ".h5"
         then
           model <- tf_keras_models_load_model model_path ;;
           ret (model, None)
         else
           isdir <- os_path_isdir model_path ;;
           if PyStr.endswith model_path ".pb" || isdir
           then
             model <- tf_saved_model_load model_path ;;
             concrete_func <-
               match signatures model with
               | Some (Some f) => ret (ServingSignature f)
               | Some None => raise (KeyError "serving_default")
               | None => ret (ModelItself model)
               end ;;
             converter <- TFLiteConverter_from_concrete_functions [concrete_func] ;;
             ret (model, Some converter)
           else raise (ValueError "Unsupported TensorFlow model format")) ;;
  let model := mc.1 in
  if PyStr.endswith model_path ".h5"
  then
    converter <- TFLiteConverter_from_keras_model model ;;
    ret (model, converter)
  else
    match mc.2 with
    | Some converter => ret (model, converter)
    | None => raise (NameError "converter")
    end.

(** Lines 61-85: the quantization settings.  [model.input_shape[1:]] drops
    the batch dimension. *)
Definition configure_quantization (model : Model) (quantize : bool)
    (converter : TFLiteConverter) : Py TFLiteConverter :=
  if quantize
  then
    print MsgEnablingQuantization ;;
    let converter := set_optimizations [DEFAULT] converter in
    try_except
      (match input_shape model with
       | Some (batch :: dims) =>
           let input_shape := dims in
           let converter :=
             set_representative_dataset {| rd_input_shape := input_shape |} converter in
           let converter := set_supported_ops [TFLITE_BUILTINS_INT8] converter in
           let converter := set_inference_input_type int8 converter in
           let converter := set_inference_output_type int8 converter in
           print MsgIntegerQuantizationEnabled ;;
           ret converter
       | _ => ret converter
       end)
      (fun e => print (MsgIntegerQuantizationFailed e) ;; ret converter)
  else ret converter.

(** Lines 86-96: the conversion and its fallback. *)
Definition convert_with_fallback (converter : TFLiteConverter) : Py (list byte) :=
  try_except
    (tflite_model <- converter_convert converter ;;
     print MsgModelConversionSuccessful ;;
     ret tflite_model)
    (fun e =>
       print (MsgConversionFailed e) ;;
       print MsgRetrying ;;
       let converter := set_optimizations [] converter in
       tflite_model <- converter_convert converter ;;
       print MsgConvertedWithoutQuantization ;;
       ret tflite_model).

(** Lines 102-114: loading the binary back and printing what it declares. *)
Definition print_model_info (tflite_model : list byte) : Py unit :=
  details <- tf_lite_Interpreter tflite_model ;;
  let input_details := details.1 in
  let output_details := details.2 in
  print MsgModelInfo ;;
  print (MsgSize (length tflite_model)) ;;
  i0 <- index0 input_details ;;
  print (MsgInputShape (td_shape i0)) ;;
  o0 <- index0 output_details ;;
  print (MsgOutputShape (td_shape o0)) ;;
  i0 <- index0 input_details ;;
  print (MsgInputType (td_dtype i0)) ;;
  o0 <- index0 output_details ;;
  print (MsgOutputType (td_dtype o0)).

Definition convert_tensorflow_model (model_path output_path : string) (quantize : bool)
  : Py unit :=
  print (MsgConvertingTensorFlow model_path) ;;
  mc <- load_tensorflow_model model_path ;;
  converter <- configure_quantization mc.1 quantize mc.2 ;;
  tflite_model <- convert_with_fallback converter ;;
  write_binary output_path tflite_model ;;
  print_model_info tflite_model.

(** *** [convert_onnx_model] *)

(** Lines 160-183: the body of the [try] block. *)
Definition convert_onnx_model_try (model_path output_path : string) (quantize : bool)
  : Py unit :=
  let tf_model_path := PyStr.replace output_path ".tflite" "_tf_model" in
  import_onnx2tf_local ;;
  onnx2tf_convert_to model_path tf_model_path ;;
  converter <- TFLiteConverter_from_saved_model tf_model_path ;;
  let converter :=
    if quantize then set_optimizations [DEFAULT] converter else converter in
  tflite_model <- converter_convert converter ;;
  write_binary output_path tflite_model ;;
  shutil_rmtree tf_model_path ;;
  print MsgOnnxConvertedSuccessfully.

Definition convert_onnx_model (model_path output_path : string) (quantize : bool)
  : Py unit :=
  g <- global "onnx" g_onnx ;;
  match g with
  | NoneVal => raise (ImportError "ONNX not available")
  | _ =>
      print (MsgConvertingOnnx model_path) ;;
      try_except
        (convert_onnx_model_try model_path output_path quantize)
        (fun e =>
           print (MsgOnnxConversionFailed e) ;;
           print MsgConsiderOnnx2tf ;;
           raise e)
  end.

(** *** [convert_pytorch_model] *)

Definition dummy_input_shape : list nat := [1; 3; 224; 224].

Definition convert_pytorch_model (model_path output_path : string) (quantize : bool)
  : Py unit :=
  g <- global "torch" g_torch ;;
  match g with
  | NoneVal => raise (ImportError "PyTorch not available")
  | _ =>
      print (MsgConvertingPyTorch model_path) ;;
      model <- torch_load_cpu model_path ;;
      torch_eval model ;;
      let onnx_path := PyStr.replace output_path ".tflite" ".onnx" in
      dummy_input <- torch_randn_tensor dummy_input_shape ;;
      print MsgConvertingToOnnx ;;
      torch_onnx_export_to model dummy_input onnx_path ;;
      convert_onnx_model onnx_path output_path quantize ;;
      os_remove onnx_path
  end.

(** *** [generate_model_header] *)

Definition generate_model_header (tflite_path header_path : string) : Py unit :=
  print (MsgGeneratingHeader header_path) ;;
  model_data <- read_binary tflite_path ;;
  write_text header_path (header_content model_data) ;;
  print (MsgHeaderGenerated (length model_data)).

(** *** [main] *)

(** The parsed command line. *)
Record Args : Type := {
  model : string;
  framework : Framework;
  output : string;
  quantize : bool;
  generate_header : bool
}.

(** Lines 267-286: the body of the [try] block of [main]. *)
Definition main_try (args : Args) : Py unit :=
  match framework args with
  | tensorflow => convert_tensorflow_model (model args) (output args) (quantize args)
  | pytorch => convert_pytorch_model (model args) (output args) (quantize args)
  | onnx => convert_onnx_model (model args) (output args) (quantize args)
  end ;;
  print (MsgConvertedSuccessfully (output args)) ;;
  (if generate_header args
   then
     let header_path := PyStr.replace (output args) ".tflite" ".h" in
     generate_model_header (output args) header_path
   else ret tt) ;;
  print (MsgNextSteps (output args)).

Definition main (args : Args) : Py unit :=
  setup_imports ;;
  found <- os_path_exists (model args) ;;
  (if found then ret tt
   else print (MsgModelFileNotFound (model args)) ;; sys_exit 1) ;;
  print MsgBanner ;;
  print (MsgInput (model args)) ;;
  print (MsgOutput (output args)) ;;
  print (MsgFramework (framework args)) ;;
  print (MsgQuantization (quantize args)) ;;
  print MsgBlank ;;
  try_except
    (main_try args)
    (fun e => print (MsgConversionFailed e) ;; sys_exit 1).

(** The exit status of the process: 0 when [main] returns, the argument of
    [sys.exit], 1 for an exception nobody caught. *)
Definition exit_code (r : Outcome unit) : nat :=
  match r with
  | Return _ => 0
  | Raise (SystemExit code) => code
  | Raise _ => 1
  end.

Definition run (args : Args) (files : gmap string node) (seed : N) : nat * World :=
  let (r, w) := main args (fresh_process files seed) in (exit_code r, w).

End Script.

(** ** Reading a header back

    What a C compiler sees in the generated header: the hexadecimal
    literals of the array and the declared length. *)

Definition hex_value (c : ascii) : option N :=
  if Ascii.eqb c "0" then Some 0%N else if Ascii.eqb c "1" then Some 1%N
  else if Ascii.eqb c "2" then Some 2%N else if Ascii.eqb c "3" then Some 3%N
  else if Ascii.eqb c "4" then Some 4%N else if Ascii.eqb c "5" then Some 5%N
  else if Ascii.eqb c "6" then Some 6%N else if Ascii.eqb c "7" then Some 7%N
  else if Ascii.eqb c "8" then Some 8%N else if Ascii.eqb c "9" then Some 9%N
  else if Ascii.eqb c "a" then Some 10%N else if Ascii.eqb c "b" then Some 11%N
  else if Ascii.eqb c "c" then Some 12%N else if Ascii.eqb c "d" then Some 13%N
  else if Ascii.eqb c "e" then Some 14%N else if Ascii.eqb c "f" then Some 15%N
  else None.

(** Every [0xHH] in the text, in order. *)
Fixpoint parse_hex_literals (s : string) : list byte :=
  match s with
  | EmptyString => []
  | String c s1 =>
      if Ascii.eqb c "0"
      then
        match s1 with
        | String x (String h (String l s4)) =>
            if Ascii.eqb x "x"
            then
              match hex_value h, hex_value l with
              | Some hi, Some lo => byte_of (16 * hi + lo) :: parse_hex_literals s4
              | _, _ => parse_hex_literals s1
              end
            else parse_hex_literals s1
        | _ => parse_hex_literals s1
        end
      else parse_hex_literals s1
  end.

(** [s] without the prefix [p], when it starts with [p]. *)
Fixpoint strip_prefix (p s : string) : option string :=
  match p, s with
  | EmptyString, _ => Some s
  | String a p', String b s' => if Ascii.eqb a b then strip_prefix p' s' else None
  | String _ _, EmptyString => None
  end.

(** What follows the first occurrence of [marker] in [s]. *)
Fixpoint find_after (marker s : string) : option string :=
  match strip_prefix marker s with
  | Some rest => Some rest
  | None =>
      match s with
      | EmptyString => None
      | String _ s' => find_after marker s'
      end
  end.

Definition is_digit (c : ascii) : bool :=
  match hex_value c with
  | Some v => (v <? 10)%N
  | None => false
  end.

Fixpoint take_digits (s : string) : string :=
  match s with
  | EmptyString => EmptyString
  | String c s' => if is_digit c then String c (take_digits s') else EmptyString
  end.

Definition length_marker : string := "sporenet_model_data_len = ".

(** The value of the constant [sporenet_model_data_len]. *)
Definition declared_length (text : string) : option nat :=
  match find_after length_marker text with
  | Some rest => option_map Nat.of_uint (NilEmpty.uint_of_string (take_digits rest))
  | None => None
  end.

(** Lines of the array: the bytes in groups of 16, the last one shorter. *)
Definition lines16 (model_data : list byte) : list (list byte) :=
  reshape (replicate ((length model_data + 15) / 16) 16) model_data.

Fixpoint join (l : list string) : string :=
  match l with
  | [] => EmptyString
  | s :: l' => s ++ join l'
  end.

Definition render_line (line : list byte) : string :=
  nl ++ "  " ++ join (map hex_literal line).

(** No character of [s] is [c]. *)
Fixpoint avoids (c : ascii) (s : string) : bool :=
  match s with
  | EmptyString => true
  | String x s' => negb (Ascii.eqb x c) && avoids c s'
  end.

(** [p] and [s] differ at a position both have. *)
Fixpoint clash (p s : string) : bool :=
  match p, s with
  | String a p', String b s' => if Ascii.eqb a b then clash p' s' else true
  | _, _ => false
  end.

(** [p] clashes with [s] at every starting position of [s]. *)
Fixpoint clash_everywhere (p s : string) : bool :=
  match s with
  | EmptyString => true
  | String _ s' => clash p s && clash_everywhere p s'
  end.

Definition starts_with_x (s : string) : bool :=
  match s with
  | String c _ => Ascii.eqb c "x"
  | EmptyString => false
  end.

Fixpoint all_digits (s : string) : bool :=
  match s with
  | EmptyString => true
  | String c s' => is_digit c && all_digits s'
  end.

(** The fixed pieces of the header text around the two places where the
    length is printed. *)
Definition top_before_length : string :=
  "// Auto-generated model header for SporeNet" ++ nl ++ "// Model size: ".

Definition top_after_length : string :=
  " bytes" ++ nl ++
  nl ++
  "#ifndef SPORENET_MODEL_H" ++ nl ++
  "#define SPORENET_MODEL_H" ++ nl ++
  nl ++
  "#include <stdint.h>" ++ nl ++
  nl ++
  "// Model data" ++ nl ++
  "extern const unsigned char sporenet_model_data[];" ++ nl ++
  "extern const int sporenet_model_data_len;" ++ nl ++
  nl ++
  "const unsigned char sporenet_model_data[] = {" ++ nl.

Definition bottom_before_marker : string :=
  nl ++ "};" ++ nl ++ nl ++ "const int ".

Definition bottom_after_length : string :=
  ";" ++ nl ++ nl ++ "#endif // SPORENET_MODEL_H" ++ nl.

(** [old in s], as the interpreter decides it *)
Fixpoint containsb (old s : string) : bool :=
  String.prefix old s ||
  match s with
  | EmptyString => false
  | String _ s' => containsb old s'
  end.

(** ** Vocabulary for the properties *)

Definition same_globals (w w' : World) : Prop :=
  g_tf w' = g_tf w /\ g_torch w' = g_torch w /\ g_onnx w' = g_onnx w.

Definition is_load_event (e : Event) : Prop :=
  match e with
  | EvKerasLoadModel _ | EvSavedModelLoad _ => True
  | _ => False
  end.

(** The converter [configure_quantization] leaves behind. *)
Definition quantization_settings (m : Model) (q : bool) (c : TFLiteConverter)
  : TFLiteConverter :=
  if q
  then
    match input_shape m with
    | Some (batch :: dims) =>
        set_inference_output_type int8
          (set_inference_input_type int8
             (set_supported_ops [TFLITE_BUILTINS_INT8]
                (set_representative_dataset {| rd_input_shape := dims |}
                   (set_optimizations [DEFAULT] c))))
    | _ => set_optimizations [DEFAULT] c
    end
  else c.

(** ** A toolchain and a file system to run the script on

    Stand-ins for the libraries, used to run the script on concrete
    requests. *)

Definition sample_binary : list byte := [x1c; x00; x00; x00; x54; x46; x4c; x33].

Definition sample_model : Model :=
  {| model_payload := [x89; x48; x44; x46];
     signatures := None;
     input_shape := Some [None; Some 28; Some 28; Some 1]%nat |}.

Definition sample_details : list TensorDetail * list TensorDetail :=
  ([{| td_shape := [1; 28; 28; 1]%nat; td_dtype := float32 |}],
   [{| td_shape := [1; 10]%nat; td_dtype := float32 |}]).

(** Everything is installed and every call succeeds. *)
Definition sample_toolchain : Toolchain :=
  {| import_tensorflow := true;
     import_torch := true;
     import_torchvision := true;
     import_onnx := true;
     import_onnx2tf := true;
     keras_load_model := fun files path =>
       match files !! path with
       | Some (File _) => Ok sample_model
       | _ => Err "unable to open file"
       end;
     saved_model_load := fun files path =>
       match files !! path with
       | Some _ => Ok sample_model
       | None => Err "SavedModel file does not exist"
       end;
     saved_model_open := fun files path =>
       match files !! path with
       | Some Dir => Ok tt
       | _ => Err "SavedModel file does not exist"
       end;
     tflite_convert := fun _ _ => Ok sample_binary;
     tflite_interpreter := fun _ => Ok sample_details;
     torch_load := fun files path =>
       match files !! path with
       | Some (File content) => Ok {| tm_payload := content; tm_is_module := true |}
       | _ => Err "no such file"
       end;
     torch_randn := fun rng shape => ([rng], N.succ rng);
     torch_onnx_export := fun m _ => Ok (tm_payload m);
     onnx2tf_convert := fun files path =>
       match files !! path with
       | Some (File content) => (Ok tt, Some [("saved_model.pb", File content)])
       | _ => (Err "cannot read the ONNX file", None)
       end;
     np_random_random := fun rng shape => (replicate (foldr Nat.mul 1%nat shape) rng, N.succ rng);
     np_astype_float32 := fun x => x |}.

Definition with_tflite_convert
    (f : list TFLiteConverter -> TFLiteConverter -> ToolResult (list byte))
    (tc : Toolchain) : Toolchain :=
  {| import_tensorflow := import_tensorflow tc;
     import_torch := import_torch tc;
     import_torchvision := import_torchvision tc;
     import_onnx := import_onnx tc;
     import_onnx2tf := import_onnx2tf tc;
     keras_load_model := keras_load_model tc;
     saved_model_load := saved_model_load tc;
     saved_model_open := saved_model_open tc;
     tflite_convert := f;
     tflite_interpreter := tflite_interpreter tc;
     torch_load := torch_load tc;
     torch_randn := torch_randn tc;
     torch_onnx_export := torch_onnx_export tc;
     onnx2tf_convert := onnx2tf_convert tc;
     np_random_random := np_random_random tc;
     np_astype_float32 := np_astype_float32 tc |}.

Definition with_tflite_interpreter
    (f : list byte -> ToolResult (list TensorDetail * list TensorDetail))
    (tc : Toolchain) : Toolchain :=
  {| import_tensorflow := import_tensorflow tc;
     import_torch := import_torch tc;
     import_torchvision := import_torchvision tc;
     import_onnx := import_onnx tc;
     import_onnx2tf := import_onnx2tf tc;
     keras_load_model := keras_load_model tc;
     saved_model_load := saved_model_load tc;
     saved_model_open := saved_model_open tc;
     tflite_convert := tflite_convert tc;
     tflite_interpreter := f;
     torch_load := torch_load tc;
     torch_randn := torch_randn tc;
     torch_onnx_export := torch_onnx_export tc;
     onnx2tf_convert := onnx2tf_convert tc;
     np_random_random := np_random_random tc;
     np_astype_float32 := np_astype_float32 tc |}.

(** The same toolchain with other answers to the optional imports. *)
Definition with_optional_imports (torch torchvision onnx onnx2tf : bool)
    (tc : Toolchain) : Toolchain :=
  {| import_tensorflow := import_tensorflow tc;
     import_torch := torch;
     import_torchvision := torchvision;
     import_onnx := onnx;
     import_onnx2tf := onnx2tf;
     keras_load_model := keras_load_model tc;
     saved_model_load := saved_model_load tc;
     saved_model_open := saved_model_open tc;
     tflite_convert := tflite_convert tc;
     tflite_interpreter := tflite_interpreter tc;
     torch_load := torch_load tc;
     torch_randn := torch_randn tc;
     torch_onnx_export := torch_onnx_export tc;
     onnx2tf_convert := onnx2tf_convert tc;
     np_random_random := np_random_random tc;
     np_astype_float32 := np_astype_float32 tc |}.

(** A toolchain whose [convert()] always raises. *)
Definition failing_toolchain : Toolchain :=
  with_tflite_convert (fun _ _ => Err "conversion error") sample_toolchain.

(** A toolchain whose interpreter rejects every binary. *)
Definition rejecting_toolchain : Toolchain :=
  with_tflite_interpreter (fun _ => Err "model is not valid") sample_toolchain.

(** A process started on one model file. *)
Definition sample_world (path : string) : World :=
  fresh_process (<[path := File sample_binary]> ∅) 0.

(** The same process after [setup_imports] found every library. *)
Definition ready_world (path : string) : World :=
  set_g_onnx Module (set_g_torch Module (set_g_tf Module (sample_world path))).

(** Calls other than [convert()] and the interpreter. *)
Definition is_preparation (e : Event) : Prop :=
  match e with
  | EvConvert _ | EvInterpreter _ => False
  | _ => True
  end.

(** From [w] to [w'] only such calls were made, and no global was
    assigned. *)
Definition quiet_step (w w' : World) : Prop :=
  same_globals w w'
  /\ exists evs, trace w' = (trace w ++ evs)%list /\ Forall is_preparation evs.

Definition always_fails (tc : Toolchain) : Prop :=
  forall tr c, exists cause, tflite_convert tc tr c = Err cause.

(** The converter the ONNX path calls [convert()] on. *)
Definition onnx_converter (output_path : string) (q : bool) : TFLiteConverter :=
  let c :=
    new_converter (from_saved_model (PyStr.replace output_path ".tflite" "_tf_model")) in
  if q then set_optimizations [DEFAULT] c else c.

(** What a run of the ONNX converter from [w] to [w'] with outcome [r] looks
    like: some preparation calls, then at most one [convert()], on the
    converter [onnx_converter]; a normal return means the conversion
    succeeded and nothing is left at or below the intermediate folder; an
    exception after a failed conversion is that failure. *)
Definition onnx_run (tc : Toolchain) (output_path : string) (q : bool)
    (w : World) (r : Outcome unit) (w' : World) : Prop :=
  let tf_model_path := PyStr.replace output_path ".tflite" "_tf_model" in
  let c := onnx_converter output_path q in
  same_globals w w'
  /\ exists pre convs,
       trace w' = (trace w ++ pre ++ map EvConvert convs)%list
       /\ Forall is_preparation pre
       /\ (convs = [] \/ convs = [c])
       /\ match r with
          | Return _ =>
              convs = [c]
              /\ (exists b files,
                    tflite_convert tc (conversions (trace w)) c = Ok b
                    /\ fs w' =
                         Fs.remove_tree tf_model_path (<[output_path := File b]> files))
              /\ forall p, Fs.under tf_model_path p = true -> fs w' !! p = None
          | Raise e =>
              is_Exception e = true
              /\ forall cause,
                   convs = [c] ->
                   tflite_convert tc (conversions (trace w)) c = Err cause ->
                   e = ToolchainError "tflite" cause
          end.

(** A run with at most one [convert()] call, on [c], whose failure is the
    failure of the run. *)
Definition one_conversion (tc : Toolchain) (c : TFLiteConverter)
    (w : World) (r : Outcome unit) (w' : World) : Prop :=
  same_globals w w'
  /\ exists pre convs,
       trace w' = (trace w ++ pre ++ map EvConvert convs)%list
       /\ Forall is_preparation pre
       /\ (convs = [] \/ convs = [c])
       /\ match r with
          | Return _ =>
              convs = [c]
              /\ exists b, tflite_convert tc (conversions (trace w)) c = Ok b
          | Raise e =>
              is_Exception e = true
              /\ forall cause,
                   convs = [c] ->
                   tflite_convert tc (conversions (trace w)) c = Err cause ->
                   e = ToolchainError "tflite" cause
          end.

(** The fallback as the specification words it: with a toolchain whose
    [convert()] always raises, any request that gets as far as a conversion
    shows exactly two [convert()] calls. *)
Definition retried_once_whatever_the_framework : Prop :=
  forall (tc : Toolchain) (args : Args) (files : gmap string node) (seed : N),
    always_fails tc ->
    let w' := (run tc args files seed).2 in
    conversions (trace w') <> [] ->
    length (conversions (trace w')) = 2%nat.

Definition onnx_request : Args :=
  {| model := "net.onnx"; framework := onnx; output := "net.tflite";
     quantize := true; generate_header := false |}.

Definition pytorch_request : Args :=
  {| model := "net.pt"; framework := pytorch; output := "net.tflite";
     quantize := true; generate_header := false |}.

Definition tensorflow_request : Args :=
  {| model := "net.h5"; framework := tensorflow; output := "net.tflite";
     quantize := true; generate_header := false |}.

Definition is_import (e : Event) : Prop :=
  match e with
  | EvImport _ => True
  | _ => False
  end.

(** The imports [setup_imports] attempts, in order. *)
Definition attempted_imports (tc : Toolchain) : list Event :=
  EvImport "tensorflow" ::
  (if import_tensorflow tc
   then
     EvImport "torch" :: (if import_torch tc then [EvImport "torchvision"] else [])
     ++ EvImport "onnx" :: (if import_onnx tc then [EvImport "onnx2tf"] else [])
   else [])%list.

(** The value of a module-level name after [setup_imports]. *)
Definition module_or_none (available : bool) : Global :=
  if available then Module else NoneVal.

(** Two worlds the TensorFlow converter cannot tell apart: same files, same
    [tf] global, same generator state, same earlier conversions. *)
Definition tf_equiv (w1 w2 : World) : Prop :=
  fs w1 = fs w2 /\ g_tf w1 = g_tf w2 /\ torch_rng w1 = torch_rng w2
  /\ conversions (trace w1) = conversions (trace w2).

(** A statement that behaves alike in such worlds. *)
Definition respects {A} (m : Py A) : Prop :=
  forall w1 w2, tf_equiv w1 w2 ->
    (m w1).1 = (m w2).1 /\ tf_equiv (m w1).2 (m w2).2.

(** The specification's isolation of a missing ONNX toolchain: a request
    for another format ends as it would with the toolchain installed. *)
Definition unaffected_by_missing_onnx : Prop :=
  forall (tc : Toolchain) (args : Args) (files : gmap string node) (seed : N),
    framework args <> onnx ->
    (run (with_optional_imports (import_torch tc) (import_torchvision tc) false false tc)
       args files seed).1
    = (run (with_optional_imports (import_torch tc) (import_torchvision tc) true true tc)
         args files seed).1.

(** The [except] clause of [main]. *)
Definition main_except (e : Exn) : Py unit :=
  print (MsgConversionFailed e) ;; sys_exit 1.

(** ** The quantization plan of the specification

    The specification speaks of a plan [{enabled, mode,
    representative_input_shape, sample_count}]; the script keeps no such
    value, it sets attributes of the converter.  [plan_of] reads the plan
    off a converter. *)

Inductive Mode : Type := NONE | DEFAULT_OPTIMIZE | INTEGER_8BIT.

Record QuantizationPlan : Type := {
  enabled : bool;
  mode : Mode;
  representative_input_shape : option (list (option nat));
  sample_count : nat
}.

Definition plan_of (c : TFLiteConverter) : QuantizationPlan :=
  match optimizations c with
  | [] =>
      {| enabled := false; mode := NONE;
         representative_input_shape := None; sample_count := 0 |}
  | _ :: _ =>
      match representative_dataset c with
      | Some r =>
          {| enabled := true; mode := INTEGER_8BIT;
             representative_input_shape := Some (rd_input_shape r);
             sample_count := 100 |}
      | None =>
          {| enabled := true; mode := DEFAULT_OPTIMIZE;
             representative_input_shape := None; sample_count := 0 |}
      end
  end.

(** [n] successive draws of a [float32] array of shape [shape] from
    NumPy's generator, each starting where the one before stopped. *)
Fixpoint successive_draws (tc : Toolchain) (n : nat) (shape : list nat) (rng : N)
  : list Tensor * N :=
  match n with
  | O => ([], rng)
  | S n' =>
      let (data, rng1) := np_random_random tc rng shape in
      let (rest, rng2) := successive_draws tc n' shape rng1 in
      ({| t_shape := shape; t_dtype := float32;
          t_data := map (np_astype_float32 tc) data |} :: rest, rng2)
  end.

(** A converter with no optimization or quantization setting at all. *)
Definition unquantized (c : TFLiteConverter) : Prop :=
  optimizations c = []
  /\ representative_dataset c = None
  /\ supported_ops c = [TFLITE_BUILTINS]
  /\ inference_input_type c = float32
  /\ inference_output_type c = float32.

Definition is_floating (d : DType) : bool :=
  match d with
  | float32 | float64 => true
  | _ => false
  end.

(** The plan of a request without quantization. *)
Definition plan_none : QuantizationPlan :=
  {| enabled := false; mode := NONE;
     representative_input_shape := None; sample_count := 0 |}.

(** What the specification takes for granted of the TFLite toolchain: a
    converter without any quantization setting yields a binary whose
    tensors, as the interpreter reports them, have floating-point types. *)
Definition toolchain_keeps_float (tc : Toolchain) : Prop :=
  forall tr c b ins outs,
    tflite_convert tc tr c = Ok b ->
    unquantized c ->
    tflite_interpreter tc b = Ok (ins, outs) ->
    Forall (fun d => is_floating (td_dtype d) = true) (ins ++ outs).

(** * The firmware generator (scripts/generate_firmware.py): [integrate_model]

    The second script runs as a process of its own: it has its own lines of
    output and uses no library but the file system. *)

Definition dq : string := String (ascii_of_nat 34) EmptyString.

Inductive FwMsg : Type :=
| FwIntegratingModel (model_path : string)
| FwModelIntegrated (bytes : nat).

Record FwWorld : Type := {
  fw_fs : gmap string node;
  fw_stdout : list FwMsg
}.

Definition Fw (A : Type) : Type := FwWorld -> Outcome A * FwWorld.

Definition fw_bind {A B} (m : Fw A) (k : A -> Fw B) : Fw B :=
  fun w =>
    match m w with
    | (Return a, w') => k a w'
    | (Raise e, w') => (Raise e, w')
    end.

Definition fw_print (m : FwMsg) : Fw unit :=
  fun w => (Return tt, {| fw_fs := fw_fs w; fw_stdout := fw_stdout w ++ [m] |}).

(** [with open(p, 'rb') as f: f.read()] *)
Definition fw_read_binary (p : string) : Fw (list byte) :=
  fun w =>
    match fw_fs w !! p with
    | Some (File content) => (Return content, w)
    | Some Dir => (Raise (IsADirectoryError p), w)
    | None => (Raise (FileNotFoundError p), w)
    end.

(** [os.path.dirname]: what stands before the last '/' of a path, [None]
    for a path without one. *)
Fixpoint dirname (p : string) : option string :=
  match p with
  | EmptyString => None
  | String c p' =>
      match dirname p' with
      | Some d => Some (String c d)
      | None => if Ascii.eqb c "/" then Some EmptyString else None
      end
  end.

(** What [open] finds where the file is to go: the current folder (a path
    without '/') and the root are there; any other folder is looked up. *)
Definition fw_parent (w : FwWorld) (p : string) : option node :=
  match dirname p with
  | None | Some EmptyString => Some Dir
  | Some d => fw_fs w !! d
  end.

(** [with open(p, 'w') as f: f.write(text)]: [open] creates the file, not
    the folder it goes to. *)
Definition fw_write_text (p : string) (text : string) : Fw unit :=
  fun w =>
    match fw_fs w !! p with
    | Some Dir => (Raise (IsADirectoryError p), w)
    | _ =>
        match fw_parent w p with
        | Some Dir =>
            (Return tt,
             {| fw_fs := <[p := File (list_byte_of_string text)]> (fw_fs w);
                fw_stdout := fw_stdout w |})
        | Some (File _) => (Raise (NotADirectoryError p), w)
        | None => (Raise (FileNotFoundError p), w)
        end
    end.

(** The first f-string of [integrate_model]. *)
Definition model_cpp_top (len : nat) : string :=
  "#include " ++ dq ++ "model_data.h" ++ dq ++ nl ++
  nl ++
  "// SporeNet model data - auto-generated" ++ nl ++
  "// Model size: " ++ PyStr.str_of_nat len ++ " bytes" ++ nl ++
  nl ++
  "const unsigned char sporenet_model_data[] = {" ++ nl.

(** The loop [for i, byte in enumerate(model_data)] of [integrate_model],
    from index [i] on: four spaces of indentation here. *)
Fixpoint model_cpp_loop (i : nat) (model_data : list byte) (model_cpp_content : string)
  : string :=
  match model_data with
  | [] => model_cpp_content
  | byte :: rest =>
      let model_cpp_content :=
        if (i mod 16 =? 0)%nat then model_cpp_content ++ nl ++ "    "
        else model_cpp_content in
      model_cpp_loop (S i) rest (model_cpp_content ++ hex_literal byte)
  end.

(** The last f-string. *)
Definition model_cpp_bottom (len : nat) : string :=
  nl ++ "};" ++ nl ++
  nl ++
  "const int sporenet_model_data_len = " ++ PyStr.str_of_nat len ++ ";" ++ nl.

Definition model_cpp_content (model_data : list byte) : string :=
  model_cpp_loop 0 model_data (model_cpp_top (length model_data))
  ++ model_cpp_bottom (length model_data).

Definition integrate_model (firmware_dir model_path : string) : Fw unit :=
  fw_bind (fw_print (FwIntegratingModel model_path)) (fun _ =>
  fw_bind (fw_read_binary model_path) (fun model_data =>
  fw_bind (fw_write_text (firmware_dir ++ "/main/model_data.cpp")
             (model_cpp_content model_data)) (fun _ =>
  fw_print (FwModelIntegrated (length model_data))))).

(** The fixed pieces of that text. *)
Definition cpp_top_before_length : string :=
  "#include " ++ dq ++ "model_data.h" ++ dq ++ nl ++
  nl ++
  "// SporeNet model data - auto-generated" ++ nl ++
  "// Model size: ".

Definition cpp_top_after_length : string :=
  " bytes" ++ nl ++ nl ++ "const unsigned char sporenet_model_data[] = {" ++ nl.

Definition cpp_bottom_after_length : string := ";" ++ nl.

(** ** More vocabulary *)

(** A statement that raises nothing but what [except Exception] catches. *)
Definition raises_exceptions_only {A} (m : Py A) : Prop :=
  forall w w' e, m w = (Raise e, w') -> is_Exception e = true.

Definition header_request : Args :=
  {| model := "net.h5"; framework := tensorflow; output := "net.tflite";
     quantize := true; generate_header := true |}.

Definition suffixless_request : Args :=
  {| model := "net.h5"; framework := tensorflow; output := "model.bin";
     quantize := true; generate_header := true |}.

(** A toolchain that converts a model only when no optimization is asked
    for. *)
Definition optimization_averse_toolchain : Toolchain :=
  with_tflite_convert
    (fun _ c => match optimizations c with
                | [] => Ok sample_binary
                | _ => Err "optimization not supported"
                end)
    sample_toolchain.

(** A toolchain whose interpreter finds no tensor in any binary. *)
Definition tensorless_toolchain : Toolchain :=
  with_tflite_interpreter (fun _ => Ok ([], [])) sample_toolchain.

Definition with_torch_load
    (f : gmap string node -> string -> ToolResult TorchModel)
    (tc : Toolchain) : Toolchain :=
  {| import_tensorflow := import_tensorflow tc;
     import_torch := import_torch tc;
     import_torchvision := import_torchvision tc;
     import_onnx := import_onnx tc;
     import_onnx2tf := import_onnx2tf tc;
     keras_load_model := keras_load_model tc;
     saved_model_load := saved_model_load tc;
     saved_model_open := saved_model_open tc;
     tflite_convert := tflite_convert tc;
     tflite_interpreter := tflite_interpreter tc;
     torch_load := f;
     torch_randn := torch_randn tc;
     torch_onnx_export := torch_onnx_export tc;
     onnx2tf_convert := onnx2tf_convert tc;
     np_random_random := np_random_random tc;
     np_astype_float32 := np_astype_float32 tc |}.

(** A toolchain where [torch.load] gives back what a file saved with
    [torch.save(model.state_dict(), path)] holds: a dictionary, not a
    module. *)
Definition state_dict_toolchain : Toolchain :=
  with_torch_load
    (fun files path =>
       match files !! path with
       | Some (File content) => Ok {| tm_payload := content; tm_is_module := false |}
       | _ => Err "no such file"
       end)
    sample_toolchain.

(** A machine with every library but TensorFlow. *)
Definition without_tensorflow : Toolchain :=
  {| import_tensorflow := false;
     import_torch := true;
     import_torchvision := true;
     import_onnx := true;
     import_onnx2tf := true;
     keras_load_model := keras_load_model sample_toolchain;
     saved_model_load := saved_model_load sample_toolchain;
     saved_model_open := saved_model_open sample_toolchain;
     tflite_convert := tflite_convert sample_toolchain;
     tflite_interpreter := tflite_interpreter sample_toolchain;
     torch_load := torch_load sample_toolchain;
     torch_randn := torch_randn sample_toolchain;
     torch_onnx_export := torch_onnx_export sample_toolchain;
     onnx2tf_convert := onnx2tf_convert sample_toolchain;
     np_random_random := np_random_random sample_toolchain;
     np_astype_float32 := np_astype_float32 sample_toolchain |}.

(** ** Calls of a statement *)

(** Every call the statement makes, in any run, satisfies [P]. *)
Definition emits (P : Event -> Prop) {A} (m : Py A) : Prop :=
  forall w r w', m w = (r, w') ->
    exists evs, trace w' = (trace w ++ evs)%list /\ Forall P evs.



(** Where the calls that take a derived path go: the exporter writes to
    [export_to], [onnx2tf] reads [onnx_input] and writes the folder
    [folder], which is then opened as a SavedModel. *)
Definition uses_paths (export_to onnx_input folder : string) (e : Event) : Prop :=
  match e with
  | EvTorchOnnxExport _ _ p => p = export_to
  | EvOnnx2tf i f => i = onnx_input /\ f = folder
  | EvFromSavedModel p => p = folder
  | _ => True
  end.




(** ** The command line

    [main] begins with [parser.parse_args()] (lines 232-249).  [argparse]
    hands back the parsed request, or ends the process itself: with status
    0 after the help text ([-h], [--help]), with status 2 after a usage
    error (a missing or unknown argument, a framework outside the three
    choices).  What [argparse] prints is not recorded. *)
Inductive CommandLine : Type :=
| Parsed (args : Args)
| HelpRequested
| UsageError.

(** [main()], from the command line on. *)
Definition main_from_command_line (tc : Toolchain) (cl : CommandLine) : Py unit :=
  match cl with
  | Parsed args => main tc args
  | HelpRequested => sys_exit 0
  | UsageError => sys_exit 2
  end.

Definition run_command_line (tc : Toolchain) (cl : CommandLine)
    (files : gmap string node) (seed : N) : nat * World :=
  let (r, w) := main_from_command_line tc cl (fresh_process files seed) in
  (exit_code r, w).

(** * Properties *)

(** ** Strings *)

Example replace_tflite_h :
  PyStr.replace "out/model.tflite" ".tflite" ".h" = "out/model.h".
Proof. reflexivity. Qed.

Example replace_all_occurrences :
  PyStr.replace "a.tflite.tflite" ".tflite" "_tf_model" = "a_tf_model_tf_model".
Proof. reflexivity. Qed.

Example replace_without_suffix :
  PyStr.replace "model.bin" ".tflite" ".onnx" = "model.bin".
Proof. reflexivity. Qed.

Example endswith_h5 : PyStr.endswith "net.h5" ".h5" = true.
Proof. reflexivity. Qed.

Example str_of_nat_1000 : PyStr.str_of_nat 1000 = "1000".
Proof. reflexivity. Qed.

Example str_of_nat_0 : PyStr.str_of_nat 0 = "0".
Proof. reflexivity. Qed.


Lemma append_assoc (a b c : string) : (a ++ b) ++ c = a ++ (b ++ c).
Proof. induction a as [|x a IH]; simpl; [reflexivity | now rewrite IH]. Qed.

Lemma append_nil_r (a : string) : a ++ EmptyString = a.
Proof. induction a as [|x a IH]; simpl; [reflexivity | now rewrite IH]. Qed.

Lemma prefix_split (a s : string) :
  String.prefix a s = true -> exists post, s = a ++ post.
Proof.
  revert s; induction a as [|x a IH]; intros s H.
  - exists s; reflexivity.
  - destruct s as [|y s]; simpl in H; [discriminate|].
    destruct (Ascii.ascii_dec x y) as [->|]; [|discriminate].
    destruct (IH _ H) as [post ->]. exists post; reflexivity.
Qed.

Lemma contains_tail (c : ascii) (s old : string) :
  PyStr.contains s old -> PyStr.contains (String c s) old.
Proof.
  intros (pre & post & ->). exists (String c pre), post. reflexivity.
Qed.

(** [replace] leaves a string without an occurrence of [old] as it is. *)
Lemma replace_absent (s old new : string) :
  ~ PyStr.contains s old -> PyStr.replace s old new = s.
Proof.
  unfold PyStr.replace. induction s as [|c s IH]; intros Hno; [reflexivity|].
  cbn [PyStr.replace_from].
  destruct (String.prefix old (String c s)) eqn:Hp.
  - exfalso. apply Hno. destruct (prefix_split _ _ Hp) as [post Hpost].
    exists EmptyString, post. exact Hpost.
  - f_equal. apply IH. intros Hc. apply Hno. now apply contains_tail.
Qed.

(** ** The header text and its readers *)

Lemma avoids_app (c : ascii) (a b : string) :
  avoids c (a ++ b) = avoids c a && avoids c b.
Proof.
  induction a as [|x a IH]; simpl; [reflexivity|].
  rewrite IH. now rewrite andb_assoc.
Qed.

Lemma parse_skip (a r : string) :
  avoids "0" a = true -> parse_hex_literals (a ++ r) = parse_hex_literals r.
Proof.
  induction a as [|x a IH]; simpl; intros H; [reflexivity|].
  apply andb_true_iff in H as [Hx Ha].
  destruct (Ascii.eqb x "0"); [discriminate|]. now apply IH.
Qed.


Lemma parse_zero_skip (s : string) :
  starts_with_x s = false ->
  parse_hex_literals (String "0" s) = parse_hex_literals s.
Proof.
  intros H. cbn [parse_hex_literals]. simpl Ascii.eqb. cbv iota.
  destruct s as [|x [|h [|l s4]]]; try reflexivity.
  simpl in H. now rewrite H.
Qed.


Lemma is_digit_not_x (c : ascii) : is_digit c = true -> Ascii.eqb c "x" = false.
Proof.
  destruct (Ascii.eqb c "x") eqn:E; [|reflexivity].
  apply Ascii.eqb_eq in E. subst c. discriminate.
Qed.

Lemma parse_skip_digits (ds r : string) :
  all_digits ds = true -> starts_with_x r = false ->
  parse_hex_literals (ds ++ r) = parse_hex_literals r.
Proof.
  induction ds as [|d ds IH]; simpl; intros H Hr; [reflexivity|].
  apply andb_true_iff in H as [Hd Hds].
  assert (Hx : starts_with_x (ds ++ r) = false).
  { destruct ds as [|d' ds']; [exact Hr|].
    cbn [all_digits] in Hds. apply andb_true_iff in Hds as [Hd' _].
    cbn [String.append starts_with_x]. now apply is_digit_not_x. }
  destruct (Ascii.eqb d "0") eqn:E.
  - apply Ascii.eqb_eq in E. subst d.
    change (parse_hex_literals (String "0" (ds ++ r)) = parse_hex_literals r).
    rewrite parse_zero_skip by exact Hx. now apply IH.
  - now apply IH.
Qed.

Lemma string_of_uint_digits (d : Decimal.uint) :
  all_digits (NilEmpty.string_of_uint d) = true.
Proof. induction d; simpl; auto. Qed.

Lemma str_of_nat_digits (n : nat) : all_digits (PyStr.str_of_nat n) = true.
Proof. apply string_of_uint_digits. Qed.

Lemma parse_hex_literal (b : byte) (r : string) :
  parse_hex_literals (hex_literal b ++ r) = b :: parse_hex_literals r.
Proof. destruct b; reflexivity. Qed.

Lemma hex_array_loop_acc (i : nat) (model_data : list byte) (acc : string) :
  hex_array_loop i model_data acc = acc ++ hex_array_loop i model_data EmptyString.
Proof.
  revert i acc. induction model_data as [|b rest IH]; intros i acc;
    cbn [hex_array_loop].
  - now rewrite append_nil_r.
  - rewrite IH. symmetry. rewrite IH. symmetry.
    destruct (i mod 16 =? 0)%nat; cbn [String.append]; now rewrite !append_assoc.
Qed.

(** The text of the array from index [i] on. *)
Lemma hex_array_loop_cons (i : nat) (b : byte) (rest : list byte) :
  hex_array_loop i (b :: rest) EmptyString =
  (if (i mod 16 =? 0)%nat then nl ++ "  " else EmptyString)
  ++ hex_literal b ++ hex_array_loop (S i) rest EmptyString.
Proof.
  cbn [hex_array_loop]. rewrite hex_array_loop_acc.
  destruct (i mod 16 =? 0)%nat; cbn [String.append]; now rewrite ?append_assoc.
Qed.

Lemma parse_hex_array (i : nat) (model_data : list byte) (r : string) :
  parse_hex_literals (hex_array_loop i model_data EmptyString ++ r) =
  (model_data ++ parse_hex_literals r)%list.
Proof.
  revert i. induction model_data as [|b rest IH]; intros i; [reflexivity|].
  rewrite hex_array_loop_cons, !append_assoc.
  rewrite parse_skip by (destruct (i mod 16 =? 0)%nat; reflexivity).
  rewrite parse_hex_literal, IH. reflexivity.
Qed.

Lemma header_top_split (len : nat) :
  header_top len = top_before_length ++ PyStr.str_of_nat len ++ top_after_length.
Proof. reflexivity. Qed.

Lemma header_bottom_split (len : nat) :
  header_bottom len =
  bottom_before_marker ++ length_marker ++ PyStr.str_of_nat len ++ bottom_after_length.
Proof. reflexivity. Qed.

Lemma header_content_split (model_data : list byte) :
  header_content model_data =
  header_top (length model_data)
  ++ hex_array_loop 0 model_data EmptyString
  ++ header_bottom (length model_data).
Proof.
  unfold header_content. rewrite hex_array_loop_acc. now rewrite append_assoc.
Qed.

(** Reading the literals of a header back gives the bytes it was made of. *)
Lemma parse_header_content (model_data : list byte) :
  parse_hex_literals (header_content model_data) = model_data.
Proof.
  rewrite header_content_split, header_top_split, header_bottom_split.
  rewrite !append_assoc.
  rewrite parse_skip by reflexivity.
  rewrite parse_skip_digits by (apply str_of_nat_digits || reflexivity).
  rewrite parse_skip by reflexivity.
  rewrite parse_hex_array.
  rewrite parse_skip by reflexivity.
  rewrite parse_skip by reflexivity.
  rewrite parse_skip_digits by (apply str_of_nat_digits || reflexivity).
  change (parse_hex_literals bottom_after_length) with (@nil byte).
  apply app_nil_r.
Qed.

Lemma clash_strip (p s r : string) :
  clash p s = true -> strip_prefix p (s ++ r) = None.
Proof.
  revert s. induction p as [|a p IH]; intros s H; [discriminate|].
  destruct s as [|b s]; [discriminate|].
  cbn [clash] in H. cbn [String.append strip_prefix].
  destruct (Ascii.eqb a b); [now apply IH | reflexivity].
Qed.

Lemma find_after_unfold (p s : string) :
  find_after p s =
  match strip_prefix p s with
  | Some rest => Some rest
  | None => match s with
            | EmptyString => None
            | String _ s' => find_after p s'
            end
  end.
Proof. destruct s; reflexivity. Qed.

Lemma find_after_skip (p a r : string) :
  clash_everywhere p a = true -> find_after p (a ++ r) = find_after p r.
Proof.
  induction a as [|c a IH]; intros H; [reflexivity|].
  cbn [clash_everywhere] in H. apply andb_true_iff in H as [Hc Ha].
  rewrite find_after_unfold, (clash_strip _ _ _ Hc).
  cbn [String.append]. now apply IH.
Qed.

Lemma avoids_clash (c : ascii) (p a : string) :
  avoids c a = true -> clash_everywhere (String c p) a = true.
Proof.
  induction a as [|x a IH]; intros H; [reflexivity|].
  cbn [avoids] in H. apply andb_true_iff in H as [Hx Ha].
  cbn [clash_everywhere clash]. rewrite Ascii.eqb_sym.
  destruct (Ascii.eqb x c); [discriminate|]. now apply IH.
Qed.

Lemma strip_prefix_app (p r : string) : strip_prefix p (p ++ r) = Some r.
Proof.
  induction p as [|a p IH]; [now destruct r|].
  cbn [String.append strip_prefix]. now rewrite Ascii.eqb_refl.
Qed.

Lemma find_after_here (p r : string) : find_after p (p ++ r) = Some r.
Proof. now rewrite find_after_unfold, strip_prefix_app. Qed.

Lemma digits_avoid_s (ds : string) : all_digits ds = true -> avoids "s" ds = true.
Proof.
  induction ds as [|d ds IH]; intros H; [reflexivity|].
  cbn [all_digits] in H. apply andb_true_iff in H as [Hd Hds].
  cbn [avoids]. rewrite IH by exact Hds.
  destruct (Ascii.eqb d "s") eqn:E; [|reflexivity].
  apply Ascii.eqb_eq in E. subst d. discriminate.
Qed.

Lemma hex_array_avoids_s (i : nat) (model_data : list byte) :
  avoids "s" (hex_array_loop i model_data EmptyString) = true.
Proof.
  revert i. induction model_data as [|b rest IH]; intros i; [reflexivity|].
  rewrite hex_array_loop_cons, !avoids_app, IH.
  assert (Hb : avoids "s" (hex_literal b) = true) by (destruct b; reflexivity).
  rewrite Hb. destruct (i mod 16 =? 0)%nat; reflexivity.
Qed.

Lemma take_digits_app (ds r : string) :
  all_digits ds = true -> take_digits r = EmptyString -> take_digits (ds ++ r) = ds.
Proof.
  induction ds as [|d ds IH]; intros H Hr; [exact Hr|].
  cbn [all_digits] in H. apply andb_true_iff in H as [Hd Hds].
  cbn [String.append take_digits]. rewrite Hd. now rewrite IH.
Qed.

(** The length constant of a header is the number of bytes. *)
Lemma declared_length_header_content (model_data : list byte) :
  declared_length (header_content model_data) = Some (length model_data).
Proof.
  unfold declared_length.
  rewrite header_content_split, header_top_split, header_bottom_split.
  rewrite !append_assoc.
  rewrite find_after_skip by reflexivity.
  rewrite find_after_skip
    by (apply avoids_clash, digits_avoid_s, str_of_nat_digits).
  rewrite find_after_skip by reflexivity.
  rewrite find_after_skip by (apply avoids_clash, hex_array_avoids_s).
  rewrite find_after_skip by reflexivity.
  rewrite find_after_here.
  rewrite take_digits_app by (apply str_of_nat_digits || reflexivity).
  unfold PyStr.str_of_nat. rewrite NilEmpty.usu. cbn [option_map].
  now rewrite DecimalNat.Unsigned.of_to.
Qed.

(** ** Sixteen literals per line *)

Lemma within_line (m i : nat) (model_data : list byte) :
  (forall t, t < m -> (i + t) mod 16 <> 0)%nat ->
  hex_array_loop i model_data EmptyString =
  join (map hex_literal (take m model_data))
  ++ hex_array_loop (i + m) (drop m model_data) EmptyString.
Proof.
  revert i model_data. induction m as [|m IH]; intros i model_data H.
  - rewrite Nat.add_0_r. reflexivity.
  - destruct model_data as [|b rest]; [reflexivity|].
    rewrite hex_array_loop_cons.
    assert (Hi : (i mod 16 =? 0)%nat = false).
    { apply Nat.eqb_neq. specialize (H 0%nat). rewrite Nat.add_0_r in H.
      apply H. lia. }
    rewrite Hi. cbn [take drop map join String.append].
    rewrite (IH (S i) rest).
    + rewrite append_assoc. now rewrite Nat.add_succ_r.
    + intros t Ht. specialize (H (S t)). rewrite Nat.add_succ_r in H.
      apply H. lia.
Qed.

Lemma hex_array_lines (n k : nat) (model_data : list byte) :
  (length model_data <= 16 * n)%nat ->
  (n = 0 \/ 16 * (n - 1) < length model_data)%nat ->
  hex_array_loop (16 * k) model_data EmptyString =
  join (map render_line (reshape (replicate n 16) model_data)).
Proof.
  revert k model_data. induction n as [|n IH]; intros k model_data Hle Hgt.
  - destruct model_data; [reflexivity | simpl in Hle; lia].
  - destruct model_data as [|b rest]; [simpl in Hgt; lia|].
    assert (H0 : ((16 * k) mod 16 =? 0)%nat = true).
    { apply Nat.eqb_eq. rewrite Nat.mul_comm. apply Nat.Div0.mod_mul. }
    rewrite hex_array_loop_cons, H0.
    rewrite (within_line 15 (S (16 * k)) rest).
    + replace (S (16 * k) + 15)%nat with (16 * S k)%nat by lia.
      cbn [replicate reshape map join]. unfold render_line at 1.
      change (take 16 (b :: rest)) with (b :: take 15 rest).
      change (drop 16 (b :: rest)) with (drop 15 rest).
      cbn [map join]. rewrite <- (IH (S k)).
      * now rewrite !append_assoc.
      * rewrite length_drop. simpl in Hle. lia.
      * rewrite length_drop. simpl in Hgt. lia.
    + intros t Ht.
      replace (S (16 * k) + t)%nat with (S t + k * 16)%nat by lia.
      rewrite Nat.Div0.mod_add, Nat.mod_small by lia. lia.
Qed.

Lemma header_lines (model_data : list byte) :
  hex_array_loop 0 model_data EmptyString =
  join (map render_line (lines16 model_data)).
Proof.
  unfold lines16.
  pose proof (Nat.div_mod_eq (length model_data + 15) 16) as Hd.
  pose proof (Nat.mod_upper_bound (length model_data + 15) 16) as Hm.
  apply (hex_array_lines _ 0); lia.
Qed.

Lemma reshape_16_concat (n : nat) (model_data : list byte) :
  (length model_data <= 16 * n)%nat ->
  concat (reshape (replicate n 16) model_data) = model_data.
Proof.
  revert model_data. induction n as [|n IH]; intros model_data H.
  - destruct model_data; [reflexivity | simpl in H; lia].
  - cbn [replicate reshape concat]. rewrite IH.
    + apply take_drop.
    + rewrite length_drop. lia.
Qed.

Lemma reshape_16_lookup (n k : nat) (model_data : list byte) :
  (k < n)%nat ->
  reshape (replicate n 16) model_data !! k = Some (take 16 (drop (16 * k) model_data)).
Proof.
  revert k model_data. induction n as [|n IH]; intros k model_data H; [lia|].
  cbn [replicate reshape]. destruct k as [|k].
  - reflexivity.
  - cbn [lookup list_lookup]. rewrite IH by lia. rewrite drop_drop.
    do 3 f_equal. lia.
Qed.

(** ** Two hexadecimal digits per byte *)

Lemma format_02x_digits (b : byte) :
  exists h l,
    format_02x b = String h (String l EmptyString)
    /\ hex_value h = Some (Byte.to_N b / 16)%N
    /\ hex_value l = Some (Byte.to_N b mod 16)%N.
Proof. destruct b; do 2 eexists; repeat split; reflexivity. Qed.

(** ** Substrings *)

Lemma prefix_app (a r : string) : String.prefix a (a ++ r) = true.
Proof.
  induction a as [|x a IH]; [now destruct r|].
  cbn [String.append String.prefix].
  destruct (Ascii.ascii_dec x x); [exact IH | congruence].
Qed.

Lemma contains_containsb (s old : string) :
  PyStr.contains s old -> containsb old s = true.
Proof.
  intros (pre & post & ->). induction pre as [|c pre IH].
  - cbn [String.append]. destruct (old ++ post) eqn:E; cbn [containsb];
      rewrite <- E, prefix_app; reflexivity.
  - cbn [String.append containsb]. rewrite IH. apply orb_true_r.
Qed.

Lemma not_contains (s old : string) :
  containsb old s = false -> ~ PyStr.contains s old.
Proof. intros H Hc. apply contains_containsb in Hc. congruence. Qed.

(** ** Writing the header file *)

Ltac world_simpl :=
  cbn [fs g_tf g_torch g_onnx torch_rng trace stdout add_stdout add_event set_fs
       set_g_tf set_g_torch set_g_onnx set_torch_rng fresh_process fst snd] in *.

Ltac py_unfold :=
  repeat progress
    (unfold bind, ret, raise, try_except, print, sys_exit, log_call, answer,
       os_path_exists, os_path_isdir, read_binary, write_text, write_binary,
       os_remove, shutil_rmtree, use_tf, global, index0 in *;
     cbv beta in * ).

Lemma generate_model_header_writes (tflite_path header_path : string)
    (model_data : list byte) (w : World) :
  fs w !! tflite_path = Some (File model_data) ->
  fs w !! header_path <> Some Dir ->
  exists w',
    generate_model_header tflite_path header_path w = (Return tt, w')
    /\ fs w' = <[header_path := File (list_byte_of_string (header_content model_data))]> (fs w).
Proof.
  intros Hr Hw.
  unfold generate_model_header. py_unfold. world_simpl. rewrite Hr. world_simpl.
  destruct (fs w !! header_path) as [[c|]|] eqn:E; try congruence;
    eexists; split; reflexivity.
Qed.

Lemma lines16_spec (model_data : list byte) :
  lines16 model_data =
  map (fun k => take 16 (drop (16 * k) model_data))
      (seq 0 ((length model_data + 15) / 16)).
Proof.
  unfold lines16. apply list_eq. intros k.
  set (n := ((length model_data + 15) / 16)%nat).
  destruct (decide (k < n)%nat) as [Hk|Hk].
  - rewrite reshape_16_lookup by exact Hk.
    rewrite list_lookup_fmap, lookup_seq_lt by exact Hk. reflexivity.
  - rewrite !lookup_ge_None_2; [reflexivity | |].
    + rewrite length_map, length_seq. lia.
    + rewrite length_reshape, length_replicate. lia.
Qed.

Lemma lines16_concat (model_data : list byte) :
  concat (lines16 model_data) = model_data.
Proof.
  apply reshape_16_concat.
  pose proof (Nat.div_mod_eq (length model_data + 15) 16).
  pose proof (Nat.mod_upper_bound (length model_data + 15) 16). lia.
Qed.

(** C3: the header generator renders each byte of the binary as a
    two-hex-digit literal [0xHH,], sixteen literals to a line in the order of
    the bytes; the length constant it declares is the number of bytes;
    reading the literals back gives the binary, whatever its length; and the
    header file written depends on the bytes of the binary alone, so that a
    second run on the same binary writes the same text. *)
Theorem emit_as_source_exact (model_data : list byte) :
  header_content model_data =
    header_top (length model_data)
    ++ join (map render_line (lines16 model_data))
    ++ header_bottom (length model_data)
  /\ lines16 model_data =
       map (fun k => take 16 (drop (16 * k) model_data))
           (seq 0 ((length model_data + 15) / 16))
  /\ concat (lines16 model_data) = model_data
  /\ (forall b : byte, exists h l,
        hex_literal b = String "0" (String "x" (String h (String l ",")))
        /\ hex_value h = Some (Byte.to_N b / 16)%N
        /\ hex_value l = Some (Byte.to_N b mod 16)%N)
  /\ declared_length (header_content model_data) = Some (length model_data)
  /\ parse_hex_literals (header_content model_data) = model_data
  /\ (forall (w : World) (tflite_path header_path : string),
        fs w !! tflite_path = Some (File model_data) ->
        fs w !! header_path <> Some Dir ->
        exists w',
          generate_model_header tflite_path header_path w = (Return tt, w')
          /\ fs w' !! header_path =
               Some (File (list_byte_of_string (header_content model_data)))).
Proof.
  split; [|split; [|split; [|split; [|split; [|split]]]]].
  - rewrite header_content_split, header_lines. reflexivity.
  - apply lines16_spec.
  - apply lines16_concat.
  - intros b. destruct (format_02x_digits b) as (h & l & E & Hh & Hl).
    exists h, l. unfold hex_literal. rewrite E. auto.
  - apply declared_length_header_content.
  - apply parse_header_content.
  - intros w tflite_path header_path Hr Hw.
    destruct (generate_model_header_writes _ _ _ _ Hr Hw) as (w' & E & Hfs).
    exists w'. split; [exact E|]. rewrite Hfs. apply lookup_insert_eq.
Qed.

Lemma emit_as_source_exact_witness :
  exists w',
    generate_model_header "model.tflite" "model.h" (sample_world "model.tflite")
    = (Return tt, w')
    /\ fs w' !! "model.h" =
         Some (File (list_byte_of_string (header_content sample_binary))).
Proof.
  destruct (emit_as_source_exact sample_binary) as (_ & _ & _ & _ & _ & _ & H).
  apply H; [reflexivity | discriminate].
Defined.

Example roundtrip_length_0 : parse_hex_literals (header_content []) = [].
Proof. reflexivity. Qed.

Example roundtrip_length_1 : parse_hex_literals (header_content [xab]) = [xab].
Proof. reflexivity. Qed.

Example roundtrip_length_15 :
  parse_hex_literals (header_content (replicate 15 x7f)) = replicate 15 x7f.
Proof. vm_compute. reflexivity. Qed.

Example roundtrip_length_16 :
  parse_hex_literals (header_content (replicate 16 x80)) = replicate 16 x80.
Proof. vm_compute. reflexivity. Qed.

Example roundtrip_length_1000 :
  parse_hex_literals (header_content (replicate 1000 xff)) = replicate 1000 xff
  /\ declared_length (header_content (replicate 1000 xff)) = Some 1000%nat.
Proof. vm_compute. split; reflexivity. Qed.

(** ** Reasoning about statements *)

Lemma bind_inv {A B} (m : Py A) (k : A -> Py B) (w w' : World) (r : Outcome B) :
  bind m k w = (r, w') ->
  (exists a w1, m w = (Return a, w1) /\ k a w1 = (r, w'))
  \/ (exists e, m w = (Raise e, w') /\ r = Raise e).
Proof.
  unfold bind. destruct (m w) as [[a|e] w1]; intros H.
  - left. eauto.
  - right. inversion H; subst. eauto.
Qed.

Lemma bind_assoc {A B C} (m : Py A) (k : A -> Py B) (h : B -> Py C) (w : World) :
  bind (bind m k) h w = bind m (fun a => bind (k a) h) w.
Proof. unfold bind. destruct (m w) as [[a|e] w1]; reflexivity. Qed.

Lemma conversions_app (a b : list Event) :
  conversions (a ++ b) = (conversions a ++ conversions b)%list.
Proof. apply omap_app. Qed.

Lemma conversions_add_event (e : Event) (w : World) :
  conversions (trace (add_event e w)) =
  (conversions (trace w) ++ conversions [e])%list.
Proof. apply conversions_app. Qed.

Section Fallback.

Variable tc : Toolchain.

(** What [convert()] does to the world. *)
Lemma converter_convert_eq (c : TFLiteConverter) (w : World) :
  converter_convert tc c w =
  (match tflite_convert tc (conversions (trace w)) c with
   | Ok b => Return b
   | Err cause => Raise (ToolchainError "tflite" cause)
   end, add_event (EvConvert c) w).
Proof.
  unfold converter_convert.
  destruct (tflite_convert tc (conversions (trace w)) c); reflexivity.
Qed.

(** The two attempts of the TensorFlow converter, in full. *)
Lemma convert_with_fallback_eq (c : TFLiteConverter) (w : World) :
  convert_with_fallback tc c w =
  match tflite_convert tc (conversions (trace w)) c with
  | Ok b =>
      (Return b, add_stdout MsgModelConversionSuccessful (add_event (EvConvert c) w))
  | Err cause1 =>
      let w1 :=
        add_stdout MsgRetrying
          (add_stdout (MsgConversionFailed (ToolchainError "tflite" cause1))
             (add_event (EvConvert c) w)) in
      match tflite_convert tc (conversions (trace w) ++ [c]) (set_optimizations [] c) with
      | Ok b =>
          (Return b,
           add_stdout MsgConvertedWithoutQuantization
             (add_event (EvConvert (set_optimizations [] c)) w1))
      | Err cause2 =>
          (Raise (ToolchainError "tflite" cause2),
           add_event (EvConvert (set_optimizations [] c)) w1)
      end
  end.
Proof.
  unfold convert_with_fallback, try_except, bind. rewrite converter_convert_eq.
  destruct (tflite_convert tc (conversions (trace w)) c) as [b|cause1];
    [reflexivity|].
  cbn [is_Exception print]. rewrite converter_convert_eq.
  cbn [trace add_stdout]. rewrite conversions_add_event. cbn [conversions omap].
  destruct (tflite_convert tc _ (set_optimizations [] c)); reflexivity.
Qed.

End Fallback.

(** Running a statement symbolically: case analysis on whatever a [match]
    of the hypothesis is stuck on. *)
Ltac py_step :=
  match goal with
  | H : (_, _) = (_, _) |- _ => inversion H; subst; clear H
  | H : context [match ?x with _ => _ end] |- _ =>
      first [is_var x; destruct x | destruct x eqn:?]
  | H : context [if ?x then _ else _] |- _ =>
      first [is_var x; destruct x | destruct x eqn:?]
  end.

Ltac py_exec := repeat (world_simpl; py_step; py_unfold); world_simpl.

(** [trace w' = trace w ++ evs] for the events the goal shows. *)
Ltac trace_ext :=
  first
    [ exists []; split; [now rewrite app_nil_r|]
    | rewrite <- ?app_assoc; eexists; split; [reflexivity|] ].

Section TensorFlowConverter.

Variable tc : Toolchain.

Lemma load_tensorflow_model_spec (model_path : string) (w w' : World)
    (r : Outcome (Model * TFLiteConverter)) :
  load_tensorflow_model tc model_path w = (r, w') ->
  fs w' = fs w /\ same_globals w w' /\ stdout w' = stdout w
  /\ (exists evs, trace w' = (trace w ++ evs)%list /\ Forall is_load_event evs)
  /\ match r with
     | Return mc => exists src, mc.2 = new_converter src
     | Raise e => is_Exception e = true
     end.
Proof.
  unfold load_tensorflow_model, tf_keras_models_load_model, tf_saved_model_load,
    TFLiteConverter_from_keras_model, TFLiteConverter_from_concrete_functions,
    same_globals.
  py_unfold. intros H. py_exec;
    (split; [reflexivity|]); (split; [auto|]); (split; [reflexivity|]);
    (split; [trace_ext; repeat constructor|]); simplify_eq; eauto.
Qed.

(** The settings step neither fails nor calls a library. *)
Lemma configure_quantization_eq (m : Model) (q : bool) (c : TFLiteConverter) (w : World) :
  configure_quantization m q c w =
  if q
  then
    match input_shape m with
    | Some (batch :: dims) =>
        (Return
           (set_inference_output_type int8
              (set_inference_input_type int8
                 (set_supported_ops [TFLITE_BUILTINS_INT8]
                    (set_representative_dataset {| rd_input_shape := dims |}
                       (set_optimizations [DEFAULT] c))))),
         add_stdout MsgIntegerQuantizationEnabled (add_stdout MsgEnablingQuantization w))
    | _ =>
        (Return (set_optimizations [DEFAULT] c), add_stdout MsgEnablingQuantization w)
    end
  else (Return c, w).
Proof.
  unfold configure_quantization. destruct q; [|reflexivity].
  destruct (input_shape m) as [[|batch dims]|]; reflexivity.
Qed.

Lemma convert_with_fallback_spec (c : TFLiteConverter) (w w' : World)
    (r : Outcome (list byte)) :
  convert_with_fallback tc c w = (r, w') ->
  fs w' = fs w /\ same_globals w w'
  /\ exists convs,
       trace w' = (trace w ++ map EvConvert convs)%list
       /\ (convs = [c] \/ convs = [c; set_optimizations [] c])
       /\ match r with
          | Return b =>
              exists c' tr, In c' convs /\ tflite_convert tc tr c' = Ok b
          | Raise e =>
              convs = [c; set_optimizations [] c]
              /\ exists cause1 cause2,
                   tflite_convert tc (conversions (trace w)) c = Err cause1
                   /\ tflite_convert tc (conversions (trace w) ++ [c])
                        (set_optimizations [] c) = Err cause2
                   /\ e = ToolchainError "tflite" cause2
          end.
Proof.
  rewrite convert_with_fallback_eq. unfold same_globals.
  destruct (tflite_convert tc (conversions (trace w)) c) as [b|cause1] eqn:E1.
  - intros [= <- <-]. world_simpl. split; [reflexivity|]. split; [auto|].
    exists [c]. split; [reflexivity|]. split; [auto|].
    exists c, (conversions (trace w)). split; [now left | exact E1].
  - cbv zeta.
    destruct (tflite_convert tc (conversions (trace w) ++ [c]) (set_optimizations [] c))
      as [b|cause2] eqn:E2; intros [= <- <-]; world_simpl;
      (split; [reflexivity|]); (split; [auto|]);
      exists [c; set_optimizations [] c];
      (split; [now rewrite <- app_assoc|]); (split; [auto|]).
    + exists (set_optimizations [] c), (conversions (trace w) ++ [c])%list.
      split; [right; now left | exact E2].
    + split; [reflexivity|]. eauto.
Qed.

Lemma write_binary_spec (p : string) (data : list byte) (w w' : World) (r : Outcome unit) :
  write_binary p data w = (r, w') ->
  trace w' = trace w /\ same_globals w w'
  /\ (r = Return tt /\ fs w' = <[p := File data]> (fs w)
      \/ r = Raise (IsADirectoryError p) /\ fs w' = fs w).
Proof.
  unfold write_binary, same_globals.
  destruct (fs w !! p) as [[content|]|]; intros [= <- <-]; world_simpl; auto 10.
Qed.

Lemma print_model_info_spec (b : list byte) (w w' : World) (r : Outcome unit) :
  print_model_info tc b w = (r, w') ->
  fs w' = fs w /\ same_globals w w'
  /\ (trace w' = trace w \/ trace w' = (trace w ++ [EvInterpreter b])%list)
  /\ match r with
     | Return _ =>
         trace w' = (trace w ++ [EvInterpreter b])%list
         /\ exists i ins o outs,
              tflite_interpreter tc b = Ok (i :: ins, o :: outs)
              /\ In (MsgInputType (td_dtype i)) (stdout w')
              /\ In (MsgOutputType (td_dtype o)) (stdout w')
     | Raise e => is_Exception e = true
     end.
Proof.
  unfold print_model_info, tf_lite_Interpreter, same_globals.
  py_unfold. intros H. py_exec;
    (split; [reflexivity|]); (split; [auto|]); (split; [auto|]);
    try reflexivity.
  split; [reflexivity|]. destruct a as [ins outs]. cbn [fst snd] in *. subst.
  do 4 eexists. split; [reflexivity|].
  rewrite !in_app_iff. cbn [In]. auto 20.
Qed.

Lemma configure_quantization_settings (m : Model) (q : bool) (c : TFLiteConverter)
    (w w' : World) (r : Outcome TFLiteConverter) :
  configure_quantization m q c w = (r, w') ->
  r = Return (quantization_settings m q c)
  /\ fs w' = fs w /\ trace w' = trace w /\ same_globals w w'.
Proof.
  rewrite configure_quantization_eq. unfold quantization_settings, same_globals.
  destruct q; [destruct (input_shape m) as [[|batch dims]|]|];
    intros [= <- <-]; world_simpl; auto 10.
Qed.

(** The stages of [convert_tensorflow_model]: loading, conversion (one or
    two attempts), writing the output file, inspection. *)
Lemma convert_tensorflow_model_stages (model_path output_path : string) (q : bool)
    (w w' : World) (r : Outcome unit) :
  convert_tensorflow_model tc model_path output_path q w = (r, w') ->
  same_globals w w'
  /\ exists loads convs tail,
      trace w' = (trace w ++ loads ++ map EvConvert convs ++ tail)%list
      /\ Forall is_load_event loads
      /\ ((convs = [] /\ tail = [] /\ fs w' = fs w
           /\ exists e,
                r = Raise e
                /\ load_tensorflow_model tc model_path
                     (add_stdout (MsgConvertingTensorFlow model_path) w)
                   = (Raise e, w'))
          \/ exists m src w_l,
               load_tensorflow_model tc model_path
                 (add_stdout (MsgConvertingTensorFlow model_path) w)
               = (Return (m, new_converter src), w_l)
               /\ let c := quantization_settings m q (new_converter src) in
                  (convs = [c] \/ convs = [c; set_optimizations [] c])
                  /\ ((convs = [c; set_optimizations [] c] /\ tail = []
                       /\ fs w' = fs w
                       /\ exists cause1 cause2,
                            tflite_convert tc (conversions (trace w_l)) c = Err cause1
                            /\ tflite_convert tc (conversions (trace w_l) ++ [c])
                                 (set_optimizations [] c) = Err cause2
                            /\ r = Raise (ToolchainError "tflite" cause2))
                      \/ exists b c' tr,
                           In c' convs /\ tflite_convert tc tr c' = Ok b
                           /\ ((tail = [] /\ fs w' = fs w
                                /\ r = Raise (IsADirectoryError output_path))
                               \/ exists w_mid,
                                    fs w_mid = <[output_path := File b]> (fs w)
                                    /\ trace w_mid =
                                         (trace w ++ loads ++ map EvConvert convs)%list
                                    /\ print_model_info tc b w_mid = (r, w')
                                    /\ fs w' = fs w_mid
                                    /\ (tail = [] \/ tail = [EvInterpreter b])))).
Proof.
  unfold convert_tensorflow_model. intros H.
  apply bind_inv in H as [(u0 & w0 & E0 & H1)|(e & E0 & _)]; [|discriminate].
  injection E0 as _ Hw0. subst w0.
  apply bind_inv in H1 as [(mc & w_l & Hl & H2)|(e & Hl & ->)];
    pose proof (load_tensorflow_model_spec _ _ _ _ Hl)
      as (Hfs_l & Hg_l & _ & (loads & Htr_l & Hloads) & Hr_l);
    unfold same_globals in *; world_simpl.
  2:{ split; [exact Hg_l|]. exists loads, [], []. cbn [map].
      rewrite !app_nil_r. split; [exact Htr_l|]. split; [exact Hloads|].
      left. eauto 10. }
  destruct mc as [m c0]. destruct Hr_l as [src Hsrc]. cbn [fst snd] in *. subst c0.
  apply bind_inv in H2 as [(c & w_c & Hc & H3)|(e & Hc & ->)];
    pose proof (configure_quantization_settings _ _ _ _ _ _ Hc)
      as (Hrc & Hfs_c & Htr_c & Hg_c); [|discriminate].
  injection Hrc as ->.
  apply bind_inv in H3 as [(b & w_f & Hf & H4)|(e & Hf & ->)];
    pose proof (convert_with_fallback_spec _ _ _ _ Hf)
      as (Hfs_f & Hg_f & convs & Htr_f & Hconvs & Hr_f).
  2:{ destruct Hr_f as (-> & cause1 & cause2 & E1 & E2 & ->).
      split; [unfold same_globals in *; intuition congruence|].
      exists loads, [quantization_settings m q (new_converter src);
                     set_optimizations [] (quantization_settings m q (new_converter src))], [].
      rewrite app_nil_r. split; [now rewrite Htr_f, Htr_c, Htr_l, <- app_assoc|].
      split; [exact Hloads|]. right. exists m, src, w_l. split; [exact Hl|].
      cbv zeta. split; [auto|]. left. rewrite Htr_c in E1, E2.
      split; [reflexivity|]. split; [reflexivity|].
      split; [congruence|]. eauto 10. }
  destruct Hr_f as (c' & tr & Hin & Hok).
  assert (Htr_wf : trace w_f = (trace w ++ loads ++ map EvConvert convs)%list)
    by (now rewrite Htr_f, Htr_c, Htr_l, <- app_assoc).
  apply bind_inv in H4 as [(u1 & w_w & Hw & H5)|(e & Hw & ->)];
    pose proof (write_binary_spec _ _ _ _ _ Hw)
      as (Htr_w & Hg_w & [(Hrw & Hfs_w)|(Hrw & Hfs_w)]); try discriminate.
  - pose proof (print_model_info_spec _ _ _ _ H5) as (Hfs_i & Hg_i & Htr_i & _).
    split; [unfold same_globals in *; intuition congruence|].
    assert (Htail : exists tail,
               (tail = [] \/ tail = [EvInterpreter b])
               /\ trace w' = (trace w_w ++ tail)%list).
    { destruct Htr_i as [E|E]; eexists; (split; [|rewrite E]);
        [left; reflexivity | now rewrite app_nil_r | right; reflexivity | reflexivity]. }
    destruct Htail as (tail & Htail & E).
    exists loads, convs, tail.
    split; [rewrite E, Htr_w, Htr_wf; now rewrite <- !app_assoc|].
    split; [exact Hloads|]. right. exists m, src, w_l. split; [exact Hl|].
    cbv zeta. split; [exact Hconvs|]. right. exists b, c', tr.
    split; [exact Hin|]. split; [exact Hok|]. right. exists w_w.
    split; [congruence|]. split; [congruence|]. split; [exact H5|].
    split; [exact Hfs_i|]. exact Htail.
  - injection Hrw as ->.
    split; [unfold same_globals in *; intuition congruence|].
    exists loads, convs, []. rewrite app_nil_r.
    split; [congruence|]. split; [exact Hloads|]. right.
    exists m, src, w_l. split; [exact Hl|]. cbv zeta. split; [exact Hconvs|].
    right. exists b, c', tr. split; [exact Hin|]. split; [exact Hok|].
    left. split; [reflexivity|]. split; [congruence|]. reflexivity.
Qed.

(** C10: in the TensorFlow converter the binary is on disk, in full, when
    the inspection starts: whenever the interpreter was called on a binary,
    the inspection began in a world where the output file already held that
    binary, the binary is the one a [convert()] call returned, and the output
    file still holds it when the function ends, however the inspection ended
    (nothing is rolled back when it fails). *)
Theorem output_written_before_inspection (model_path output_path : string) (q : bool)
    (w w' : World) (r : Outcome unit) (b : list byte) (evs : list Event) :
  convert_tensorflow_model tc model_path output_path q w = (r, w') ->
  trace w' = (trace w ++ evs)%list ->
  In (EvInterpreter b) evs ->
  (exists w_mid,
     fs w_mid = <[output_path := File b]> (fs w)
     /\ print_model_info tc b w_mid = (r, w'))
  /\ fs w' = <[output_path := File b]> (fs w)
  /\ fs w' !! output_path = Some (File b)
  /\ exists c tr, In (EvConvert c) evs /\ tflite_convert tc tr c = Ok b.
Proof.
  intros H Hevs Hin.
  destruct (convert_tensorflow_model_stages _ _ _ _ _ _ H)
    as (_ & loads & convs & tail & Htr & Hloads & Hcases).
  rewrite Hevs in Htr. apply app_inv_head in Htr. subst evs.
  assert (Htail : In (EvInterpreter b) tail).
  { rewrite !in_app_iff in Hin. destruct Hin as [Hin|[Hin|Hin]]; [| |exact Hin].
    - rewrite Forall_forall in Hloads.
      apply list_elem_of_In, Hloads in Hin. destruct Hin.
    - apply in_map_iff in Hin as (c & [=] & _). }
  destruct Hcases as [(_ & -> & _)|(m & src & w_l & _ & Hc)]; [destruct Htail|].
  cbv zeta in Hc.
  destruct Hc as (_ & [(_ & -> & _)|(b0 & c' & tr & Hc' & Hok & Hw)]);
    [destruct Htail|].
  destruct Hw as [(-> & _)|(w_mid & Hfs & _ & Hinfo & Hfs' & Ht)];
    [destruct Htail|].
  destruct Ht as [->| ->]; [destruct Htail|].
  destruct Htail as [[= ->]|[]].
  split; [eauto|]. split; [congruence|].
  split; [rewrite Hfs', Hfs; apply lookup_insert_eq|].
  exists c', tr. split; [|exact Hok].
  rewrite !in_app_iff. right. left. now apply in_map.
Qed.

End TensorFlowConverter.

Lemma output_written_before_inspection_witness :
  let run :=
    convert_tensorflow_model rejecting_toolchain "net.h5" "net.tflite" true
      (ready_world "net.h5") in
  run.1 = Raise (ToolchainError "tflite" "model is not valid")
  /\ fs run.2 !! "net.tflite" = Some (File sample_binary).
Proof.
  set (w := ready_world "net.h5").
  destruct (convert_tensorflow_model rejecting_toolchain "net.h5" "net.tflite" true w)
    as [r w'] eqn:E.
  cbv zeta. cbn [fst snd].
  assert (Hr : r = Raise (ToolchainError "tflite" "model is not valid")).
  { apply (f_equal fst) in E. cbn [fst] in E. rewrite <- E. vm_compute. reflexivity. }
  split; [exact Hr|].
  refine (proj1 (proj2 (proj2
    (output_written_before_inspection rejecting_toolchain "net.h5" "net.tflite" true
       w w' r sample_binary
       [EvKerasLoadModel "net.h5";
        EvConvert (quantization_settings sample_model true
                     (new_converter (from_keras_model sample_model)));
        EvInterpreter sample_binary] E _ _)))).
  - apply (f_equal snd) in E. cbn [snd] in E. rewrite <- E. vm_compute. reflexivity.
  - right. right. left. reflexivity.
Defined.


(** ** The ONNX converter *)

Lemma remove_tree_lookup (root p : string) (m : gmap string node) :
  Fs.under root p = true -> Fs.remove_tree root m !! p = None.
Proof.
  intros H. unfold Fs.remove_tree. apply map_lookup_filter_None. right.
  intros x _. cbn [fst]. congruence.
Qed.

Lemma under_refl (p : string) : Fs.under p p = true.
Proof. unfold Fs.under. now rewrite String.eqb_refl. Qed.

Lemma conversions_preparation (evs : list Event) :
  Forall is_preparation evs -> conversions evs = [].
Proof.
  induction 1 as [|e evs He _ IH]; [reflexivity|].
  destruct e; try destruct He; exact IH.
Qed.

Lemma try_except_inv {A} (m : Py A) (h : Exn -> Py A) (w w' : World) (r : Outcome A) :
  try_except m h w = (r, w') ->
  (exists a, m w = (Return a, w') /\ r = Return a)
  \/ (exists e w1, m w = (Raise e, w1) /\ is_Exception e = true /\ h e w1 = (r, w'))
  \/ (exists e, m w = (Raise e, w') /\ is_Exception e = false /\ r = Raise e).
Proof.
  unfold try_except. destruct (m w) as [[a|e] w1]; intros H.
  - left. inversion H; subst. eauto.
  - destruct (is_Exception e) eqn:E.
    + right. left. eauto.
    + right. right. inversion H; subst. eauto.
Qed.

Section OnnxConverter.

Variable tc : Toolchain.

Lemma import_onnx2tf_local_spec (w w' : World) (r : Outcome unit) :
  import_onnx2tf_local tc w = (r, w') ->
  fs w' = fs w /\ same_globals w w'
  /\ trace w' = (trace w ++ [EvImport "onnx2tf"])%list
  /\ match r with Return _ => True | Raise e => is_Exception e = true end.
Proof.
  unfold import_onnx2tf_local, same_globals. py_unfold. intros H. py_exec; auto 10.
Qed.

Lemma onnx2tf_convert_to_spec (input folder : string) (w w' : World) (r : Outcome unit) :
  onnx2tf_convert_to tc input folder w = (r, w') ->
  same_globals w w'
  /\ trace w' = (trace w ++ [EvOnnx2tf input folder])%list
  /\ match r with Return _ => True | Raise e => is_Exception e = true end.
Proof.
  unfold onnx2tf_convert_to, same_globals. py_unfold. intros H. py_exec; auto 10.
Qed.

Lemma from_saved_model_spec (path : string) (w w' : World) (r : Outcome TFLiteConverter) :
  TFLiteConverter_from_saved_model tc path w = (r, w') ->
  fs w' = fs w /\ same_globals w w'
  /\ (exists evs, trace w' = (trace w ++ evs)%list /\ Forall is_preparation evs)
  /\ match r with
     | Return c => c = new_converter (from_saved_model path)
     | Raise e => is_Exception e = true
     end.
Proof.
  unfold TFLiteConverter_from_saved_model, same_globals. py_unfold.
  intros H. py_exec; (split; [reflexivity|]); (split; [auto|]);
    (split; [trace_ext; repeat constructor|]); reflexivity.
Qed.

Lemma shutil_rmtree_spec (p : string) (w w' : World) (r : Outcome unit) :
  shutil_rmtree p w = (r, w') ->
  trace w' = trace w /\ same_globals w w'
  /\ match r with
     | Return _ =>
         fs w' = Fs.remove_tree p (fs w)
         /\ forall p', Fs.under p p' = true -> fs w' !! p' = None
     | Raise e => is_Exception e = true
     end.
Proof.
  unfold shutil_rmtree, same_globals.
  destruct (fs w !! p) as [[content|]|]; intros [= <- <-]; world_simpl;
    (split; [reflexivity|]); (split; [auto|]); try reflexivity.
  split; [reflexivity|]. intros p' Hp'. now apply remove_tree_lookup.
Qed.

Lemma convert_onnx_model_try_spec (model_path output_path : string) (q : bool)
    (w w' : World) (r : Outcome unit) :
  convert_onnx_model_try tc model_path output_path q w = (r, w') ->
  onnx_run tc output_path q w r w'.
Proof.
  unfold convert_onnx_model_try, onnx_run. intros H. cbv zeta in *.
  set (tfp := PyStr.replace output_path ".tflite" "_tf_model") in *.
  apply bind_inv in H as [(u1 & w1 & E1 & H1)|(e & E1 & ->)];
    pose proof (import_onnx2tf_local_spec _ _ _ E1) as (_ & G1 & T1 & R1).
  2:{ split; [exact G1|]. exists [EvImport "onnx2tf"], []. rewrite app_nil_r.
      split; [exact T1|]. split; [repeat constructor|]. split; [auto|].
      split; [exact R1|]. discriminate. }
  apply bind_inv in H1 as [(u2 & w2 & E2 & H2)|(e & E2 & ->)];
    pose proof (onnx2tf_convert_to_spec _ _ _ _ _ E2) as (G2 & T2 & R2).
  2:{ split; [unfold same_globals in *; intuition congruence|].
      exists [EvImport "onnx2tf"; EvOnnx2tf model_path tfp], [].
      rewrite app_nil_r. split; [now rewrite T2, T1, <- app_assoc|].
      split; [repeat constructor|]. split; [auto|].
      split; [exact R2|]. discriminate. }
  apply bind_inv in H2 as [(c0 & w3 & E3 & H3)|(e & E3 & ->)];
    pose proof (from_saved_model_spec _ _ _ _ E3) as (_ & G3 & (evs3 & T3 & P3) & R3).
  2:{ split; [unfold same_globals in *; intuition congruence|].
      exists ([EvImport "onnx2tf"; EvOnnx2tf model_path tfp] ++ evs3)%list, [].
      rewrite app_nil_r. split; [now rewrite T3, T2, T1, <- !app_assoc|].
      split; [apply Forall_app; split; [repeat constructor | exact P3]|].
      split; [auto|]. split; [exact R3|]. discriminate. }
  subst c0.
  change (if q then _ else _) with (onnx_converter output_path q) in H3.
  set (c := onnx_converter output_path q) in *.
  set (pre := ([EvImport "onnx2tf"; EvOnnx2tf model_path tfp] ++ evs3)%list).
  assert (Ppre : Forall is_preparation pre)
    by (apply Forall_app; split; [repeat constructor | exact P3]).
  assert (Tpre : trace w3 = (trace w ++ pre)%list)
    by (unfold pre; now rewrite T3, T2, T1, <- !app_assoc).
  assert (Cpre : conversions (trace w3) = conversions (trace w)).
  { rewrite Tpre, conversions_app, (conversions_preparation _ Ppre).
    apply app_nil_r. }
  assert (G4 : same_globals w (add_event (EvConvert c) w3))
    by (unfold same_globals in *; world_simpl; intuition congruence).
  assert (T4 : trace (add_event (EvConvert c) w3)
               = (trace w ++ pre ++ map EvConvert [c])%list)
    by (world_simpl; rewrite Tpre; cbn [map]; now rewrite <- app_assoc).
  apply bind_inv in H3 as [(b & w4 & E4 & H4)|(e & E4 & ->)];
    rewrite converter_convert_eq, Cpre in E4;
    destruct (tflite_convert tc (conversions (trace w)) c) as [b0|cause0] eqn:Eo;
    try discriminate; injection E4 as <- <-.
  2:{ split; [exact G4|]. exists pre, [c].
      split; [exact T4|]. split; [exact Ppre|]. split; [auto|].
      split; [reflexivity|]. intros cause _ [= ->]. reflexivity. }
  apply bind_inv in H4 as [(u5 & w5 & E5 & H5)|(e & E5 & ->)];
    pose proof (write_binary_spec _ _ _ _ _ E5) as (T5 & G5 & R5).
  2:{ split; [unfold same_globals in *; intuition congruence|]. exists pre, [c].
      split; [congruence|]. split; [exact Ppre|]. split; [auto|].
      split; [destruct R5 as [[[=] _]|[[= ->] _]]; reflexivity|]. discriminate. }
  apply bind_inv in H5 as [(u6 & w6 & E6 & H6)|(e & E6 & ->)];
    pose proof (shutil_rmtree_spec _ _ _ _ E6) as (T6 & G6 & R6).
  2:{ split; [unfold same_globals in *; intuition congruence|]. exists pre, [c].
      split; [congruence|]. split; [exact Ppre|]. split; [auto|].
      split; [exact R6|]. discriminate. }
  injection H6 as <- <-. world_simpl. destruct R6 as (F6 & R6).
  split; [unfold same_globals in *; world_simpl; intuition congruence|].
  exists pre, [c]. split; [congruence|]. split; [exact Ppre|]. split; [auto|].
  split; [reflexivity|]. split; [|exact R6].
  destruct R5 as [(_ & F5)|([=] & _)].
  exists b0, (fs w3). split; [reflexivity|]. world_simpl. now rewrite F6, F5.
Qed.

(** Output on [stdout] does not show in a run summary. *)
Lemma onnx_run_stdout (output_path : string) (q : bool) (w w' : World)
    (r : Outcome unit) (m : Msg) :
  onnx_run tc output_path q (add_stdout m w) r w' -> onnx_run tc output_path q w r w'.
Proof. exact (fun H => H). Qed.

Lemma onnx_run_stdout_after (output_path : string) (q : bool) (w w' : World)
    (r : Outcome unit) (m : Msg) :
  onnx_run tc output_path q w r w' ->
  (forall a, r <> Return a) ->
  onnx_run tc output_path q w r (add_stdout m w').
Proof. destruct r as [a|e]; intros H Hr; [now destruct (Hr a) | exact H]. Qed.

(** The ONNX converter as a whole. *)
Lemma convert_onnx_model_spec (model_path output_path : string) (q : bool)
    (w w' : World) (r : Outcome unit) :
  convert_onnx_model tc model_path output_path q w = (r, w') ->
  onnx_run tc output_path q w r w'.
Proof.
  unfold convert_onnx_model. intros H.
  assert (Hnone : forall e, is_Exception e = true ->
                    onnx_run tc output_path q w (Raise e) w).
  { intros e He. split; [unfold same_globals; auto|]. exists [], [].
    cbn [app map]. rewrite app_nil_r. repeat (split; [auto|]). discriminate. }
  assert (Hrun :
    (print (MsgConvertingOnnx model_path) ;;
     try_except (convert_onnx_model_try tc model_path output_path q)
       (fun e => print (MsgOnnxConversionFailed e) ;; print MsgConsiderOnnx2tf ;; raise e))
      w = (r, w') ->
    onnx_run tc output_path q w r w').
  { clear H Hnone. intros H.
    apply bind_inv in H as [(u & w1 & E1 & H1)|(e & E1 & _)]; [|discriminate].
    injection E1 as _ <-.
    apply try_except_inv in H1
      as [(a & Hm & ->)|[(e & w2 & Hm & He & Hh)|(e & Hm & He & ->)]];
      apply convert_onnx_model_try_spec in Hm; apply onnx_run_stdout in Hm.
    - exact Hm.
    - unfold bind, print, raise in Hh. injection Hh as <- <-.
      do 2 (apply onnx_run_stdout_after; [|discriminate]). exact Hm.
    - exact Hm. }
  apply bind_inv in H as [(g & w0 & E0 & H0)|(e & E0 & ->)];
    unfold global in E0; destruct (g_onnx w) eqn:Eg; try discriminate;
    injection E0 as <- <-.
  - injection H0 as <- <-. now apply Hnone.
  - apply Hrun. exact H0.
  - now apply Hnone.
Qed.

End OnnxConverter.

(** ** The PyTorch converter *)

Lemma quiet_step_refl (w : World) : quiet_step w w.
Proof.
  split; [unfold same_globals; auto|]. exists []. now rewrite app_nil_r.
Qed.

Lemma quiet_step_trans (w1 w2 w3 : World) :
  quiet_step w1 w2 -> quiet_step w2 w3 -> quiet_step w1 w3.
Proof.
  intros (G1 & evs1 & T1 & P1) (G2 & evs2 & T2 & P2).
  split; [unfold same_globals in *; intuition congruence|].
  exists (evs1 ++ evs2)%list. split; [now rewrite T2, T1, <- app_assoc|].
  now apply Forall_app.
Qed.

Lemma quiet_step_stdout (m : Msg) (w : World) : quiet_step w (add_stdout m w).
Proof. exact (quiet_step_refl w). Qed.

Lemma quiet_step_conversions (w w' : World) :
  quiet_step w w' -> conversions (trace w') = conversions (trace w).
Proof.
  intros (_ & evs & -> & P). rewrite conversions_app, (conversions_preparation _ P).
  apply app_nil_r.
Qed.

Section PyTorchConverter.

Variable tc : Toolchain.

Lemma one_conversion_prefix (c : TFLiteConverter) (w w1 w' : World) (r : Outcome unit) :
  quiet_step w w1 -> one_conversion tc c w1 r w' -> one_conversion tc c w r w'.
Proof.
  intros Hq (G & pre & convs & T & P & C & R).
  pose proof (quiet_step_conversions _ _ Hq) as Hc.
  destruct Hq as (G1 & evs & T1 & P1).
  split; [unfold same_globals in *; intuition congruence|].
  exists (evs ++ pre)%list, convs.
  split; [now rewrite T, T1, <- !app_assoc|].
  split; [now apply Forall_app|]. split; [exact C|].
  now rewrite <- Hc.
Qed.

Lemma one_conversion_early (c : TFLiteConverter) (w w' : World) (e : Exn) :
  quiet_step w w' -> is_Exception e = true -> one_conversion tc c w (Raise e) w'.
Proof.
  intros (G & evs & T & P) He. split; [exact G|]. exists evs, [].
  cbn [map]. rewrite app_nil_r. repeat (split; [auto|]). discriminate.
Qed.

Lemma onnx_run_one_conversion (output_path : string) (q : bool) (w w' : World)
    (r : Outcome unit) :
  onnx_run tc output_path q w r w' ->
  one_conversion tc (onnx_converter output_path q) w r w'.
Proof.
  intros (G & pre & convs & T & P & C & R). split; [exact G|].
  exists pre, convs. repeat (split; [assumption|]).
  destruct r as [u|e]; [|exact R]. destruct R as (R1 & (b & files & R2 & _) & _).
  eauto.
Qed.

Lemma torch_load_cpu_spec (path : string) (w w' : World) (r : Outcome TorchModel) :
  torch_load_cpu tc path w = (r, w') ->
  fs w' = fs w /\ quiet_step w w'
  /\ match r with Return _ => True | Raise e => is_Exception e = true end.
Proof.
  unfold torch_load_cpu, quiet_step, same_globals. py_unfold. intros H.
  py_exec; (split; [reflexivity|]); (split; [|reflexivity]);
    (split; [auto|]); eexists; (split; [reflexivity|]); repeat constructor.
Qed.

Lemma torch_onnx_export_to_spec (m : TorchModel) (t : Tensor) (path : string)
    (w w' : World) (r : Outcome unit) :
  torch_onnx_export_to tc m t path w = (r, w') ->
  quiet_step w w'
  /\ match r with Return _ => True | Raise e => is_Exception e = true end.
Proof.
  unfold torch_onnx_export_to, quiet_step, same_globals. py_unfold. intros H.
  py_exec; (split; [|reflexivity]);
    (split; [auto|]); eexists; (split; [reflexivity|]); repeat constructor.
Qed.

(** The PyTorch converter makes the calls of the ONNX converter after its
    own preparation. *)
Lemma convert_pytorch_model_spec (model_path output_path : string) (q : bool)
    (w w' : World) (r : Outcome unit) :
  convert_pytorch_model tc model_path output_path q w = (r, w') ->
  one_conversion tc (onnx_converter output_path q) w r w'.
Proof.
  unfold convert_pytorch_model. intros H.
  apply bind_inv in H as [(g & w0 & E0 & H0)|(e & E0 & ->)];
    unfold global in E0; destruct (g_torch w) eqn:Eg; try discriminate;
    injection E0 as <- <-;
    try (apply one_conversion_early; [apply quiet_step_refl | reflexivity]).
  { injection H0 as <- <-.
    apply one_conversion_early; [apply quiet_step_refl | reflexivity]. }
  apply bind_inv in H0 as [(u1 & w1 & E1 & H1)|(e & E1 & _)]; [|discriminate].
  injection E1 as _ <-.
  apply (one_conversion_prefix _ w (add_stdout (MsgConvertingPyTorch model_path) w));
    [exact (quiet_step_refl w)|].
  apply bind_inv in H1 as [(m & w2 & E2 & H2)|(e & E2 & ->)];
    pose proof (torch_load_cpu_spec _ _ _ _ E2) as (_ & Q2 & R2);
    [|now apply one_conversion_early].
  apply (one_conversion_prefix _ _ _ _ _ Q2).
  apply bind_inv in H2 as [(u3 & w3 & E3 & H3)|(e & E3 & ->)];
    unfold torch_eval in E3; destruct (tm_is_module m); try discriminate;
    injection E3 as <- <-;
    [|apply one_conversion_early; [apply quiet_step_refl | reflexivity]].
  apply bind_inv in H3 as [(t & w4 & E4 & H4)|(e & E4 & _)];
    unfold torch_randn_tensor in E4;
    destruct (torch_randn tc (torch_rng w2) dummy_input_shape) as [data rng'];
    [|discriminate].
  injection E4 as <- <-.
  apply (one_conversion_prefix _ w2 (set_torch_rng rng' w2));
    [exact (quiet_step_refl w2)|].
  apply bind_inv in H4 as [(u5 & w5 & E5 & H5)|(e & E5 & _)]; [|discriminate].
  injection E5 as _ <-.
  apply (one_conversion_prefix _ (set_torch_rng rng' w2)
           (add_stdout MsgConvertingToOnnx (set_torch_rng rng' w2)));
    [exact (quiet_step_refl _)|].
  apply bind_inv in H5 as [(u6 & w6 & E6 & H6)|(e & E6 & ->)];
    pose proof (torch_onnx_export_to_spec _ _ _ _ _ _ E6) as (Q6 & R6);
    [|now apply one_conversion_early].
  apply (one_conversion_prefix _ _ _ _ _ Q6).
  apply bind_inv in H6 as [(u7 & w7 & E7 & H7)|(e & E7 & ->)];
    apply convert_onnx_model_spec, onnx_run_one_conversion in E7;
    [|exact E7].
  destruct E7 as (G & pre & convs & T & P & C & -> & b & Hb).
  unfold os_remove in H7.
  destruct (fs w7 !! PyStr.replace output_path ".tflite" ".onnx") as [[content|]|];
    injection H7 as <- <-; world_simpl;
    (split; [exact G|]); exists pre, [onnx_converter output_path q];
    (split; [exact T|]); (split; [exact P|]); (split; [auto|]).
  - eauto.
  - split; [reflexivity|]. intros cause _ Hc. congruence.
  - split; [reflexivity|]. intros cause _ Hc. congruence.
Qed.

End PyTorchConverter.

(** ** The fallback *)

Lemma conversions_map (convs : list TFLiteConverter) :
  conversions (map EvConvert convs) = convs.
Proof.
  unfold conversions. induction convs as [|c convs IH]; [reflexivity|].
  cbn. now f_equal.
Qed.

Lemma load_event_preparation (e : Event) : is_load_event e -> is_preparation e.
Proof. destruct e; intros []; exact I. Qed.

Lemma conversions_loads (evs : list Event) :
  Forall is_load_event evs -> conversions evs = [].
Proof.
  intros H. apply conversions_preparation.
  eapply Forall_impl; [exact H | exact load_event_preparation].
Qed.

Lemma failing_toolchain_always_fails : always_fails failing_toolchain.
Proof. intros tr c. eexists. reflexivity. Qed.

(** C1, as the specification states it, fails: an ONNX request on a
    toolchain whose [convert()] always raises shows one call, not two. *)
Lemma onnx_conversion_is_not_retried : ~ retried_once_whatever_the_framework.
Proof.
  intros H.
  specialize (H failing_toolchain onnx_request
                (<["net.onnx" := File sample_binary]> ∅) 0%N
                failing_toolchain_always_fails).
  cbv zeta in H.
  assert (E : conversions
                (trace (run failing_toolchain onnx_request
                          (<["net.onnx" := File sample_binary]> ∅) 0).2)
              = [onnx_converter "net.tflite" true]) by (vm_compute; reflexivity).
  rewrite E in H. specialize (H ltac:(discriminate)). discriminate H.
Qed.

(** C1, amended: in the TensorFlow converter a first [convert()] that raises
    is followed by exactly one more call, on the same converter with its
    optimizations reset to the empty list; if that call raises too, its cause
    is what the converter raises and no further call is made, so that a
    toolchain which always fails is called exactly twice.  The ONNX
    converter, and the PyTorch converter which goes through it, call
    [convert()] at most once and raise its failure again without a retry. *)
Theorem fallback_retries_tensorflow_only (tc : Toolchain) :
  (forall (c : TFLiteConverter) (w : World),
     convert_with_fallback tc c w =
     match tflite_convert tc (conversions (trace w)) c with
     | Ok b =>
         (Return b,
          add_stdout MsgModelConversionSuccessful (add_event (EvConvert c) w))
     | Err cause1 =>
         let w1 :=
           add_stdout MsgRetrying
             (add_stdout (MsgConversionFailed (ToolchainError "tflite" cause1))
                (add_event (EvConvert c) w)) in
         match tflite_convert tc (conversions (trace w) ++ [c])
                 (set_optimizations [] c) with
         | Ok b =>
             (Return b,
              add_stdout MsgConvertedWithoutQuantization
                (add_event (EvConvert (set_optimizations [] c)) w1))
         | Err cause2 =>
             (Raise (ToolchainError "tflite" cause2),
              add_event (EvConvert (set_optimizations [] c)) w1)
         end
     end)
  /\ (forall (model_path output_path : string) (q : bool) (w w' : World)
         (r : Outcome unit),
        convert_tensorflow_model tc model_path output_path q w = (r, w') ->
        always_fails tc ->
        (exists e, r = Raise e)
        /\ (conversions (trace w') = conversions (trace w)
            \/ exists c,
                 conversions (trace w') =
                 (conversions (trace w) ++ [c; set_optimizations [] c])%list))
  /\ (forall (model_path output_path : string) (q : bool) (w w' : World)
         (r : Outcome unit),
        convert_onnx_model tc model_path output_path q w = (r, w') ->
        one_conversion tc (onnx_converter output_path q) w r w')
  /\ (forall (model_path output_path : string) (q : bool) (w w' : World)
         (r : Outcome unit),
        convert_pytorch_model tc model_path output_path q w = (r, w') ->
        one_conversion tc (onnx_converter output_path q) w r w').
Proof.
  split; [apply convert_with_fallback_eq|].
  split; [|split].
  - intros model_path output_path q w w' r H Hfail.
    destruct (convert_tensorflow_model_stages _ _ _ _ _ _ _ H)
      as (_ & loads & convs & tail & T & L & Hcases).
    assert (Hc : conversions (trace w') =
                 (conversions (trace w) ++ convs ++ conversions tail)%list).
    { rewrite T, !conversions_app, conversions_map, (conversions_loads _ L).
      reflexivity. }
    destruct Hcases as [(-> & -> & _ & e & He & _)|(m & src & w_l & _ & Hrun)].
    + split; [eauto|]. left. rewrite Hc. cbn. apply app_nil_r.
    + cbv zeta in Hrun.
      destruct Hrun as (_ & [(-> & -> & _ & c1 & c2 & _ & _ & ->)
                            |(b & c' & tr & _ & Hok & _)]).
      * split; [eauto|]. right. eexists. rewrite Hc. cbn. reflexivity.
      * destruct (Hfail tr c') as [cause Hcause]. congruence.
  - intros model_path output_path q w w' r H.
    now apply onnx_run_one_conversion, convert_onnx_model_spec with model_path.
  - intros model_path output_path q w w' r H.
    now apply convert_pytorch_model_spec with model_path.
Qed.

Lemma fallback_retries_tensorflow_only_witness :
  let w := ready_world "net.h5" in
  let run := convert_tensorflow_model failing_toolchain "net.h5" "net.tflite" true w in
  (exists e, run.1 = Raise e)
  /\ (conversions (trace run.2) = conversions (trace w)
      \/ exists c,
           conversions (trace run.2) =
           (conversions (trace w) ++ [c; set_optimizations [] c])%list).
Proof.
  cbv zeta.
  apply (proj1 (proj2 (fallback_retries_tensorflow_only failing_toolchain))
           "net.h5" "net.tflite" true).
  - apply surjective_pairing.
  - intros tr c. exists "conversion error". reflexivity.
Defined.

Example always_failing_tensorflow_two_calls :
  length (conversions (trace (run failing_toolchain tensorflow_request
                                (<["net.h5" := File sample_binary]> ∅) 0).2)) = 2%nat.
Proof. vm_compute. reflexivity. Qed.

(** ** The PyTorch export *)

(** C7: whatever the model, the PyTorch converter exports it to the
    intermediate ONNX file with a synthetic input of the fixed shape
    [1; 3; 224; 224], drawn from the random generator and not from the
    model, and the rest of its work is the ONNX converter run on that
    intermediate file, followed by the removal of the file. *)
Theorem pytorch_exports_with_fixed_input (tc : Toolchain)
    (model_path output_path : string) (q : bool) (w : World) (m : TorchModel) :
  g_torch w = Module ->
  torch_load tc (fs w) model_path = Ok m ->
  tm_is_module m = true ->
  let onnx_path := PyStr.replace output_path ".tflite" ".onnx" in
  let drawn := torch_randn tc (torch_rng w) [1; 3; 224; 224]%nat in
  let dummy_input :=
    {| t_shape := [1; 3; 224; 224]%nat; t_dtype := float32; t_data := drawn.1 |} in
  let w1 :=
    add_event (EvTorchOnnxExport m dummy_input onnx_path)
      (add_stdout MsgConvertingToOnnx
         (set_torch_rng drawn.2
            (add_event (EvTorchLoad model_path)
               (add_stdout (MsgConvertingPyTorch model_path) w)))) in
  convert_pytorch_model tc model_path output_path q w =
  (graph <- answer "torch" (torch_onnx_export tc m dummy_input) ;;
   write_binary onnx_path graph ;;
   convert_onnx_model tc onnx_path output_path q ;;
   os_remove onnx_path) w1.
Proof.
  intros Hg Hload Hmod. cbv zeta.
  unfold convert_pytorch_model, torch_load_cpu, torch_eval, torch_randn_tensor,
    torch_onnx_export_to, dummy_input_shape.
  unfold bind at 1. unfold global. rewrite Hg.
  unfold bind at 1. unfold print at 1.
  unfold bind at 1. unfold bind at 1. unfold log_call at 1. world_simpl.
  rewrite Hload. unfold answer at 1. unfold ret at 1.
  unfold bind at 1. rewrite Hmod. unfold ret at 1.
  unfold bind at 1. world_simpl.
  destruct (torch_randn tc (torch_rng w) [1; 3; 224; 224]%nat) as [data rng'].
  cbn [fst snd].
  unfold bind at 1. unfold print at 1.
  rewrite bind_assoc. unfold bind at 1. unfold log_call at 1.
  apply bind_assoc.
Qed.

Lemma pytorch_exports_with_fixed_input_witness :
  let w := ready_world "net.pt" in
  let dummy_input :=
    {| t_shape := [1; 3; 224; 224]%nat; t_dtype := float32; t_data := [0%N] |} in
  let m := {| tm_payload := sample_binary; tm_is_module := true |} in
  let w1 :=
    add_event (EvTorchOnnxExport m dummy_input "net.onnx")
      (add_stdout MsgConvertingToOnnx
         (set_torch_rng 1
            (add_event (EvTorchLoad "net.pt")
               (add_stdout (MsgConvertingPyTorch "net.pt") w)))) in
  convert_pytorch_model sample_toolchain "net.pt" "net.tflite" true w =
  (graph <- answer "torch" (torch_onnx_export sample_toolchain m dummy_input) ;;
   write_binary "net.onnx" graph ;;
   convert_onnx_model sample_toolchain "net.onnx" "net.tflite" true ;;
   os_remove "net.onnx") w1.
Proof.
  exact (pytorch_exports_with_fixed_input sample_toolchain "net.pt" "net.tflite" true
           (ready_world "net.pt")
           {| tm_payload := sample_binary; tm_is_module := true |}
           eq_refl eq_refl eq_refl).
Defined.

(** ** Start of the process *)

Lemma setup_imports_spec (tc : Toolchain) (w : World) :
  exists w',
    setup_imports tc w =
      (if import_tensorflow tc then Return tt else Raise (SystemExit 1), w')
    /\ fs w' = fs w
    /\ torch_rng w' = torch_rng w
    /\ trace w' = (trace w ++ attempted_imports tc)%list
    /\ (import_tensorflow tc = true ->
        g_tf w' = Module
        /\ g_torch w' = module_or_none (import_torch tc && import_torchvision tc)
        /\ g_onnx w' = module_or_none (import_onnx tc && import_onnx2tf tc))
    /\ (import_tensorflow tc = false ->
        stdout w' = (stdout w ++ [MsgTensorFlowNotFound])%list).
Proof.
  unfold setup_imports, attempted_imports, module_or_none. py_unfold.
  destruct (import_tensorflow tc), (import_torch tc), (import_torchvision tc),
    (import_onnx tc), (import_onnx2tf tc);
    eexists; (split; [reflexivity|]); world_simpl;
    rewrite <- ?app_assoc; cbn [app]; repeat split; try discriminate; reflexivity.
Qed.

Lemma attempted_imports_are_imports (tc : Toolchain) :
  Forall is_import (attempted_imports tc).
Proof.
  unfold attempted_imports.
  destruct (import_tensorflow tc), (import_torch tc), (import_onnx tc);
    repeat constructor.
Qed.

Lemma main_missing_input (tc : Toolchain) (args : Args)
    (files : gmap string node) (seed : N) :
  files !! model args = None ->
  exists w',
    main tc args (fresh_process files seed) = (Raise (SystemExit 1), w')
    /\ fs w' = files
    /\ trace w' = attempted_imports tc
    /\ (import_tensorflow tc = true ->
        last (stdout w') = Some (MsgModelFileNotFound (model args))).
Proof.
  intros Hmissing. unfold main.
  destruct (setup_imports_spec tc (fresh_process files seed))
    as (w1 & E & Hfs & _ & Htr & _ & _).
  world_simpl. unfold bind at 1. rewrite E.
  destruct (import_tensorflow tc) eqn:Etf.
  - unfold bind at 1. unfold os_path_exists, Fs.exists_.
    rewrite Hfs, Hmissing.
    rewrite bool_decide_eq_false_2 by (intros [x Hx]; discriminate).
    unfold bind at 1. unfold bind at 1. unfold print, sys_exit, raise.
    eexists. split; [reflexivity|]. world_simpl.
    split; [exact Hfs|]. split; [exact Htr|]. intros _. apply last_snoc.
  - exists w1. split; [reflexivity|]. split; [exact Hfs|]. split; [exact Htr|].
    discriminate.
Qed.

(** C5: when the model path does not exist the process ends with exit code
    1, the file system is as it was found (no temporary file), and the only
    calls made are the imports of [setup_imports]: no loader, converter or
    interpreter is reached; with TensorFlow installed the last line printed
    is the one reporting the missing model file and the exit is the
    [sys.exit(1)] that follows it. *)
Theorem missing_input_fails_at_dispatch (tc : Toolchain) (args : Args)
    (files : gmap string node) (seed : N) :
  files !! model args = None ->
  let result := run tc args files seed in
  result.1 = 1%nat
  /\ result.1 <> 0%nat
  /\ fs result.2 = files
  /\ trace result.2 = attempted_imports tc
  /\ Forall is_import (trace result.2)
  /\ (import_tensorflow tc = true ->
      (main tc args (fresh_process files seed)).1 = Raise (SystemExit 1)
      /\ last (stdout result.2) = Some (MsgModelFileNotFound (model args))).
Proof.
  intros Hmissing.
  destruct (main_missing_input tc args files seed Hmissing)
    as (w' & E & Hfs & Htr & Hout).
  unfold run. rewrite E. cbn [exit_code fst snd].
  split; [reflexivity|]. split; [discriminate|]. split; [exact Hfs|].
  split; [exact Htr|]. split; [rewrite Htr; apply attempted_imports_are_imports|].
  intros Htf. split; [reflexivity | now apply Hout].
Qed.

Lemma missing_input_fails_at_dispatch_witness :
  let result := run sample_toolchain tensorflow_request ∅ 0 in
  result.1 = 1%nat
  /\ fs result.2 = ∅
  /\ last (stdout result.2) = Some (MsgModelFileNotFound "net.h5").
Proof.
  destruct (missing_input_fails_at_dispatch sample_toolchain tensorflow_request ∅ 0)
    as (H1 & _ & H2 & _ & _ & H3).
  - reflexivity.
  - cbv zeta. split; [exact H1|]. split; [exact H2|].
    apply H3. reflexivity.
Defined.

(** ** Optional toolchains *)

Lemma respects_ret {A} (a : A) : respects (ret a).
Proof. intros w1 w2 H. auto. Qed.

Lemma respects_raise {A} (e : Exn) : respects (@raise A e).
Proof. intros w1 w2 H. auto. Qed.

Lemma respects_bind {A B} (m : Py A) (k : A -> Py B) :
  respects m -> (forall a, respects (k a)) -> respects (bind m k).
Proof.
  intros Hm Hk w1 w2 H. unfold bind. specialize (Hm w1 w2 H).
  destruct (m w1) as [[a1|e1] v1], (m w2) as [[a2|e2] v2];
    cbn [fst snd] in Hm; destruct Hm as [Hr Hw]; try discriminate Hr.
  - injection Hr as ->. now apply Hk.
  - injection Hr as ->. cbn [fst snd]. auto.
Qed.

Lemma respects_try_except {A} (m : Py A) (h : Exn -> Py A) :
  respects m -> (forall e, respects (h e)) -> respects (try_except m h).
Proof.
  intros Hm Hh w1 w2 H. unfold try_except. specialize (Hm w1 w2 H).
  destruct (m w1) as [[a1|e1] v1], (m w2) as [[a2|e2] v2];
    cbn [fst snd] in Hm; destruct Hm as [Hr Hw]; try discriminate Hr.
  - cbn [fst snd]. auto.
  - injection Hr as ->. destruct (is_Exception e2); [now apply Hh | cbn [fst snd]; auto].
Qed.

Lemma respects_print (m : Msg) : respects (print m).
Proof. intros w1 w2 H. split; [reflexivity | exact H]. Qed.

Lemma respects_log_call (e : Event) : respects (log_call e).
Proof.
  intros w1 w2 (H1 & H2 & H3 & H4). split; [reflexivity|].
  unfold log_call, tf_equiv. world_simpl. rewrite !conversions_app, H4. auto.
Qed.

Lemma respects_answer {A} (tool : string) (r : ToolResult A) : respects (answer tool r).
Proof. destruct r; [apply respects_ret | apply respects_raise]. Qed.

(** A statement that reads the files and leaves the world alone. *)
Lemma respects_reader {A} (f : gmap string node -> Py A) :
  (forall files, respects (f files)) -> respects (fun w => f (fs w) w).
Proof.
  intros Hf w1 w2 H. pose proof H as (Hfs & _). cbv beta. rewrite Hfs.
  now apply Hf.
Qed.

Lemma respects_use_tf : respects use_tf.
Proof.
  intros w1 w2 H. pose proof H as (_ & Hg & _).
  unfold use_tf, bind, global, ret, raise. rewrite Hg.
  destruct (g_tf w2); auto.
Qed.

Lemma respects_write_binary (p : string) (data : list byte) :
  respects (write_binary p data).
Proof.
  intros w1 w2 H. pose proof H as (Hfs & Hg & Hr & Hc).
  unfold write_binary. rewrite Hfs.
  destruct (fs w2 !! p) as [[c|]|]; cbn [fst snd]; unfold tf_equiv; world_simpl;
    rewrite ?Hfs; auto.
Qed.

Lemma respects_read_binary (p : string) : respects (read_binary p).
Proof.
  intros w1 w2 H. pose proof H as (Hfs & _).
  unfold read_binary. rewrite Hfs. destruct (fs w2 !! p) as [[c|]|]; auto.
Qed.

Lemma respects_os_path_isdir (p : string) : respects (os_path_isdir p).
Proof.
  intros w1 w2 H. pose proof H as (Hfs & _). unfold os_path_isdir.
  rewrite Hfs. auto.
Qed.

Lemma respects_index0 {A} (l : list A) : respects (index0 l).
Proof. destruct l; [apply respects_raise | apply respects_ret]. Qed.

Lemma respects_converter_convert (tc : Toolchain) (c : TFLiteConverter) :
  respects (converter_convert tc c).
Proof.
  intros w1 w2 H. pose proof H as (Hfs & Hg & Hr & Hc).
  rewrite !converter_convert_eq, Hc. cbn [fst snd]. split; [reflexivity|].
  unfold tf_equiv. world_simpl. rewrite !conversions_app, Hc. auto.
Qed.

Create HintDb respects.
#[local] Hint Resolve respects_ret respects_raise respects_print respects_log_call
  respects_answer respects_use_tf respects_write_binary respects_read_binary
  respects_os_path_isdir respects_index0 respects_converter_convert : respects.

Ltac respects_step :=
  match goal with
  | |- respects (bind _ _) => apply respects_bind; [|intros ?]
  | |- respects (try_except _ _) => apply respects_try_except; [|intros ?]
  | |- respects (fun w => answer _ (_ _ (fs w) _) w) =>
      apply (respects_reader (fun files => answer _ (_ _ files _)));
      intros ?; apply respects_answer
  | |- respects (if ?b then _ else _) => destruct b
  | |- respects (match ?x with _ => _ end) => destruct x
  | |- respects (let _ := _ in _) => cbv zeta
  | |- _ => solve [auto with respects]
  end.

Lemma respects_convert_tensorflow_model (tc : Toolchain)
    (model_path output_path : string) (q : bool) :
  respects (convert_tensorflow_model tc model_path output_path q).
Proof.
  unfold convert_tensorflow_model, load_tensorflow_model, configure_quantization,
    convert_with_fallback, print_model_info, tf_keras_models_load_model,
    tf_saved_model_load, TFLiteConverter_from_keras_model,
    TFLiteConverter_from_concrete_functions, tf_lite_Interpreter.
  repeat respects_step.
Qed.

Lemma respects_generate_model_header (tflite_path header_path : string) :
  respects (generate_model_header tflite_path header_path).
Proof. unfold generate_model_header, write_text. repeat respects_step. Qed.

Lemma bind_return_inv {A B} (m : Py A) (k : A -> Py B) (w w' : World) (b : B) :
  bind m k w = (Return b, w') ->
  exists a w1, m w = (Return a, w1) /\ k a w1 = (Return b, w').
Proof.
  intros H. apply bind_inv in H as [H|(e & _ & [=])]. exact H.
Qed.

(** Where [main] stands when the imports are done and the model file was
    found. *)
Lemma main_after_setup (tc : Toolchain) (args : Args)
    (files : gmap string node) (seed : N) :
  import_tensorflow tc = true ->
  is_Some (files !! model args) ->
  exists w1,
    main tc args (fresh_process files seed)
    = try_except (main_try tc args) main_except w1
    /\ fs w1 = files /\ torch_rng w1 = seed
    /\ trace w1 = attempted_imports tc
    /\ g_tf w1 = Module
    /\ g_torch w1 = module_or_none (import_torch tc && import_torchvision tc)
    /\ g_onnx w1 = module_or_none (import_onnx tc && import_onnx2tf tc).
Proof.
  intros Htf Hfound. unfold main.
  destruct (setup_imports_spec tc (fresh_process files seed))
    as (w1 & E & Hfs & Hrng & Htr & Hg & _).
  destruct (Hg Htf) as (G1 & G2 & G3).
  rewrite Htf in E. unfold bind at 1. rewrite E.
  unfold bind at 1. unfold os_path_exists, Fs.exists_. rewrite Hfs.
  rewrite bool_decide_eq_true_2 by exact Hfound.
  unfold bind at 1. unfold ret at 1.
  do 6 (unfold bind at 1; unfold print at 1).
  eexists. split; [reflexivity|]. world_simpl. auto 10.
Qed.

Lemma convert_pytorch_model_unavailable (tc : Toolchain)
    (model_path output_path : string) (q : bool) (w : World) :
  g_torch w = NoneVal ->
  convert_pytorch_model tc model_path output_path q w
  = (Raise (ImportError "PyTorch not available"), w).
Proof.
  intros H. unfold convert_pytorch_model, bind, global. now rewrite H.
Qed.

Lemma convert_onnx_model_unavailable (tc : Toolchain)
    (model_path output_path : string) (q : bool) (w : World) :
  g_onnx w = NoneVal ->
  convert_onnx_model tc model_path output_path q w
  = (Raise (ImportError "ONNX not available"), w).
Proof.
  intros H. unfold convert_onnx_model, bind, global. now rewrite H.
Qed.

(** Without the ONNX toolchain the PyTorch converter cannot return. *)
Lemma convert_pytorch_model_needs_onnx (tc : Toolchain)
    (model_path output_path : string) (q : bool) (w w' : World) (r : Outcome unit) :
  g_onnx w = NoneVal ->
  convert_pytorch_model tc model_path output_path q w = (r, w') ->
  exists e, r = Raise e /\ is_Exception e = true.
Proof.
  intros Hg H. destruct r as [u|e].
  2:{ apply convert_pytorch_model_spec in H.
      destruct H as (_ & pre & convs & _ & _ & _ & He & _). eauto. }
  exfalso. unfold convert_pytorch_model in H.
  apply bind_return_inv in H as (g & w0 & E0 & H).
  unfold global in E0. destruct (g_torch w) eqn:Et; try discriminate;
    injection E0 as <- <-; [discriminate H|].
  apply bind_return_inv in H as (u1 & w1 & E1 & H). injection E1 as _ <-.
  apply bind_return_inv in H as (m & w2 & E2 & H).
  apply torch_load_cpu_spec in E2 as (_ & ((_ & _ & G2) & _) & _).
  apply bind_return_inv in H as (u3 & w3 & E3 & H).
  unfold torch_eval in E3. destruct (tm_is_module m); [|discriminate].
  injection E3 as _ <-.
  apply bind_return_inv in H as (t & w4 & E4 & H).
  unfold torch_randn_tensor in E4.
  destruct (torch_randn tc (torch_rng w2) dummy_input_shape) as [data rng'].
  injection E4 as _ <-.
  apply bind_return_inv in H as (u5 & w5 & E5 & H). injection E5 as _ <-.
  apply bind_return_inv in H as (u6 & w6 & E6 & H).
  apply torch_onnx_export_to_spec in E6 as (((_ & _ & G6) & _) & _).
  apply bind_return_inv in H as (u7 & w7 & E7 & H).
  rewrite convert_onnx_model_unavailable in E7; [discriminate|].
  world_simpl. congruence.
Qed.

Lemma main_except_exit (e : Exn) (w : World) :
  main_except e w = (Raise (SystemExit 1), add_stdout (MsgConversionFailed e) w).
Proof. reflexivity. Qed.

(** A converter that raises makes [main] print the cause and exit with
    code 1. *)
Lemma main_try_raises (tc : Toolchain) (args : Args) (w w' : World) (e : Exn)
    (convert : Py unit) :
  main_try tc args = (convert ;;
                      print (MsgConvertedSuccessfully (output args)) ;;
                      (if generate_header args
                       then generate_model_header (output args)
                              (PyStr.replace (output args) ".tflite" ".h")
                       else ret tt) ;;
                      print (MsgNextSteps (output args))) ->
  convert w = (Raise e, w') ->
  is_Exception e = true ->
  try_except (main_try tc args) main_except w
  = (Raise (SystemExit 1), add_stdout (MsgConversionFailed e) w').
Proof.
  intros -> Hc He. unfold try_except, bind at 1. rewrite Hc, He.
  apply main_except_exit.
Qed.

Lemma respects_main_try_tensorflow (tc : Toolchain) (args : Args) :
  framework args = tensorflow ->
  respects (try_except (main_try tc args) main_except).
Proof.
  intros Hf. unfold main_try, main_except, sys_exit. rewrite Hf.
  apply respects_try_except; [|intros e; repeat respects_step].
  apply respects_bind; [apply respects_convert_tensorflow_model|intros _].
  apply respects_bind; [apply respects_print|intros _].
  apply respects_bind; [|intros _; apply respects_print].
  destruct (generate_header args);
    [apply respects_generate_model_header | apply respects_ret].
Qed.

Lemma conversions_imports (tc : Toolchain) : conversions (attempted_imports tc) = [].
Proof.
  apply conversions_preparation.
  eapply Forall_impl; [apply attempted_imports_are_imports|].
  intros e. destruct e; intros []; exact I.
Qed.

Lemma main_without_tensorflow (tc : Toolchain) (args : Args)
    (files : gmap string node) (seed : N) :
  import_tensorflow tc = false ->
  exists w',
    main tc args (fresh_process files seed) = (Raise (SystemExit 1), w')
    /\ fs w' = files
    /\ trace w' = attempted_imports tc.
Proof.
  intros Htf. unfold main.
  destruct (setup_imports_spec tc (fresh_process files seed))
    as (w1 & E & Hfs & _ & Htr & _ & _).
  rewrite Htf in E. unfold bind at 1. rewrite E. eauto.
Qed.

(** Before the converters are reached, [main] ends the same way whatever
    the request: exit code 1, nothing written, no call but the imports. *)
Lemma main_stops_early (tc : Toolchain) (args : Args)
    (files : gmap string node) (seed : N) :
  import_tensorflow tc = false \/ files !! model args = None ->
  exists w',
    main tc args (fresh_process files seed) = (Raise (SystemExit 1), w')
    /\ fs w' = files
    /\ trace w' = attempted_imports tc.
Proof.
  intros [H|H].
  - now apply main_without_tensorflow.
  - destruct (main_missing_input tc args files seed H) as (w' & E & F & T & _).
    eauto.
Qed.

Lemma run_pytorch_without_onnx (tc : Toolchain) (args : Args)
    (files : gmap string node) (seed : N) :
  framework args = pytorch ->
  import_onnx tc && import_onnx2tf tc = false ->
  (run tc args files seed).1 = 1%nat.
Proof.
  intros Hf Honnx. unfold run.
  destruct (import_tensorflow tc) eqn:Htf;
    [destruct (files !! model args) as [n|] eqn:Hfile|].
  - destruct (main_after_setup tc args files seed Htf) as (w1 & E & _ & _ & _ & _ & _ & G).
    { rewrite Hfile. eauto. }
    rewrite E. rewrite Honnx in G.
    destruct (convert_pytorch_model tc (model args) (output args) (quantize args) w1)
      as [r w2] eqn:Ec.
    destruct (convert_pytorch_model_needs_onnx _ _ _ _ _ _ _ G Ec) as (e & -> & He).
    erewrite main_try_raises; [reflexivity | | exact Ec | exact He].
    unfold main_try. now rewrite Hf.
  - destruct (main_stops_early tc args files seed (or_intror Hfile)) as (w' & E & _).
    now rewrite E.
  - destruct (main_stops_early tc args files seed (or_introl Htf)) as (w' & E & _).
    now rewrite E.
Qed.

Lemma run_tensorflow_independent (tc : Toolchain) (args : Args)
    (files : gmap string node) (seed : N) (a b c d : bool) :
  framework args = tensorflow ->
  let r1 := run tc args files seed in
  let r2 := run (with_optional_imports a b c d tc) args files seed in
  r1.1 = r2.1 /\ fs r1.2 = fs r2.2
  /\ conversions (trace r1.2) = conversions (trace r2.2).
Proof.
  intros Hf. cbv zeta. unfold run.
  set (tc' := with_optional_imports a b c d tc).
  assert (Hearly : import_tensorflow tc = false \/ files !! model args = None ->
            (let (r, w) := main tc args (fresh_process files seed) in (exit_code r, w)).1
            = (let (r, w) := main tc' args (fresh_process files seed) in (exit_code r, w)).1
            /\ fs (let (r, w) := main tc args (fresh_process files seed) in (exit_code r, w)).2
               = fs (let (r, w) := main tc' args (fresh_process files seed)
                     in (exit_code r, w)).2
            /\ conversions
                 (trace (let (r, w) := main tc args (fresh_process files seed)
                         in (exit_code r, w)).2)
               = conversions
                   (trace (let (r, w) := main tc' args (fresh_process files seed)
                           in (exit_code r, w)).2)).
  { intros H.
    destruct (main_stops_early tc args files seed H) as (w1 & E1 & F1 & T1).
    destruct (main_stops_early tc' args files seed H) as (w2 & E2 & F2 & T2).
    rewrite E1, E2. cbn [fst snd exit_code].
    rewrite F1, F2, T1, T2, !conversions_imports. auto. }
  destruct (import_tensorflow tc) eqn:Htf; [|now apply Hearly; left].
  destruct (files !! model args) as [n|] eqn:Hfile; [|now apply Hearly; right].
  destruct (main_after_setup tc args files seed Htf)
    as (w1 & E1 & F1 & R1 & T1 & G1 & _); [rewrite Hfile; eauto|].
  destruct (main_after_setup tc' args files seed Htf)
    as (w2 & E2 & F2 & R2 & T2 & G2 & _); [rewrite Hfile; eauto|].
  rewrite E1, E2.
  assert (Hsame : main_try tc' args = main_try tc args)
    by (unfold main_try; rewrite Hf; reflexivity).
  rewrite Hsame.
  assert (Heq : tf_equiv w1 w2).
  { unfold tf_equiv. rewrite F1, F2, R1, R2, T1, T2, G1, G2, !conversions_imports.
    auto. }
  destruct (respects_main_try_tensorflow tc args Hf w1 w2 Heq) as (Hr & Hfs & _ & _ & Hc).
  destruct (try_except (main_try tc args) main_except w1) as [r1 v1].
  destruct (try_except (main_try tc args) main_except w2) as [r2 v2].
  cbn [fst snd] in *. subst r2. auto.
Qed.

Lemma run_pytorch_unavailable (tc : Toolchain) (args : Args)
    (files : gmap string node) (seed : N) :
  import_tensorflow tc = true ->
  is_Some (files !! model args) ->
  framework args = pytorch ->
  import_torch tc && import_torchvision tc = false ->
  let result := run tc args files seed in
  result.1 = 1%nat /\ fs result.2 = files
  /\ trace result.2 = attempted_imports tc
  /\ last (stdout result.2) =
       Some (MsgConversionFailed (ImportError "PyTorch not available")).
Proof.
  intros Htf Hfile Hf Hmissing. cbv zeta. unfold run.
  destruct (main_after_setup tc args files seed Htf Hfile)
    as (w1 & E & F & _ & T & _ & G & _).
  rewrite E. rewrite Hmissing in G.
  erewrite main_try_raises;
    [ | unfold main_try; now rewrite Hf
      | now apply convert_pytorch_model_unavailable | reflexivity].
  cbn [fst snd exit_code]. world_simpl. rewrite last_snoc. auto.
Qed.

Lemma run_onnx_unavailable (tc : Toolchain) (args : Args)
    (files : gmap string node) (seed : N) :
  import_tensorflow tc = true ->
  is_Some (files !! model args) ->
  framework args = onnx ->
  import_onnx tc && import_onnx2tf tc = false ->
  let result := run tc args files seed in
  result.1 = 1%nat /\ fs result.2 = files
  /\ trace result.2 = attempted_imports tc
  /\ last (stdout result.2) =
       Some (MsgConversionFailed (ImportError "ONNX not available")).
Proof.
  intros Htf Hfile Hf Hmissing. cbv zeta. unfold run.
  destruct (main_after_setup tc args files seed Htf Hfile)
    as (w1 & E & F & _ & T & _ & _ & G).
  rewrite E. rewrite Hmissing in G.
  erewrite main_try_raises;
    [ | unfold main_try; now rewrite Hf
      | now apply convert_onnx_model_unavailable | reflexivity].
  cbn [fst snd exit_code]. world_simpl. rewrite last_snoc. auto.
Qed.

(** An onnx request and the PyTorch libraries: the ONNX converter reads
    the global [onnx], never [torch]. *)
Lemma respects_onnx2tf_convert_to (tc : Toolchain) (input folder : string) :
  respects (onnx2tf_convert_to tc input folder).
Proof.
  unfold onnx2tf_convert_to. apply respects_bind; [apply respects_log_call|intros _].
  intros w1 w2 H. pose proof H as (Hfs & Hg & Hr & Hc). cbv beta. rewrite Hfs.
  destruct (onnx2tf_convert tc (fs w2) input) as [r [entries|]].
  - destruct (fs w2 !! folder) as [[content|]|]; cbn [fst snd];
      try (split; [reflexivity | exact H]);
      destruct r; cbn [answer ret raise fst snd]; (split; [reflexivity|]);
      unfold tf_equiv; world_simpl; rewrite ?Hfs; auto.
  - destruct r; cbn [answer ret raise fst snd]; auto.
Qed.

Lemma respects_shutil_rmtree (p : string) : respects (shutil_rmtree p).
Proof.
  intros w1 w2 H. pose proof H as (Hfs & Hg & Hr & Hc).
  unfold shutil_rmtree. rewrite Hfs.
  destruct (fs w2 !! p) as [[c|]|]; cbn [fst snd]; unfold tf_equiv; world_simpl;
    rewrite ?Hfs; auto.
Qed.

Lemma respects_convert_onnx_model_try (tc : Toolchain)
    (model_path output_path : string) (q : bool) :
  respects (convert_onnx_model_try tc model_path output_path q).
Proof.
  unfold convert_onnx_model_try, import_onnx2tf_local, TFLiteConverter_from_saved_model.
  cbv zeta.
  apply respects_bind; [repeat respects_step|intros _].
  apply respects_bind; [apply respects_onnx2tf_convert_to|intros _].
  apply respects_bind; [repeat respects_step|intros c].
  apply respects_bind; [apply respects_converter_convert|intros b].
  apply respects_bind; [apply respects_write_binary|intros _].
  apply respects_bind; [apply respects_shutil_rmtree|intros _].
  apply respects_print.
Qed.

Lemma convert_onnx_model_unfold (tc : Toolchain) (model_path output_path : string)
    (q : bool) (w : World) :
  convert_onnx_model tc model_path output_path q w =
  match g_onnx w with
  | Unbound => (Raise (NameError "onnx"), w)
  | NoneVal => (Raise (ImportError "ONNX not available"), w)
  | Module =>
      (print (MsgConvertingOnnx model_path) ;;
       try_except (convert_onnx_model_try tc model_path output_path q)
         (fun e => print (MsgOnnxConversionFailed e) ;; print MsgConsiderOnnx2tf ;; raise e))
        w
  end.
Proof.
  unfold convert_onnx_model. unfold bind at 1. unfold global.
  destruct (g_onnx w); reflexivity.
Qed.

(** In two worlds that agree on the files, on [tf], on [onnx] and on the
    conversions made, the ONNX converter ends alike, whatever [torch] is. *)
Lemma convert_onnx_model_ignores_torch (tc : Toolchain)
    (model_path output_path : string) (q : bool) (w1 w2 : World) :
  tf_equiv w1 w2 ->
  g_onnx w1 = g_onnx w2 ->
  (convert_onnx_model tc model_path output_path q w1).1
  = (convert_onnx_model tc model_path output_path q w2).1
  /\ tf_equiv (convert_onnx_model tc model_path output_path q w1).2
              (convert_onnx_model tc model_path output_path q w2).2.
Proof.
  intros H Hg. rewrite !convert_onnx_model_unfold, Hg.
  destruct (g_onnx w2); cbn [fst snd]; auto.
  revert w1 w2 H Hg. intros w1 w2 H _. revert w1 w2 H.
  change (respects
            (print (MsgConvertingOnnx model_path) ;;
             try_except (convert_onnx_model_try tc model_path output_path q)
               (fun e => print (MsgOnnxConversionFailed e) ;;
                         print MsgConsiderOnnx2tf ;; raise e))).
  apply respects_bind; [apply respects_print|intros _].
  apply respects_try_except; [apply respects_convert_onnx_model_try|intros e].
  repeat respects_step.
Qed.

Lemma respects_bind_at {A B} (m : Py A) (k : A -> Py B) (w1 w2 : World) :
  (m w1).1 = (m w2).1 ->
  tf_equiv (m w1).2 (m w2).2 ->
  (forall a, respects (k a)) ->
  (bind m k w1).1 = (bind m k w2).1 /\ tf_equiv (bind m k w1).2 (bind m k w2).2.
Proof.
  intros Hr Hw Hk. unfold bind.
  destruct (m w1) as [[a1|e1] v1], (m w2) as [[a2|e2] v2];
    cbn [fst snd] in *; try discriminate Hr.
  - injection Hr as ->. now apply Hk.
  - injection Hr as ->. auto.
Qed.

Lemma respects_try_except_at {A} (m : Py A) (h : Exn -> Py A) (w1 w2 : World) :
  (m w1).1 = (m w2).1 ->
  tf_equiv (m w1).2 (m w2).2 ->
  (forall e, respects (h e)) ->
  (try_except m h w1).1 = (try_except m h w2).1
  /\ tf_equiv (try_except m h w1).2 (try_except m h w2).2.
Proof.
  intros Hr Hw Hh. unfold try_except.
  destruct (m w1) as [[a1|e1] v1], (m w2) as [[a2|e2] v2];
    cbn [fst snd] in *; try discriminate Hr.
  - auto.
  - injection Hr as ->. destruct (is_Exception e2); [now apply Hh | auto].
Qed.

(** An onnx request ends the same way, with the same files and the same
    conversions, whether or not the PyTorch libraries are installed. *)
Lemma run_onnx_independent_of_torch (tc : Toolchain) (args : Args)
    (files : gmap string node) (seed : N) (a b : bool) :
  framework args = onnx ->
  let r1 := run tc args files seed in
  let r2 := run (with_optional_imports a b (import_onnx tc) (import_onnx2tf tc) tc)
              args files seed in
  r1.1 = r2.1 /\ fs r1.2 = fs r2.2
  /\ conversions (trace r1.2) = conversions (trace r2.2).
Proof.
  intros Hf. cbv zeta. unfold run.
  set (tc' := with_optional_imports a b (import_onnx tc) (import_onnx2tf tc) tc).
  assert (Hearly : import_tensorflow tc = false \/ files !! model args = None ->
            (let (r, w) := main tc args (fresh_process files seed) in (exit_code r, w)).1
            = (let (r, w) := main tc' args (fresh_process files seed) in (exit_code r, w)).1
            /\ fs (let (r, w) := main tc args (fresh_process files seed) in (exit_code r, w)).2
               = fs (let (r, w) := main tc' args (fresh_process files seed)
                     in (exit_code r, w)).2
            /\ conversions
                 (trace (let (r, w) := main tc args (fresh_process files seed)
                         in (exit_code r, w)).2)
               = conversions
                   (trace (let (r, w) := main tc' args (fresh_process files seed)
                           in (exit_code r, w)).2)).
  { intros H.
    destruct (main_stops_early tc args files seed H) as (w1 & E1 & F1 & T1).
    destruct (main_stops_early tc' args files seed H) as (w2 & E2 & F2 & T2).
    rewrite E1, E2. cbn [fst snd exit_code].
    rewrite F1, F2, T1, T2, !conversions_imports. auto. }
  destruct (import_tensorflow tc) eqn:Htf; [|now apply Hearly; left].
  destruct (files !! model args) as [n|] eqn:Hfile; [|now apply Hearly; right].
  destruct (main_after_setup tc args files seed Htf)
    as (w1 & E1 & F1 & R1 & T1 & G1 & _ & O1); [rewrite Hfile; eauto|].
  destruct (main_after_setup tc' args files seed Htf)
    as (w2 & E2 & F2 & R2 & T2 & G2 & _ & O2); [rewrite Hfile; eauto|].
  rewrite E1, E2.
  assert (Hsame : main_try tc' args = main_try tc args)
    by (unfold main_try; rewrite Hf; reflexivity).
  rewrite Hsame.
  assert (Heq : tf_equiv w1 w2).
  { unfold tf_equiv. rewrite F1, F2, R1, R2, T1, T2, G1, G2, !conversions_imports.
    auto. }
  assert (Hg : g_onnx w1 = g_onnx w2) by (rewrite O1, O2; reflexivity).
  assert (Hrun :
    (try_except (main_try tc args) main_except w1).1
    = (try_except (main_try tc args) main_except w2).1
    /\ tf_equiv (try_except (main_try tc args) main_except w1).2
                (try_except (main_try tc args) main_except w2).2).
  { apply respects_try_except_at;
      [ | | intros e; unfold main_except, sys_exit; repeat respects_step];
      unfold main_try; rewrite Hf;
      apply respects_bind_at;
        try (apply convert_onnx_model_ignores_torch; assumption);
        intros _;
        (apply respects_bind; [apply respects_print|intros _]);
        (apply respects_bind; [|intros _; apply respects_print]);
        destruct (generate_header args);
          first [apply respects_generate_model_header | apply respects_ret]. }
  destruct Hrun as (Hr & Hfs & _ & _ & Hc).
  destruct (try_except (main_try tc args) main_except w1) as [r1 v1].
  destruct (try_except (main_try tc args) main_except w2) as [r2 v2].
  cbn [fst snd] in *. subst r2. auto.
Qed.

(** C8, as the specification states it, fails: with the ONNX toolchain
    missing, a PyTorch request that succeeds when it is installed ends with
    exit code 1. *)
Lemma missing_onnx_stops_pytorch_requests : ~ unaffected_by_missing_onnx.
Proof.
  intros H.
  specialize (H sample_toolchain pytorch_request
                (<["net.pt" := File sample_binary]> ∅) 0%N ltac:(discriminate)).
  vm_compute in H. discriminate H.
Qed.

(** C8, amended: the optional imports are attempted by [setup_imports], once
    each, and their result is kept in the globals [torch] and [onnx].  With
    PyTorch missing a pytorch request, and with the ONNX toolchain missing an
    onnx request, ends with exit code 1 on the [ImportError] of its
    converter, without a further call and without touching the files.  A
    missing ONNX toolchain also makes every pytorch request end with exit
    code 1, as the PyTorch converter goes through the ONNX converter.  Every
    other request is unaffected: a tensorflow request ends with the same
    exit code, files and conversions whatever the optional imports answer,
    and an onnx request ends with the same exit code, files and conversions
    whether or not PyTorch is installed. *)
Theorem optional_toolchains_checked_at_start (tc : Toolchain) (args : Args)
    (files : gmap string node) (seed : N) :
  (forall w, exists w',
     setup_imports tc w =
       (if import_tensorflow tc then Return tt else Raise (SystemExit 1), w')
     /\ trace w' = (trace w ++ attempted_imports tc)%list
     /\ (import_tensorflow tc = true ->
         g_torch w' = module_or_none (import_torch tc && import_torchvision tc)
         /\ g_onnx w' = module_or_none (import_onnx tc && import_onnx2tf tc)))
  /\ NoDup (attempted_imports tc)
  /\ (import_tensorflow tc = true ->
      is_Some (files !! model args) ->
      framework args = pytorch ->
      import_torch tc && import_torchvision tc = false ->
      let result := run tc args files seed in
      result.1 = 1%nat /\ fs result.2 = files
      /\ trace result.2 = attempted_imports tc
      /\ last (stdout result.2) =
           Some (MsgConversionFailed (ImportError "PyTorch not available")))
  /\ (import_tensorflow tc = true ->
      is_Some (files !! model args) ->
      framework args = onnx ->
      import_onnx tc && import_onnx2tf tc = false ->
      let result := run tc args files seed in
      result.1 = 1%nat /\ fs result.2 = files
      /\ trace result.2 = attempted_imports tc
      /\ last (stdout result.2) =
           Some (MsgConversionFailed (ImportError "ONNX not available")))
  /\ (framework args = pytorch ->
      import_onnx tc && import_onnx2tf tc = false ->
      (run tc args files seed).1 = 1%nat)
  /\ (framework args = tensorflow ->
      forall a b c d : bool,
        let r1 := run tc args files seed in
        let r2 := run (with_optional_imports a b c d tc) args files seed in
        r1.1 = r2.1 /\ fs r1.2 = fs r2.2
        /\ conversions (trace r1.2) = conversions (trace r2.2))
  /\ (framework args = onnx ->
      forall a b : bool,
        let r1 := run tc args files seed in
        let r2 := run (with_optional_imports a b (import_onnx tc) (import_onnx2tf tc) tc)
                    args files seed in
        r1.1 = r2.1 /\ fs r1.2 = fs r2.2
        /\ conversions (trace r1.2) = conversions (trace r2.2)).
Proof.
  split; [|split; [|split; [|split; [|split; [|split]]]]].
  - intros w. destruct (setup_imports_spec tc w) as (w' & E & _ & _ & T & G & _).
    exists w'. split; [exact E|]. split; [exact T|].
    intros Htf. destruct (G Htf) as (_ & G2 & G3). auto.
  - unfold attempted_imports.
    destruct (import_tensorflow tc), (import_torch tc), (import_onnx tc);
      cbn [app]; repeat (apply NoDup_cons; split);
      try apply NoDup_nil_2;
      rewrite ?elem_of_cons, ?elem_of_nil; intuition discriminate.
  - apply run_pytorch_unavailable.
  - apply run_onnx_unavailable.
  - apply run_pytorch_without_onnx.
  - intros Hf a b c d. now apply run_tensorflow_independent.
  - intros Hf a b. now apply run_onnx_independent_of_torch.
Qed.

Lemma optional_toolchains_checked_at_start_witness :
  let tc := with_optional_imports false false false false sample_toolchain in
  let files : gmap string node := <["net.pt" := File sample_binary]> ∅ in
  (run tc pytorch_request files 0).1 = 1%nat
  /\ last (stdout (run tc pytorch_request files 0).2) =
       Some (MsgConversionFailed (ImportError "PyTorch not available")).
Proof.
  cbv zeta.
  destruct (optional_toolchains_checked_at_start
              (with_optional_imports false false false false sample_toolchain)
              pytorch_request (<["net.pt" := File sample_binary]> ∅) 0)
    as (_ & _ & H & _).
  destruct H as (H1 & _ & _ & H4);
    [reflexivity | vm_compute; eauto | reflexivity | reflexivity |].
  split; [exact H1 | exact H4].
Defined.

(** ** The representative dataset *)

Section RepresentativeData.

Variable tc : Toolchain.

Lemma np_random_float32_concrete (dims : list (option nat)) (shape : list nat) (rng : N) :
  mapM id dims = Some shape ->
  np_random_float32 tc dims rng =
  (Return {| t_shape := shape; t_dtype := float32;
             t_data := map (np_astype_float32 tc) (np_random_random tc rng shape).1 |},
   (np_random_random tc rng shape).2).
Proof.
  intros H. unfold np_random_float32. rewrite H.
  now destruct (np_random_random tc rng shape).
Qed.

(** From position [100 - n] the iterator yields [n] more samples. *)
Lemma iterator_to_list_from (n fuel position : nat) (dims : list (option nat))
    (shape : list nat) (rng : N) :
  mapM id dims = Some shape ->
  (position + n = 100)%nat ->
  (n < fuel)%nat ->
  iterator_to_list tc fuel {| it_position := position; it_input_shape := dims |} rng
  = Some (Return (map (fun t => [t]) (successive_draws tc n (1%nat :: shape) rng).1),
          (successive_draws tc n (1%nat :: shape) rng).2).
Proof.
  intros Hshape. revert fuel position rng.
  assert (Hone : mapM id (Some 1%nat :: dims) = Some (1%nat :: shape))
    by (cbn; rewrite Hshape; reflexivity).
  induction n as [|n IH]; intros fuel position rng Hpos Hfuel;
    (destruct fuel as [|fuel]; [lia|]); cbn [iterator_to_list];
    unfold iterator_next; cbn [it_position it_input_shape].
  - replace (position <? 100)%nat with false
      by (symmetry; apply Nat.ltb_ge; lia).
    reflexivity.
  - replace (position <? 100)%nat with true
      by (symmetry; apply Nat.ltb_lt; lia).
    rewrite (np_random_float32_concrete _ _ _ Hone).
    rewrite (IH fuel (S position)) by lia.
    cbn [successive_draws].
    destruct (np_random_random tc rng (1%nat :: shape)) as [data rng1].
    cbn [fst snd].
    destruct (successive_draws tc n (1%nat :: shape) rng1) as [rest rng2].
    reflexivity.
Qed.

Lemma successive_draws_length (n : nat) (shape : list nat) (rng : N) :
  length (successive_draws tc n shape rng).1 = n.
Proof.
  revert rng. induction n as [|n IH]; intros rng; [reflexivity|].
  cbn [successive_draws].
  destruct (np_random_random tc rng shape) as [data rng1].
  specialize (IH rng1).
  destruct (successive_draws tc n shape rng1) as [rest rng2].
  cbn [fst length] in *. now rewrite IH.
Qed.

Lemma successive_draws_shape (n : nat) (shape : list nat) (rng : N) :
  Forall (fun t => t_shape t = shape /\ t_dtype t = float32)
         (successive_draws tc n shape rng).1.
Proof.
  revert rng. induction n as [|n IH]; intros rng; [constructor|].
  cbn [successive_draws].
  destruct (np_random_random tc rng shape) as [data rng1].
  specialize (IH rng1).
  destruct (successive_draws tc n shape rng1) as [rest rng2].
  cbn [fst] in *. constructor; [split; reflexivity | exact IH].
Qed.

End RepresentativeData.

(** C4: for a request with quantization on, when the loaded model declares
    an input shape whose dimensions after the first are known, the settings
    step yields the integer plan: default optimization, 8-bit integer
    operators and input/output types, and a representative dataset over the
    declared shape without its batch dimension.  Each call of the dataset
    function starts a fresh iterator; every [next] makes one draw from the
    random generator; consumed to its end the iterator gives exactly 100
    samples, each a one-element list holding a [float32] array of shape 1
    followed by the stripped shape, the draws following one another in the
    generator.  This converter is the one the first [convert()] call
    receives. *)
Theorem int8_plan_for_declared_shape (tc : Toolchain) (m : Model)
    (batch : option nat) (dims : list (option nat)) (shape : list nat) :
  input_shape m = Some (batch :: dims) ->
  mapM id dims = Some shape ->
  (forall (c : TFLiteConverter) (w : World),
     exists c' w',
       configure_quantization m true c w = (Return c', w')
       /\ c' = quantization_settings m true c
       /\ optimizations c' = [DEFAULT]
       /\ representative_dataset c' = Some {| rd_input_shape := dims |}
       /\ supported_ops c' = [TFLITE_BUILTINS_INT8]
       /\ inference_input_type c' = int8
       /\ inference_output_type c' = int8
       /\ plan_of c' =
            {| enabled := true; mode := INTEGER_8BIT;
               representative_input_shape := Some dims; sample_count := 100 |})
  /\ (forall (rng : N) (fuel : nat),
        (100 < fuel)%nat ->
        let draws := successive_draws tc 100 (1%nat :: shape) rng in
        iterator_to_list tc fuel
          (representative_dataset_call {| rd_input_shape := dims |}) rng
        = Some (Return (map (fun t => [t]) draws.1), draws.2)
        /\ length draws.1 = 100%nat
        /\ Forall (fun t => t_shape t = 1%nat :: shape /\ t_dtype t = float32) draws.1)
  /\ (forall rng : N,
        iterator_next tc (representative_dataset_call {| rd_input_shape := dims |}) rng
        = (Return (Some ((successive_draws tc 1 (1%nat :: shape) rng).1,
                         {| it_position := 1; it_input_shape := dims |})),
           (np_random_random tc rng (1%nat :: shape)).2))
  /\ (forall (model_path output_path : string) (w w' w_l : World)
         (r : Outcome unit) (src : ConverterSource),
        load_tensorflow_model tc model_path
          (add_stdout (MsgConvertingTensorFlow model_path) w)
        = (Return (m, new_converter src), w_l) ->
        convert_tensorflow_model tc model_path output_path true w = (r, w') ->
        exists rest,
          conversions (trace w') =
          (conversions (trace w)
           ++ quantization_settings m true (new_converter src) :: rest)%list).
Proof.
  intros Hm Hshape.
  assert (Hone : mapM id (Some 1%nat :: dims) = Some (1%nat :: shape))
    by (cbn; rewrite Hshape; reflexivity).
  split; [|split; [|split]].
  - intros c w. rewrite configure_quantization_eq. rewrite Hm.
    do 2 eexists. split; [reflexivity|].
    unfold quantization_settings. rewrite Hm. repeat split.
  - intros rng fuel Hfuel. cbv zeta.
    split; [|split].
    + unfold representative_dataset_call. cbn [rd_input_shape].
      now apply iterator_to_list_from.
    + apply successive_draws_length.
    + apply successive_draws_shape.
  - intros rng. unfold iterator_next, representative_dataset_call.
    cbn [it_position it_input_shape rd_input_shape Nat.ltb Nat.leb].
    rewrite (np_random_float32_concrete _ _ _ _ Hone).
    cbn [successive_draws].
    destruct (np_random_random tc rng (1%nat :: shape)) as [data rng1].
    reflexivity.
  - intros model_path output_path w w' w_l r src Hload H.
    destruct (convert_tensorflow_model_stages _ _ _ _ _ _ _ H)
      as (_ & loads & convs & tail & T & L & Hcases).
    assert (Hc : conversions (trace w') =
                 (conversions (trace w) ++ convs ++ conversions tail)%list).
    { rewrite T, !conversions_app, conversions_map, (conversions_loads _ L).
      reflexivity. }
    destruct Hcases as [(_ & _ & _ & e & _ & Hl)|(m0 & src0 & w0 & Hl & Hrun)];
      rewrite Hload in Hl; [discriminate|].
    injection Hl as <- <- <-. cbv zeta in Hrun.
    destruct Hrun as ([-> | ->] & _); rewrite Hc; eexists; cbn [app]; reflexivity.
Qed.

Lemma int8_plan_for_declared_shape_witness :
  plan_of (quantization_settings sample_model true
             (new_converter (from_keras_model sample_model)))
  = {| enabled := true; mode := INTEGER_8BIT;
       representative_input_shape := Some [Some 28; Some 28; Some 1]%nat;
       sample_count := 100 |}
  /\ length (successive_draws sample_toolchain 100 [1; 28; 28; 1]%nat 0).1 = 100%nat.
Proof.
  destruct (int8_plan_for_declared_shape sample_toolchain sample_model None
              [Some 28; Some 28; Some 1]%nat [28; 28; 1]%nat eq_refl eq_refl)
    as (H1 & H2 & _).
  destruct (H1 (new_converter (from_keras_model sample_model)) (ready_world "net.h5"))
    as (c' & w' & _ & -> & _ & _ & _ & _ & _ & Hplan).
  split; [exact Hplan|].
  destruct (H2 0%N 101%nat) as (_ & Hlen & _); [lia | exact Hlen].
Defined.

(** ** Paths derived from an output path that has the suffix *)

Lemma prefix_clash (a b x y : string) :
  clash a b = true -> String.prefix (a ++ x) (b ++ y) = false.
Proof.
  revert b. induction a as [|c a IH]; intros b H; [discriminate|].
  destruct b as [|d b]; [discriminate|].
  cbn [clash] in H. cbn [String.append String.prefix].
  destruct (Ascii.ascii_dec c d) as [->|Hne].
  - rewrite Ascii.eqb_refl in H. now apply IH.
  - reflexivity.
Qed.

Lemma replace_not_prefix (old new s : string) :
  clash new old = true ->
  containsb old s = true ->
  String.prefix (PyStr.replace s old new) s = false.
Proof.
  intros Hclash. unfold PyStr.replace.
  induction s as [|c s IH]; intros H.
  - destruct old; [destruct new; discriminate | discriminate].
  - cbn [PyStr.replace_from]. cbn [containsb] in H.
    destruct (String.prefix old (String c s)) eqn:Hp.
    + destruct (prefix_split _ _ Hp) as [post ->]. now apply prefix_clash.
    + cbn [String.prefix]. destruct (Ascii.ascii_dec c c); [|congruence].
      apply IH. exact H.
Qed.

Lemma prefix_app_l (a b s : string) :
  String.prefix (a ++ b) s = true -> String.prefix a s = true.
Proof.
  revert s. induction a as [|c a IH]; intros s H; [now destruct s|].
  destruct s as [|d s]; [discriminate|].
  cbn [String.append String.prefix] in *.
  destruct (Ascii.ascii_dec c d); [now apply IH | discriminate].
Qed.

Lemma prefix_refl (a : string) : String.prefix a a = true.
Proof. rewrite <- (append_nil_r a) at 2. apply prefix_app. Qed.

Lemma not_under (root p : string) :
  String.prefix root p = false -> Fs.under root p = false.
Proof.
  intros H. unfold Fs.under. apply orb_false_iff. split.
  - destruct (String.eqb root p) eqn:E; [|reflexivity].
    apply String.eqb_eq in E. subst p. now rewrite prefix_refl in H.
  - destruct (String.prefix (root ++ "/") p) eqn:E; [|reflexivity].
    apply prefix_app_l in E. congruence.
Qed.

(** With the suffix present the output file is outside the intermediate
    folder. *)
Lemma output_outside_tf_model (output_path : string) :
  PyStr.contains output_path ".tflite" ->
  Fs.under (PyStr.replace output_path ".tflite" "_tf_model") output_path = false.
Proof.
  intros H. apply not_under, replace_not_prefix; [reflexivity|].
  now apply contains_containsb.
Qed.

(** ** Requests without quantization *)



Lemma one_conversion_unquantized (tc : Toolchain) (c : TFLiteConverter)
    (w w' : World) (r : Outcome unit) :
  unquantized c /\ plan_of c = plan_none ->
  one_conversion tc c w r w' ->
  exists evs,
    trace w' = (trace w ++ evs)%list
    /\ Forall (fun c => unquantized c /\ plan_of c = plan_none) (conversions evs).
Proof.
  intros Hc (_ & pre & convs & T & P & C & _).
  exists (pre ++ map EvConvert convs)%list. split; [exact T|].
  rewrite conversions_app, (conversions_preparation _ P), conversions_map.
  destruct C as [-> | ->]; repeat constructor; apply Hc.
Qed.

Lemma sample_toolchain_keeps_float : toolchain_keeps_float sample_toolchain.
Proof.
  intros tr c b ins outs _ _ H. injection H as <- <-. repeat constructor.
Qed.

(** ** Intermediate files *)

(** C2, on the code: the clean-up statements are reached on the success path
    only.  A PyTorch request on a machine without the ONNX toolchain ends
    with the exported ONNX file still on disk, and an ONNX request whose
    [convert()] raises ends with the intermediate SavedModel folder and its
    content still on disk. *)
Lemma intermediate_files_survive_failure :
  (let result :=
     run (with_optional_imports true true false false sample_toolchain)
       pytorch_request (<["net.pt" := File sample_binary]> ∅) 0 in
   result.1 = 1%nat
   /\ PyStr.replace (output pytorch_request) ".tflite" ".onnx" = "net.onnx"
   /\ fs result.2 !! "net.onnx" = Some (File sample_binary))
  /\ (let result :=
        run failing_toolchain onnx_request (<["net.onnx" := File sample_binary]> ∅) 0 in
      result.1 = 1%nat
      /\ PyStr.replace (output onnx_request) ".tflite" "_tf_model" = "net_tf_model"
      /\ fs result.2 !! "net_tf_model" = Some Dir
      /\ fs result.2 !! "net_tf_model/saved_model.pb" = Some (File sample_binary)).
Proof. vm_compute. repeat split. Qed.

(** On the success path the clean-up holds: when the ONNX converter returns,
    nothing is left at or below the intermediate folder. *)
Lemma onnx_success_removes_folder (tc : Toolchain) (model_path output_path : string)
    (q : bool) (w w' : World) (u : unit) :
  convert_onnx_model tc model_path output_path q w = (Return u, w') ->
  forall p,
    Fs.under (PyStr.replace output_path ".tflite" "_tf_model") p = true ->
    fs w' !! p = None.
Proof.
  intros H. apply convert_onnx_model_spec in H.
  destruct H as (_ & pre & convs & _ & _ & _ & _ & _ & Hclean). exact Hclean.
Qed.

(** When the PyTorch converter returns, the intermediate ONNX file is gone. *)
Lemma pytorch_success_removes_file (tc : Toolchain) (model_path output_path : string)
    (q : bool) (w w' : World) (u : unit) :
  convert_pytorch_model tc model_path output_path q w = (Return u, w') ->
  fs w' !! PyStr.replace output_path ".tflite" ".onnx" = None.
Proof.
  intros H. unfold convert_pytorch_model in H.
  apply bind_return_inv in H as (g & w0 & _ & H).
  destruct g; try discriminate H;
    do 7 (apply bind_return_inv in H as (? & ? & _ & H));
    unfold os_remove in H;
    (destruct (fs _ !! PyStr.replace output_path ".tflite" ".onnx")
       as [[content|]|] eqn:E; try discriminate);
    injection H as _ <-; world_simpl; apply lookup_delete_eq.
Qed.

(** * Further properties *)

(** ** The firmware generator's model file *)

Lemma model_cpp_loop_acc (i : nat) (model_data : list byte) (acc : string) :
  model_cpp_loop i model_data acc = acc ++ model_cpp_loop i model_data EmptyString.
Proof.
  revert i acc. induction model_data as [|b rest IH]; intros i acc;
    cbn [model_cpp_loop].
  - now rewrite append_nil_r.
  - rewrite IH. symmetry. rewrite IH. symmetry.
    destruct (i mod 16 =? 0)%nat; cbn [String.append]; now rewrite !append_assoc.
Qed.

Lemma model_cpp_loop_cons (i : nat) (b : byte) (rest : list byte) :
  model_cpp_loop i (b :: rest) EmptyString =
  (if (i mod 16 =? 0)%nat then nl ++ "    " else EmptyString)
  ++ hex_literal b ++ model_cpp_loop (S i) rest EmptyString.
Proof.
  cbn [model_cpp_loop]. rewrite model_cpp_loop_acc.
  destruct (i mod 16 =? 0)%nat; cbn [String.append]; now rewrite ?append_assoc.
Qed.

Lemma parse_model_cpp_loop (i : nat) (model_data : list byte) (r : string) :
  parse_hex_literals (model_cpp_loop i model_data EmptyString ++ r) =
  (model_data ++ parse_hex_literals r)%list.
Proof.
  revert i. induction model_data as [|b rest IH]; intros i; [reflexivity|].
  rewrite model_cpp_loop_cons, !append_assoc.
  rewrite parse_skip by (destruct (i mod 16 =? 0)%nat; reflexivity).
  rewrite parse_hex_literal, IH. reflexivity.
Qed.

Lemma model_cpp_loop_avoids_s (i : nat) (model_data : list byte) :
  avoids "s" (model_cpp_loop i model_data EmptyString) = true.
Proof.
  revert i. induction model_data as [|b rest IH]; intros i; [reflexivity|].
  rewrite model_cpp_loop_cons, !avoids_app, IH.
  assert (Hb : avoids "s" (hex_literal b) = true) by (destruct b; reflexivity).
  rewrite Hb. destruct (i mod 16 =? 0)%nat; reflexivity.
Qed.

Lemma model_cpp_content_split (model_data : list byte) :
  model_cpp_content model_data =
  cpp_top_before_length ++ PyStr.str_of_nat (length model_data)
  ++ cpp_top_after_length
  ++ model_cpp_loop 0 model_data EmptyString
  ++ bottom_before_marker ++ length_marker
  ++ PyStr.str_of_nat (length model_data) ++ cpp_bottom_after_length.
Proof.
  unfold model_cpp_content. rewrite model_cpp_loop_acc.
  change (model_cpp_top (length model_data))
    with (cpp_top_before_length ++ PyStr.str_of_nat (length model_data)
          ++ cpp_top_after_length).
  change (model_cpp_bottom (length model_data))
    with (bottom_before_marker ++ length_marker
          ++ PyStr.str_of_nat (length model_data) ++ cpp_bottom_after_length).
  now rewrite !append_assoc.
Qed.

Lemma parse_model_cpp_content (model_data : list byte) :
  parse_hex_literals (model_cpp_content model_data) = model_data.
Proof.
  rewrite model_cpp_content_split.
  rewrite parse_skip by reflexivity.
  rewrite parse_skip_digits by (apply str_of_nat_digits || reflexivity).
  rewrite parse_skip by reflexivity.
  rewrite parse_model_cpp_loop.
  rewrite parse_skip by reflexivity.
  rewrite parse_skip by reflexivity.
  rewrite parse_skip_digits by (apply str_of_nat_digits || reflexivity).
  change (parse_hex_literals cpp_bottom_after_length) with (@nil byte).
  apply app_nil_r.
Qed.

Lemma declared_length_model_cpp_content (model_data : list byte) :
  declared_length (model_cpp_content model_data) = Some (length model_data).
Proof.
  unfold declared_length. rewrite model_cpp_content_split.
  rewrite find_after_skip by reflexivity.
  rewrite find_after_skip
    by (apply avoids_clash, digits_avoid_s, str_of_nat_digits).
  rewrite find_after_skip by reflexivity.
  rewrite find_after_skip by (apply avoids_clash, model_cpp_loop_avoids_s).
  rewrite find_after_skip by reflexivity.
  rewrite find_after_here.
  rewrite take_digits_app by (apply str_of_nat_digits || reflexivity).
  unfold PyStr.str_of_nat. rewrite NilEmpty.usu. cbn [option_map].
  now rewrite DecimalNat.Unsigned.of_to.
Qed.

Lemma dirname_model_data_cpp (firmware_dir : string) :
  dirname (firmware_dir ++ "/main/model_data.cpp") = Some (firmware_dir ++ "/main").
Proof.
  induction firmware_dir as [|c d IH]; [reflexivity|].
  cbn [String.append dirname]. now rewrite IH.
Qed.

Lemma fw_parent_model_data_cpp (firmware_dir : string) (w : FwWorld) :
  fw_parent w (firmware_dir ++ "/main/model_data.cpp")
  = fw_fs w !! (firmware_dir ++ "/main").
Proof.
  unfold fw_parent. rewrite dirname_model_data_cpp. now destruct firmware_dir.
Qed.

(** X1: [integrate_model] on an existing model file, with the folder
    [<firmware_dir>/main] in place, writes
    [<firmware_dir>/main/model_data.cpp] and nothing else; the array in the
    text written reads back as the bytes of the model, the declared length is
    their number, and the array is the one [convert.py] puts in its header
    for the same file.  Without that folder the function creates nothing:
    [open] raises [FileNotFoundError] and every file is as it was. *)
Theorem integrate_model_round_trip (firmware_dir model_path : string)
    (model_data : list byte) (w : FwWorld) :
  fw_fs w !! model_path = Some (File model_data) ->
  (fw_fs w !! (firmware_dir ++ "/main") = Some Dir ->
   fw_fs w !! (firmware_dir ++ "/main/model_data.cpp") <> Some Dir ->
   exists w',
     integrate_model firmware_dir model_path w = (Return tt, w')
     /\ fw_fs w' =
          <[(firmware_dir ++ "/main/model_data.cpp") :=
              File (list_byte_of_string (model_cpp_content model_data))]> (fw_fs w)
     /\ parse_hex_literals (model_cpp_content model_data) = model_data
     /\ declared_length (model_cpp_content model_data) = Some (length model_data)
     /\ parse_hex_literals (model_cpp_content model_data)
        = parse_hex_literals (header_content model_data)
     /\ fw_stdout w' =
          (fw_stdout w ++ [FwIntegratingModel model_path;
                           FwModelIntegrated (length model_data)])%list)
  /\ (fw_fs w !! (firmware_dir ++ "/main") = None ->
      fw_fs w !! (firmware_dir ++ "/main/model_data.cpp") = None ->
      exists w',
        integrate_model firmware_dir model_path w
        = (Raise (FileNotFoundError (firmware_dir ++ "/main/model_data.cpp")), w')
        /\ fw_fs w' = fw_fs w).
Proof.
  intros Hr. split.
  - intros Hd Hw.
    unfold integrate_model, fw_bind, fw_print, fw_read_binary, fw_write_text.
    cbn [fw_fs fw_stdout]. rewrite Hr. cbn [fw_fs fw_stdout].
    rewrite fw_parent_model_data_cpp. cbn [fw_fs fw_stdout]. rewrite Hd.
    destruct (fw_fs w !! (firmware_dir ++ "/main/model_data.cpp")) as [[c|]|] eqn:E;
      try congruence;
      (eexists; split; [reflexivity|]; cbn [fw_fs fw_stdout];
       split; [reflexivity|]; split; [apply parse_model_cpp_content|];
       split; [apply declared_length_model_cpp_content|];
       split; [now rewrite parse_model_cpp_content, parse_header_content|];
       now rewrite <- app_assoc).
  - intros Hd Hw.
    unfold integrate_model, fw_bind, fw_print, fw_read_binary, fw_write_text.
    cbn [fw_fs fw_stdout]. rewrite Hr. cbn [fw_fs fw_stdout].
    rewrite fw_parent_model_data_cpp. cbn [fw_fs fw_stdout]. rewrite Hd, Hw.
    eexists. split; reflexivity.
Qed.

Lemma integrate_model_round_trip_witness :
  (exists w',
     integrate_model "firmware" "converted_model.tflite"
       {| fw_fs := <["firmware/main" := Dir]>
                     (<["converted_model.tflite" := File sample_binary]> ∅);
          fw_stdout := [] |} = (Return tt, w')
     /\ fw_fs w' !! "firmware/main/model_data.cpp" =
          Some (File (list_byte_of_string (model_cpp_content sample_binary))))
  /\ (exists w',
        integrate_model "firmware" "converted_model.tflite"
          {| fw_fs := <["converted_model.tflite" := File sample_binary]> ∅;
             fw_stdout := [] |}
        = (Raise (FileNotFoundError "firmware/main/model_data.cpp"), w')
        /\ fw_fs w' = <["converted_model.tflite" := File sample_binary]> ∅).
Proof.
  split.
  - destruct (integrate_model_round_trip "firmware" "converted_model.tflite"
                sample_binary
                {| fw_fs := <["firmware/main" := Dir]>
                              (<["converted_model.tflite" := File sample_binary]> ∅);
                   fw_stdout := [] |}) as [H _]; [vm_compute; reflexivity|].
    destruct H as (w' & E & Hfs & _);
      [vm_compute; reflexivity | vm_compute; discriminate |].
    exists w'. split; [exact E|]. rewrite Hfs. vm_compute. reflexivity.
  - destruct (integrate_model_round_trip "firmware" "converted_model.tflite"
                sample_binary
                {| fw_fs := <["converted_model.tflite" := File sample_binary]> ∅;
                   fw_stdout := [] |}) as [_ H]; [vm_compute; reflexivity|].
    apply H; vm_compute; reflexivity.
Defined.

(** X2: [integrate_model] on a model path that is missing, or is a folder,
    raises the error of [open] and leaves every file as it was. *)
Theorem integrate_model_unreadable (firmware_dir model_path : string) (w : FwWorld) :
  (forall content, fw_fs w !! model_path <> Some (File content)) ->
  exists e w',
    integrate_model firmware_dir model_path w = (Raise e, w')
    /\ fw_fs w' = fw_fs w
    /\ e = match fw_fs w !! model_path with
           | None => FileNotFoundError model_path
           | Some _ => IsADirectoryError model_path
           end.
Proof.
  intros H. unfold integrate_model, fw_bind, fw_print, fw_read_binary.
  cbn [fw_fs fw_stdout].
  destruct (fw_fs w !! model_path) as [[content|]|] eqn:E.
  - now destruct (H content).
  - do 2 eexists. split; [reflexivity|]. split; reflexivity.
  - do 2 eexists. split; [reflexivity|]. split; reflexivity.
Qed.

Lemma integrate_model_unreadable_witness :
  exists w',
    integrate_model "firmware" "converted_model.tflite"
      {| fw_fs := ∅; fw_stdout := [] |}
    = (Raise (FileNotFoundError "converted_model.tflite"), w')
    /\ fw_fs w' = ∅.
Proof.
  destruct (integrate_model_unreadable "firmware" "converted_model.tflite"
              {| fw_fs := ∅; fw_stdout := [] |})
    as (e & w' & E & Hfs & He); [intros content; discriminate|].
  exists w'. cbn in He. subst e. split; [exact E | exact Hfs].
Defined.

(** ** Loading a TensorFlow model *)

(** X3: a model path that does not end in '.h5' or '.pb' and is not a
    folder makes the TensorFlow converter raise [ValueError] before any
    library call and any write; [main] then reports the failure and exits
    with code 1, having made no call but the imports. *)
Theorem unsupported_tensorflow_format (tc : Toolchain)
    (model_path output_path : string) (q : bool) (w : World) :
  PyStr.endswith model_path ".h5" = false ->
  PyStr.endswith model_path ".pb" = false ->
  Fs.isdir (fs w) model_path = false ->
  convert_tensorflow_model tc model_path output_path q w
  = (Raise (ValueError "Unsupported TensorFlow model format"),
     add_stdout (MsgConvertingTensorFlow model_path) w)
  /\ forall (args : Args) (files : gmap string node) (seed : N) (content : list byte),
       import_tensorflow tc = true ->
       framework args = tensorflow ->
       model args = model_path ->
       files !! model_path = Some (File content) ->
       let result := run tc args files seed in
       result.1 = 1%nat /\ fs result.2 = files
       /\ trace result.2 = attempted_imports tc
       /\ last (stdout result.2) =
            Some (MsgConversionFailed (ValueError "Unsupported TensorFlow model format")).
Proof.
  intros H5 Hpb Hdir.
  assert (Hraise : forall out q0 w0, Fs.isdir (fs w0) model_path = false ->
            convert_tensorflow_model tc model_path out q0 w0
            = (Raise (ValueError "Unsupported TensorFlow model format"),
               add_stdout (MsgConvertingTensorFlow model_path) w0)).
  { intros out q0 w0 Hd.
    unfold convert_tensorflow_model, load_tensorflow_model, bind, print,
      os_path_isdir, raise.
    rewrite H5. cbn [fs add_stdout]. rewrite Hpb, Hd. reflexivity. }
  split; [now apply Hraise|].
  intros args files seed content Htf Hf Hm Hfile. cbv zeta. unfold run.
  destruct (main_after_setup tc args files seed Htf) as (w1 & E & F & _ & T & _);
    [rewrite Hm, Hfile; eauto|].
  rewrite E.
  rewrite (main_try_raises tc args w1
             (add_stdout (MsgConvertingTensorFlow model_path) w1)
             (ValueError "Unsupported TensorFlow model format")
             (convert_tensorflow_model tc (model args) (output args) (quantize args))).
  - cbn [fst snd exit_code]. world_simpl. rewrite last_snoc. auto.
  - unfold main_try. now rewrite Hf.
  - rewrite Hm. apply Hraise.
    unfold Fs.isdir. rewrite F, Hfile. apply bool_decide_eq_false_2. discriminate.
  - reflexivity.
Qed.

Lemma unsupported_tensorflow_format_witness :
  convert_tensorflow_model sample_toolchain "net.bin" "net.tflite" true
    (ready_world "net.bin")
  = (Raise (ValueError "Unsupported TensorFlow model format"),
     add_stdout (MsgConvertingTensorFlow "net.bin") (ready_world "net.bin")).
Proof.
  apply (unsupported_tensorflow_format sample_toolchain "net.bin" "net.tflite" true
           (ready_world "net.bin")); reflexivity.
Defined.

(** X4: what a successful load tells: a path ending in '.h5' was read by
    the Keras loader alone and the converter is built from that model, also
    when the path is a folder; any other path was read by the SavedModel
    loader alone, ends in '.pb' or is a folder, and the converter is built
    from the serving signature when the object has signatures and from the
    object itself otherwise. *)
Theorem tensorflow_load_dispatch (tc : Toolchain) (model_path : string)
    (w w' : World) (m : Model) (c : TFLiteConverter) :
  load_tensorflow_model tc model_path w = (Return (m, c), w') ->
  (PyStr.endswith model_path ".h5" = true
   /\ keras_load_model tc (fs w) model_path = Ok m
   /\ c = new_converter (from_keras_model m)
   /\ trace w' = (trace w ++ [EvKerasLoadModel model_path])%list)
  \/ (PyStr.endswith model_path ".h5" = false
      /\ PyStr.endswith model_path ".pb" || Fs.isdir (fs w) model_path = true
      /\ saved_model_load tc (fs w) model_path = Ok m
      /\ signatures m <> Some None
      /\ c = new_converter
               (from_concrete_functions
                  [match signatures m with
                   | Some (Some f) => ServingSignature f
                   | _ => ModelItself m
                   end])
      /\ trace w' = (trace w ++ [EvSavedModelLoad model_path])%list).
Proof.
  unfold load_tensorflow_model, tf_keras_models_load_model, tf_saved_model_load,
    TFLiteConverter_from_keras_model, TFLiteConverter_from_concrete_functions.
  py_unfold. intros H. py_exec; simplify_eq;
    first [ left; repeat split; assumption
          | right; repeat split; try assumption; try congruence ].
Qed.

Lemma tensorflow_load_dispatch_witness :
  keras_load_model sample_toolchain (fs (ready_world "net.h5")) "net.h5"
  = Ok sample_model.
Proof.
  destruct (tensorflow_load_dispatch sample_toolchain "net.h5"
              (ready_world "net.h5")
              (add_event (EvKerasLoadModel "net.h5") (ready_world "net.h5"))
              sample_model (new_converter (from_keras_model sample_model)))
    as [(_ & H & _)|(H & _)]; [reflexivity | exact H | discriminate H].
Defined.

(** X5: a SavedModel whose signatures lack the default serving key makes
    the TensorFlow converter raise [KeyError] right after the load, before
    any converter is built or file written. *)
Theorem missing_serving_signature (tc : Toolchain) (model_path output_path : string)
    (q : bool) (w : World) (m : Model) :
  g_tf w = Module ->
  PyStr.endswith model_path ".h5" = false ->
  PyStr.endswith model_path ".pb" || Fs.isdir (fs w) model_path = true ->
  saved_model_load tc (fs w) model_path = Ok m ->
  signatures m = Some None ->
  convert_tensorflow_model tc model_path output_path q w
  = (Raise (KeyError "serving_default"),
     add_event (EvSavedModelLoad model_path)
       (add_stdout (MsgConvertingTensorFlow model_path) w)).
Proof.
  intros Hg H5 Hpb Hload Hsig.
  unfold convert_tensorflow_model, load_tensorflow_model, tf_saved_model_load.
  py_unfold. world_simpl. rewrite H5. world_simpl. rewrite Hpb. world_simpl.
  rewrite Hg. world_simpl. rewrite Hload. world_simpl. rewrite Hsig. reflexivity.
Qed.

Lemma missing_serving_signature_witness :
  let tc :=
    {| import_tensorflow := true; import_torch := true; import_torchvision := true;
       import_onnx := true; import_onnx2tf := true;
       keras_load_model := keras_load_model sample_toolchain;
       saved_model_load := fun _ _ =>
         Ok {| model_payload := []; signatures := Some None; input_shape := None |};
       saved_model_open := saved_model_open sample_toolchain;
       tflite_convert := tflite_convert sample_toolchain;
       tflite_interpreter := tflite_interpreter sample_toolchain;
       torch_load := torch_load sample_toolchain;
       torch_randn := torch_randn sample_toolchain;
       torch_onnx_export := torch_onnx_export sample_toolchain;
       onnx2tf_convert := onnx2tf_convert sample_toolchain;
       np_random_random := np_random_random sample_toolchain;
       np_astype_float32 := np_astype_float32 sample_toolchain |} in
  (convert_tensorflow_model tc "saved_model.pb" "net.tflite" true
     (ready_world "saved_model.pb")).1
  = Raise (KeyError "serving_default").
Proof.
  cbv zeta.
  erewrite missing_serving_signature; reflexivity.
Defined.

(** ** Settings without a usable input shape *)

(** X6: with quantization on and a model that declares no input shape (or
    an empty one), the settings step keeps to default optimization: no
    representative dataset, the built-in operators and floating-point
    input/output types; this converter is the one the first [convert()] call
    receives. *)
Theorem default_optimize_without_shape (tc : Toolchain) (m : Model) :
  input_shape m = None \/ input_shape m = Some [] ->
  (forall (c : TFLiteConverter) (w : World),
     configure_quantization m true c w
     = (Return (set_optimizations [DEFAULT] c), add_stdout MsgEnablingQuantization w))
  /\ (forall src : ConverterSource,
        let c := quantization_settings m true (new_converter src) in
        optimizations c = [DEFAULT]
        /\ representative_dataset c = None
        /\ supported_ops c = [TFLITE_BUILTINS]
        /\ inference_input_type c = float32
        /\ inference_output_type c = float32
        /\ plan_of c = {| enabled := true; mode := DEFAULT_OPTIMIZE;
                          representative_input_shape := None; sample_count := 0 |})
  /\ (forall (model_path output_path : string) (w w' w_l : World)
         (r : Outcome unit) (src : ConverterSource),
        load_tensorflow_model tc model_path
          (add_stdout (MsgConvertingTensorFlow model_path) w)
        = (Return (m, new_converter src), w_l) ->
        convert_tensorflow_model tc model_path output_path true w = (r, w') ->
        exists rest,
          conversions (trace w') =
          (conversions (trace w)
           ++ set_optimizations [DEFAULT] (new_converter src) :: rest)%list).
Proof.
  intros Hshape.
  assert (Hq : forall c, quantization_settings m true c = set_optimizations [DEFAULT] c)
    by (intros c; unfold quantization_settings; destruct Hshape as [-> | ->]; reflexivity).
  split; [|split].
  - intros c w. rewrite configure_quantization_eq.
    destruct Hshape as [-> | ->]; reflexivity.
  - intros src. cbv zeta. rewrite Hq. repeat split.
  - intros model_path output_path w w' w_l r src Hload H.
    destruct (convert_tensorflow_model_stages _ _ _ _ _ _ _ H)
      as (_ & loads & convs & tail & T & L & Hcases).
    assert (Hc : conversions (trace w') =
                 (conversions (trace w) ++ convs ++ conversions tail)%list).
    { rewrite T, !conversions_app, conversions_map, (conversions_loads _ L).
      reflexivity. }
    destruct Hcases as [(_ & _ & _ & e & _ & Hl)|(m0 & src0 & w0 & Hl & Hrun)];
      rewrite Hload in Hl; [discriminate|].
    injection Hl as <- <- <-. cbv zeta in Hrun. rewrite Hq in Hrun.
    destruct Hrun as ([-> | ->] & _); rewrite Hc; eexists; cbn [app]; reflexivity.
Qed.

Lemma default_optimize_without_shape_witness :
  plan_of (quantization_settings
             {| model_payload := []; signatures := None; input_shape := None |}
             true (new_converter (from_saved_model "saved_model")))
  = {| enabled := true; mode := DEFAULT_OPTIMIZE;
       representative_input_shape := None; sample_count := 0 |}.
Proof.
  destruct (default_optimize_without_shape sample_toolchain
              {| model_payload := []; signatures := None; input_shape := None |})
    as (_ & H & _); [left; reflexivity|].
  destruct (H (from_saved_model "saved_model")) as (_ & _ & _ & _ & _ & Hplan).
  exact Hplan.
Defined.

Lemma mapM_id_open (dims : list (option nat)) :
  mapM id dims = None -> mapM id (Some 1%nat :: dims) = None.
Proof. intros H. cbn. now rewrite H. Qed.

(** X7: a declared shape with an open dimension after the first is accepted
    by the settings step all the same (it only stores the generator), and
    the failure comes when the dataset is consumed: the first [next] raises
    [TypeError], no sample is produced and the random generator is not
    advanced. *)
Theorem open_dimension_fails_when_sampled (tc : Toolchain) (m : Model)
    (batch : option nat) (dims : list (option nat)) :
  input_shape m = Some (batch :: dims) ->
  mapM id dims = None ->
  (forall (c : TFLiteConverter) (w : World),
     exists c' w',
       configure_quantization m true c w = (Return c', w')
       /\ representative_dataset c' = Some {| rd_input_shape := dims |}
       /\ last (stdout w') = Some MsgIntegerQuantizationEnabled)
  /\ (forall rng : N,
        iterator_next tc (representative_dataset_call {| rd_input_shape := dims |}) rng
        = (Raise (TypeError "NoneType object cannot be interpreted as an integer"), rng))
  /\ (forall (rng : N) (fuel : nat),
        (0 < fuel)%nat ->
        iterator_to_list tc fuel
          (representative_dataset_call {| rd_input_shape := dims |}) rng
        = Some (Raise (TypeError "NoneType object cannot be interpreted as an integer"),
                rng)).
Proof.
  intros Hm Hopen.
  assert (Hnext : forall rng,
            iterator_next tc (representative_dataset_call {| rd_input_shape := dims |}) rng
            = (Raise (TypeError "NoneType object cannot be interpreted as an integer"),
               rng)).
  { intros rng. unfold iterator_next, representative_dataset_call, np_random_float32.
    cbn [it_position it_input_shape rd_input_shape Nat.ltb Nat.leb].
    now rewrite (mapM_id_open _ Hopen). }
  split; [|split; [exact Hnext|]].
  - intros c w. rewrite configure_quantization_eq, Hm.
    do 2 eexists. split; [reflexivity|]. split; [reflexivity|].
    world_simpl. apply last_snoc.
  - intros rng fuel Hfuel. destruct fuel as [|fuel]; [lia|].
    cbn [iterator_to_list]. now rewrite Hnext.
Qed.

Lemma open_dimension_fails_when_sampled_witness :
  iterator_to_list sample_toolchain 1
    (representative_dataset_call {| rd_input_shape := [None; Some 3%nat] |}) 0
  = Some (Raise (TypeError "NoneType object cannot be interpreted as an integer"), 0%N).
Proof.
  destruct (open_dimension_fails_when_sampled sample_toolchain
              {| model_payload := []; signatures := None;
                 input_shape := Some [None; None; Some 3%nat] |}
              None [None; Some 3%nat] eq_refl eq_refl)
    as (_ & _ & H).
  apply H. lia.
Defined.

(** ** What [main] lets out *)

Lemma raises_exceptions_only_bind {A B} (m : Py A) (k : A -> Py B) :
  raises_exceptions_only m -> (forall a, raises_exceptions_only (k a)) ->
  raises_exceptions_only (bind m k).
Proof.
  intros Hm Hk w w' e H.
  apply bind_inv in H as [(a & w1 & _ & H)|(e0 & H & Heq)].
  - exact (Hk a w1 w' e H).
  - injection Heq as ->. exact (Hm w w' e0 H).
Qed.

Lemma raises_exceptions_only_print (m : Msg) : raises_exceptions_only (print m).
Proof. intros w w' e [=]. Qed.

Lemma raises_exceptions_only_ret {A} (a : A) : raises_exceptions_only (ret a).
Proof. intros w w' e [=]. Qed.

Lemma convert_tensorflow_model_raises (tc : Toolchain)
    (model_path output_path : string) (q : bool) :
  raises_exceptions_only (convert_tensorflow_model tc model_path output_path q).
Proof.
  intros w w' e H.
  destruct (convert_tensorflow_model_stages _ _ _ _ _ _ _ H)
    as (_ & loads & convs & tail & _ & _ & Hcases).
  destruct Hcases as [(_ & _ & _ & e0 & [= ->] & Hl)|(m & src & w_l & _ & Hrun)].
  - apply load_tensorflow_model_spec in Hl. now destruct Hl as (_ & _ & _ & _ & He).
  - cbv zeta in Hrun.
    destruct Hrun as (_ & [(_ & _ & _ & c1 & c2 & _ & _ & [= ->])
                          |(b & c' & tr & _ & _ & Hw)]); [reflexivity|].
    destruct Hw as [(_ & _ & [= ->])|(w_mid & _ & _ & Hinfo & _)]; [reflexivity|].
    apply print_model_info_spec in Hinfo. now destruct Hinfo as (_ & _ & _ & He).
Qed.

Lemma convert_onnx_model_raises (tc : Toolchain)
    (model_path output_path : string) (q : bool) :
  raises_exceptions_only (convert_onnx_model tc model_path output_path q).
Proof.
  intros w w' e H. apply convert_onnx_model_spec in H.
  now destruct H as (_ & pre & convs & _ & _ & _ & He & _).
Qed.

Lemma convert_pytorch_model_raises (tc : Toolchain)
    (model_path output_path : string) (q : bool) :
  raises_exceptions_only (convert_pytorch_model tc model_path output_path q).
Proof.
  intros w w' e H. apply convert_pytorch_model_spec in H.
  now destruct H as (_ & pre & convs & _ & _ & _ & He & _).
Qed.

Lemma generate_model_header_raises (tflite_path header_path : string) :
  raises_exceptions_only (generate_model_header tflite_path header_path).
Proof.
  intros w w' e. unfold generate_model_header, write_text. py_unfold.
  intros H. py_exec; reflexivity.
Qed.

Lemma main_try_raises_exceptions_only (tc : Toolchain) (args : Args) :
  raises_exceptions_only (main_try tc args).
Proof.
  unfold main_try.
  apply raises_exceptions_only_bind;
    [destruct (framework args);
       [apply convert_tensorflow_model_raises | apply convert_pytorch_model_raises
       | apply convert_onnx_model_raises]
    |intros _].
  apply raises_exceptions_only_bind; [apply raises_exceptions_only_print|intros _].
  apply raises_exceptions_only_bind; [|intros _; apply raises_exceptions_only_print].
  destruct (generate_header args);
    [apply generate_model_header_raises | apply raises_exceptions_only_ret].
Qed.

Lemma main_outcomes (tc : Toolchain) (args : Args)
    (files : gmap string node) (seed : N) :
  (main tc args (fresh_process files seed)).1 = Return tt
  \/ (main tc args (fresh_process files seed)).1 = Raise (SystemExit 1).
Proof.
  destruct (import_tensorflow tc) eqn:Htf;
    [destruct (files !! model args) as [n|] eqn:Hfile|].
  - destruct (main_after_setup tc args files seed Htf) as (w1 & E & _);
      [rewrite Hfile; eauto|].
    rewrite E.
    destruct (try_except (main_try tc args) main_except w1) as [r w'] eqn:Et.
    apply try_except_inv in Et
      as [(a & _ & ->)|[(e & w2 & _ & _ & Hh)|(e & Hm & He & _)]].
    + left. now destruct a.
    + right. rewrite main_except_exit in Hh. now injection Hh as <- _.
    + apply main_try_raises_exceptions_only in Hm. congruence.
  - destruct (main_stops_early tc args files seed (or_intror Hfile)) as (w' & E & _).
    right. now rewrite E.
  - destruct (main_stops_early tc args files seed (or_introl Htf)) as (w' & E & _).
    right. now rewrite E.
Qed.

Lemma main_exits_with_0_or_1_main (tc : Toolchain) (args : Args)
    (files : gmap string node) (seed : N) :
  (run tc args files seed).1 = 0%nat ->
  (main tc args (fresh_process files seed)).1 = Return tt.
Proof.
  pose proof (main_outcomes tc args files seed) as H. unfold run.
  destruct (main tc args (fresh_process files seed)) as [r w'].
  cbn [fst snd] in *. destruct H as [-> | ->]; [reflexivity | discriminate].
Qed.

(** ** From the converted binary to the header *)

Lemma generate_model_header_inv (tflite_path header_path : string)
    (w w' : World) (u : unit) :
  generate_model_header tflite_path header_path w = (Return u, w') ->
  exists model_data,
    fs w !! tflite_path = Some (File model_data)
    /\ fs w' = <[header_path := File (list_byte_of_string (header_content model_data))]>
                 (fs w).
Proof.
  unfold generate_model_header, write_text. py_unfold. intros H.
  py_exec; eexists; split; reflexivity.
Qed.

Lemma replace_changes (old new s : string) :
  clash new old = true ->
  PyStr.contains s old ->
  PyStr.replace s old new <> s.
Proof.
  intros Hclash Hc E.
  pose proof (replace_not_prefix old new s Hclash (contains_containsb _ _ Hc)) as H.
  rewrite E, prefix_refl in H. discriminate.
Qed.

Lemma tensorflow_returns_output (tc : Toolchain) (model_path output_path : string)
    (q : bool) (w w' : World) (u : unit) :
  convert_tensorflow_model tc model_path output_path q w = (Return u, w') ->
  exists b tr c,
    tflite_convert tc tr c = Ok b
    /\ fs w' = <[output_path := File b]> (fs w).
Proof.
  intros H.
  destruct (convert_tensorflow_model_stages _ _ _ _ _ _ _ H)
    as (_ & loads & convs & tail & _ & _ & Hcases).
  destruct Hcases as [(_ & _ & _ & e & [=] & _)|(m & src & w_l & _ & Hrun)].
  cbv zeta in Hrun.
  destruct Hrun as (_ & [(_ & _ & _ & c1 & c2 & _ & _ & [=])
                        |(b & c' & tr & _ & Hok & Hw)]).
  destruct Hw as [(_ & _ & [=])|(w_mid & Hfs & _ & _ & Hfs' & _)].
  exists b, tr, c'. split; [exact Hok | congruence].
Qed.

Lemma onnx_returns_output (tc : Toolchain) (model_path output_path : string)
    (q : bool) (w w' : World) (u : unit) :
  PyStr.contains output_path ".tflite" ->
  convert_onnx_model tc model_path output_path q w = (Return u, w') ->
  exists b tr c,
    tflite_convert tc tr c = Ok b
    /\ fs w' !! output_path = Some (File b).
Proof.
  intros Hs H. apply convert_onnx_model_spec in H.
  destruct H as (_ & pre & convs & _ & _ & _ & _ & (b & files & Hok & Hfs) & _).
  exists b, (conversions (trace w)), (onnx_converter output_path q).
  split; [exact Hok|].
  rewrite Hfs. unfold Fs.remove_tree. apply map_lookup_filter_Some.
  split; [apply lookup_insert_eq|]. cbn [fst]. now apply output_outside_tf_model.
Qed.

(** A return of the PyTorch converter is a return of the ONNX converter on
    the intermediate file, followed by the removal of that file. *)
Lemma convert_pytorch_model_return_inv (tc : Toolchain)
    (model_path output_path : string) (q : bool) (w w' : World) (u : unit) :
  convert_pytorch_model tc model_path output_path q w = (Return u, w') ->
  exists w6 w7,
    convert_onnx_model tc (PyStr.replace output_path ".tflite" ".onnx") output_path q w6
    = (Return tt, w7)
    /\ fs w' = delete (PyStr.replace output_path ".tflite" ".onnx") (fs w7).
Proof.
  intros H. unfold convert_pytorch_model in H.
  apply bind_return_inv in H as (g & w0 & _ & H).
  destruct g; try discriminate H;
    do 6 (apply bind_return_inv in H as (? & ? & _ & H));
    apply bind_return_inv in H as (u7 & w7 & E7 & H);
    unfold os_remove in H;
    (destruct (fs w7 !! PyStr.replace output_path ".tflite" ".onnx")
       as [[content|]|] eqn:E; try discriminate);
    injection H as _ <-; destruct u7; eauto.
Qed.

Lemma pytorch_returns_output (tc : Toolchain) (model_path output_path : string)
    (q : bool) (w w' : World) (u : unit) :
  PyStr.contains output_path ".tflite" ->
  convert_pytorch_model tc model_path output_path q w = (Return u, w') ->
  exists b tr c,
    tflite_convert tc tr c = Ok b
    /\ fs w' !! output_path = Some (File b).
Proof.
  intros Hs H.
  apply convert_pytorch_model_return_inv in H as (w6 & w7 & H & Hfs).
  destruct (onnx_returns_output _ _ _ _ _ _ _ Hs H) as (b & tr & c & Hok & Hb).
  exists b, tr, c. split; [exact Hok|]. rewrite Hfs.
  rewrite lookup_delete_ne; [exact Hb|].
  now apply replace_changes.
Qed.

(** X9: when a request with [--generate-header] and an output path that
    has '.tflite' in it ends with exit code 0, the output file holds the
    binary a [convert()] call returned and the header file, next to it under
    the name with '.h' for '.tflite', holds the header text of that very
    binary: its array reads back as the bytes of the output file and its
    length constant is their number. *)
Theorem header_matches_output (tc : Toolchain) (args : Args)
    (files : gmap string node) (seed : N) :
  generate_header args = true ->
  PyStr.contains (output args) ".tflite" ->
  (run tc args files seed).1 = 0%nat ->
  exists b tr c,
    tflite_convert tc tr c = Ok b
    /\ fs (run tc args files seed).2 !! output args = Some (File b)
    /\ fs (run tc args files seed).2 !! PyStr.replace (output args) ".tflite" ".h"
       = Some (File (list_byte_of_string (header_content b)))
    /\ parse_hex_literals (header_content b) = b
    /\ declared_length (header_content b) = Some (length b).
Proof.
  intros Hgen Hs Hcode.
  pose proof (main_exits_with_0_or_1_main tc args files seed) as Hmain.
  apply Hmain in Hcode. clear Hmain.
  unfold run. destruct (main tc args (fresh_process files seed)) as [r w'] eqn:Em.
  cbn [fst snd] in *. subst r.
  assert (Hsetup : import_tensorflow tc = true /\ is_Some (files !! model args)).
  { destruct (import_tensorflow tc) eqn:Htf;
      [destruct (files !! model args) as [n|] eqn:Hfile; [eauto|]|].
    - destruct (main_stops_early tc args files seed (or_intror Hfile)) as (v & E & _).
      congruence.
    - destruct (main_stops_early tc args files seed (or_introl Htf)) as (v & E & _).
      congruence. }
  destruct Hsetup as (Htf & Hfile).
  destruct (main_after_setup tc args files seed Htf Hfile) as (w1 & E & _).
  rewrite E in Em.
  apply try_except_inv in Em
    as [(a & Hm & _)|[(e & w2 & _ & _ & Hh)|(e & _ & _ & [=])]];
    [|rewrite main_except_exit in Hh; discriminate].
  unfold main_try in Hm. rewrite Hgen in Hm.
  apply bind_return_inv in Hm as (u2 & w2 & Hconv & Hm).
  apply bind_return_inv in Hm as (u3 & w3 & [= _ <-] & Hm).
  apply bind_return_inv in Hm as (u4 & w4 & Hhead & [= _ <-]).
  assert (Hout : exists b tr c,
             tflite_convert tc tr c = Ok b /\ fs w2 !! output args = Some (File b)).
  { destruct (framework args).
    - destruct (tensorflow_returns_output _ _ _ _ _ _ _ Hconv) as (b & tr & c & Hok & Hfs).
      exists b, tr, c. split; [exact Hok|]. rewrite Hfs. apply lookup_insert_eq.
    - now apply pytorch_returns_output in Hconv.
    - now apply onnx_returns_output in Hconv. }
  destruct Hout as (b & tr & c & Hok & Hb).
  apply generate_model_header_inv in Hhead as (data & Hdata & Hfs4).
  world_simpl. rewrite Hb in Hdata. injection Hdata as <-.
  exists b, tr, c. split; [exact Hok|]. rewrite Hfs4.
  split; [rewrite lookup_insert_ne; [exact Hb | now apply replace_changes]|].
  split; [apply lookup_insert_eq|].
  split; [apply parse_header_content | apply declared_length_header_content].
Qed.

Lemma header_matches_output_witness :
  let result :=
    run sample_toolchain header_request (<["net.h5" := File sample_binary]> ∅) 0 in
  exists b tr c,
    tflite_convert sample_toolchain tr c = Ok b
    /\ fs result.2 !! "net.tflite" = Some (File b)
    /\ fs result.2 !! "net.h" = Some (File (list_byte_of_string (header_content b))).
Proof.
  cbv zeta.
  destruct (header_matches_output sample_toolchain header_request
              (<["net.h5" := File sample_binary]> ∅) 0)
    as (b & tr & c & H1 & H2 & H3 & _).
  - reflexivity.
  - exists "net", EmptyString. reflexivity.
  - vm_compute. reflexivity.
  - exists b, tr, c. auto.
Defined.

(** X10: when a TensorFlow request with [--generate-header] and an output
    path without '.tflite' ends with exit code 0, the output path no longer
    holds the converted binary: it holds the header text generated from
    it. *)
Theorem header_replaces_output_without_suffix (tc : Toolchain) (args : Args)
    (files : gmap string node) (seed : N) :
  framework args = tensorflow ->
  generate_header args = true ->
  ~ PyStr.contains (output args) ".tflite" ->
  (run tc args files seed).1 = 0%nat ->
  exists b tr c,
    tflite_convert tc tr c = Ok b
    /\ fs (run tc args files seed).2 !! output args
       = Some (File (list_byte_of_string (header_content b))).
Proof.
  intros Hf Hgen Hs Hcode.
  apply main_exits_with_0_or_1_main in Hcode.
  unfold run. destruct (main tc args (fresh_process files seed)) as [r w'] eqn:Em.
  cbn [fst snd] in *. subst r.
  assert (Hsetup : import_tensorflow tc = true /\ is_Some (files !! model args)).
  { destruct (import_tensorflow tc) eqn:Htf;
      [destruct (files !! model args) as [n|] eqn:Hfile; [eauto|]|].
    - destruct (main_stops_early tc args files seed (or_intror Hfile)) as (v & E & _).
      congruence.
    - destruct (main_stops_early tc args files seed (or_introl Htf)) as (v & E & _).
      congruence. }
  destruct Hsetup as (Htf & Hfile).
  destruct (main_after_setup tc args files seed Htf Hfile) as (w1 & E & _).
  rewrite E in Em.
  apply try_except_inv in Em
    as [(a & Hm & _)|[(e & w2 & _ & _ & Hh)|(e & _ & _ & [=])]];
    [|rewrite main_except_exit in Hh; discriminate].
  unfold main_try in Hm. rewrite Hgen, Hf in Hm.
  rewrite (replace_absent _ _ _ Hs) in Hm.
  apply bind_return_inv in Hm as (u2 & w2 & Hconv & Hm).
  apply bind_return_inv in Hm as (u3 & w3 & [= _ <-] & Hm).
  apply bind_return_inv in Hm as (u4 & w4 & Hhead & [= _ <-]).
  destruct (tensorflow_returns_output _ _ _ _ _ _ _ Hconv) as (b & tr & c & Hok & Hfs).
  apply generate_model_header_inv in Hhead as (data & Hdata & Hfs4).
  world_simpl. rewrite Hfs, lookup_insert_eq in Hdata. injection Hdata as <-.
  exists b, tr, c. split; [exact Hok|]. rewrite Hfs4. apply lookup_insert_eq.
Qed.

Lemma header_replaces_output_without_suffix_witness :
  let result :=
    run sample_toolchain suffixless_request (<["net.h5" := File sample_binary]> ∅) 0 in
  exists b tr c,
    tflite_convert sample_toolchain tr c = Ok b
    /\ fs result.2 !! "model.bin"
       = Some (File (list_byte_of_string (header_content b))).
Proof.
  cbv zeta.
  apply (header_replaces_output_without_suffix sample_toolchain suffixless_request
           (<["net.h5" := File sample_binary]> ∅) 0).
  - reflexivity.
  - reflexivity.
  - apply not_contains. reflexivity.
  - vm_compute. reflexivity.
Defined.

(** ** Output paths without the suffix and the ONNX converter *)

Lemma main_return_inv (tc : Toolchain) (args : Args)
    (files : gmap string node) (seed : N) :
  (run tc args files seed).1 = 0%nat ->
  exists w1 w', main_try tc args w1 = (Return tt, w').
Proof.
  intros Hcode. apply main_exits_with_0_or_1_main in Hcode.
  destruct (main tc args (fresh_process files seed)) as [r w'] eqn:Em.
  cbn [fst] in Hcode. subst r.
  assert (Hsetup : import_tensorflow tc = true /\ is_Some (files !! model args)).
  { destruct (import_tensorflow tc) eqn:Htf;
      [destruct (files !! model args) as [n|] eqn:Hfile; [eauto|]|].
    - destruct (main_stops_early tc args files seed (or_intror Hfile)) as (v & E & _).
      congruence.
    - destruct (main_stops_early tc args files seed (or_introl Htf)) as (v & E & _).
      congruence. }
  destruct Hsetup as (Htf & Hfile).
  destruct (main_after_setup tc args files seed Htf Hfile) as (w1 & E & _).
  rewrite E in Em.
  apply try_except_inv in Em
    as [(a & Hm & _)|[(e & w2 & _ & _ & Hh)|(e & _ & _ & [=])]];
    [|rewrite main_except_exit in Hh; discriminate].
  destruct a. eauto.
Qed.

(** When the [try] block of the ONNX converter returns, the output file was
    written before the intermediate folder was removed. *)
Lemma convert_onnx_model_try_return_inv (tc : Toolchain)
    (model_path output_path : string) (q : bool) (w w' : World) (u : unit) :
  convert_onnx_model_try tc model_path output_path q w = (Return u, w') ->
  exists w5 w6 b,
    fs w5 !! output_path = Some (File b)
    /\ shutil_rmtree (PyStr.replace output_path ".tflite" "_tf_model") w5
       = (Return tt, w6).
Proof.
  unfold convert_onnx_model_try. cbv zeta. intros H.
  do 3 (apply bind_return_inv in H as (? & ? & _ & H)).
  apply bind_return_inv in H as (b & w4 & _ & H).
  apply bind_return_inv in H as (u5 & w5 & E5 & H).
  apply bind_return_inv in H as (u6 & w6 & E6 & _).
  apply write_binary_spec in E5 as (_ & _ & [(_ & F5)|([=] & _)]).
  exists w5, w6, b. split; [rewrite F5; apply lookup_insert_eq|].
  now destruct u6.
Qed.

Lemma convert_onnx_model_return_inv (tc : Toolchain)
    (model_path output_path : string) (q : bool) (w w' : World) (u : unit) :
  convert_onnx_model tc model_path output_path q w = (Return u, w') ->
  exists w1 w2, convert_onnx_model_try tc model_path output_path q w1 = (Return tt, w2).
Proof.
  unfold convert_onnx_model. intros H.
  apply bind_return_inv in H as (g & w0 & _ & H).
  destruct g; try discriminate H;
    apply bind_return_inv in H as (u1 & w1 & _ & H);
    (apply try_except_inv in H
       as [([] & Hm & _)|[(e & w2 & _ & _ & Hh)|(e & _ & _ & [=])]];
       [eauto | discriminate Hh]).
Qed.

(** X11: with an output path that has no '.tflite' in it the ONNX
    converter and the PyTorch converter never return: the intermediate
    folder would be the output path itself, so the folder cannot be removed
    once the output file is written.  Every such onnx or pytorch request
    ends with exit code 1. *)
Theorem onnx_requires_suffix (tc : Toolchain) (model_path output_path : string)
    (q : bool) :
  ~ PyStr.contains output_path ".tflite" ->
  (forall (w w' : World) (r : Outcome unit),
     convert_onnx_model tc model_path output_path q w = (r, w') ->
     exists e, r = Raise e /\ is_Exception e = true)
  /\ (forall (w w' : World) (r : Outcome unit),
        convert_pytorch_model tc model_path output_path q w = (r, w') ->
        exists e, r = Raise e /\ is_Exception e = true)
  /\ (forall (args : Args) (files : gmap string node) (seed : N),
        framework args <> tensorflow ->
        output args = output_path ->
        (run tc args files seed).1 = 1%nat).
Proof.
  intros Hs.
  assert (Honnx : forall mp q0 w w' u,
            convert_onnx_model tc mp output_path q0 w = (Return u, w') -> False).
  { intros mp q0 w w' u H.
    apply convert_onnx_model_return_inv in H as (w1 & w2 & H).
    apply convert_onnx_model_try_return_inv in H as (w5 & w6 & b & Hb & Hrm).
    rewrite (replace_absent _ _ _ Hs) in Hrm.
    unfold shutil_rmtree in Hrm. rewrite Hb in Hrm. discriminate. }
  assert (Htorch : forall mp q0 w w' u,
            convert_pytorch_model tc mp output_path q0 w = (Return u, w') -> False).
  { intros mp q0 w w' u H.
    apply convert_pytorch_model_return_inv in H as (w6 & w7 & H & _).
    now apply Honnx in H. }
  split; [|split].
  - intros w w' [u|e] H; [now apply Honnx in H|].
    exists e. split; [reflexivity|]. now apply convert_onnx_model_raises in H.
  - intros w w' [u|e] H; [now apply Htorch in H|].
    exists e. split; [reflexivity|]. now apply convert_pytorch_model_raises in H.
  - intros args files seed Hf Hout.
    pose proof (main_outcomes tc args files seed) as Hmain.
    destruct (Nat.eq_dec (run tc args files seed).1 0) as [H0|H0].
    + exfalso. apply main_return_inv in H0 as (w1 & w' & Hm).
      unfold main_try in Hm. apply bind_return_inv in Hm as (u & w2 & Hc & _).
      rewrite Hout in Hc.
      destruct (framework args); [congruence | now apply Htorch in Hc
                                 | now apply Honnx in Hc].
    + unfold run in *.
      destruct (main tc args (fresh_process files seed)) as [r v].
      cbn [fst snd] in *. destruct Hmain as [-> | ->]; [now destruct H0 | reflexivity].
Qed.

Lemma onnx_requires_suffix_witness :
  (run sample_toolchain
     {| model := "net.onnx"; framework := onnx; output := "model.bin";
        quantize := true; generate_header := false |}
     (<["net.onnx" := File sample_binary]> ∅) 0).1 = 1%nat.
Proof.
  apply (proj2 (proj2 (onnx_requires_suffix sample_toolchain "net.onnx" "model.bin" true
                         (not_contains "model.bin" ".tflite" eq_refl)))).
  - discriminate.
  - reflexivity.
Defined.

(** ** What a successful conversion leaves behind *)

Lemma containsb_contains (s old : string) :
  containsb old s = true -> PyStr.contains s old.
Proof.
  induction s as [|c s IH]; cbn [containsb]; intros H.
  - rewrite orb_false_r in H. apply prefix_split in H as [post H].
    exists EmptyString, post. exact H.
  - apply orb_true_iff in H as [H|H].
    + apply prefix_split in H as [post H]. exists EmptyString, post. exact H.
    + now apply contains_tail, IH.
Qed.

Lemma onnx_return_has_suffix (tc : Toolchain) (model_path output_path : string)
    (q : bool) (w w' : World) (u : unit) :
  convert_onnx_model tc model_path output_path q w = (Return u, w') ->
  PyStr.contains output_path ".tflite".
Proof.
  intros H. apply containsb_contains.
  destruct (containsb ".tflite" output_path) eqn:E; [reflexivity|exfalso].
  apply not_contains in E.
  apply convert_onnx_model_return_inv in H as (w1 & w2 & H).
  apply convert_onnx_model_try_return_inv in H as (w5 & w6 & b & Hb & Hrm).
  rewrite (replace_absent _ _ _ E) in Hrm.
  unfold shutil_rmtree in Hrm. rewrite Hb in Hrm. discriminate.
Qed.

(** X12: when the ONNX converter returns, the output path has '.tflite' in
    it, the output file holds the binary the one [convert()] call returned,
    and nothing is left at or below the intermediate SavedModel folder. *)
Theorem onnx_success_leaves_only_output (tc : Toolchain)
    (model_path output_path : string) (q : bool) (w w' : World) (u : unit) :
  convert_onnx_model tc model_path output_path q w = (Return u, w') ->
  PyStr.contains output_path ".tflite"
  /\ (exists b,
        tflite_convert tc (conversions (trace w)) (onnx_converter output_path q) = Ok b
        /\ fs w' !! output_path = Some (File b))
  /\ conversions (trace w')
     = (conversions (trace w) ++ [onnx_converter output_path q])%list
  /\ forall p,
       Fs.under (PyStr.replace output_path ".tflite" "_tf_model") p = true ->
       fs w' !! p = None.
Proof.
  intros H. pose proof (onnx_return_has_suffix _ _ _ _ _ _ _ H) as Hs.
  split; [exact Hs|].
  apply convert_onnx_model_spec in H.
  destruct H as (_ & pre & convs & T & P & _ & -> & (b & files & Hok & Hfs) & Hclean).
  split; [|split; [|exact Hclean]].
  - exists b. split; [exact Hok|].
    rewrite Hfs. unfold Fs.remove_tree. apply map_lookup_filter_Some.
    split; [apply lookup_insert_eq|]. cbn [fst]. now apply output_outside_tf_model.
  - rewrite T, !conversions_app, (conversions_preparation _ P), conversions_map.
    reflexivity.
Qed.

Lemma onnx_success_leaves_only_output_witness :
  let result :=
    convert_onnx_model sample_toolchain "net.onnx" "net.tflite" true
      (ready_world "net.onnx") in
  fs result.2 !! "net.tflite" = Some (File sample_binary)
  /\ fs result.2 !! "net_tf_model" = None
  /\ fs result.2 !! "net_tf_model/saved_model.pb" = None.
Proof.
  set (w := ready_world "net.onnx").
  destruct (convert_onnx_model sample_toolchain "net.onnx" "net.tflite" true w)
    as [r w'] eqn:E.
  cbv zeta. cbn [fst snd].
  assert (Hr : r = Return tt).
  { apply (f_equal fst) in E. cbn [fst] in E. rewrite <- E. vm_compute. reflexivity. }
  subst r.
  destruct (onnx_success_leaves_only_output sample_toolchain "net.onnx" "net.tflite"
              true w w' tt E) as (_ & (b & Hok & Hb) & _ & Hclean).
  injection Hok as <-.
  split; [exact Hb|]. split; apply Hclean; reflexivity.
Defined.

(** X13: when the PyTorch converter returns, the output file holds the
    binary a [convert()] call returned, the exported ONNX file is gone, also
    when a file of that name was there before the request, and nothing is
    left at or below the intermediate SavedModel folder. *)
Theorem pytorch_success_leaves_only_output (tc : Toolchain)
    (model_path output_path : string) (q : bool) (w w' : World) (u : unit) :
  convert_pytorch_model tc model_path output_path q w = (Return u, w') ->
  PyStr.contains output_path ".tflite"
  /\ (exists b tr,
        tflite_convert tc tr (onnx_converter output_path q) = Ok b
        /\ fs w' !! output_path = Some (File b))
  /\ fs w' !! PyStr.replace output_path ".tflite" ".onnx" = None
  /\ forall p,
       Fs.under (PyStr.replace output_path ".tflite" "_tf_model") p = true ->
       fs w' !! p = None.
Proof.
  intros H.
  apply convert_pytorch_model_return_inv in H as (w6 & w7 & H & Hfs).
  pose proof (onnx_return_has_suffix _ _ _ _ _ _ _ H) as Hs.
  split; [exact Hs|].
  apply convert_onnx_model_spec in H.
  destruct H as (_ & pre & convs & _ & _ & _ & _ & (b & files & Hok & Hfs7) & Hclean).
  rewrite Hfs. split; [|split].
  - exists b, (conversions (trace w6)). split; [exact Hok|].
    rewrite lookup_delete_ne by now apply replace_changes.
    rewrite Hfs7. unfold Fs.remove_tree. apply map_lookup_filter_Some.
    split; [apply lookup_insert_eq|]. cbn [fst]. now apply output_outside_tf_model.
  - apply lookup_delete_eq.
  - intros p Hp.
    destruct (decide (PyStr.replace output_path ".tflite" ".onnx" = p)) as [<-|Hne].
    + apply lookup_delete_eq.
    + rewrite lookup_delete_ne by exact Hne. now apply Hclean.
Qed.

Lemma pytorch_success_leaves_only_output_witness :
  let result :=
    convert_pytorch_model sample_toolchain "net.pt" "net.tflite" true
      (set_fs (<["net.onnx" := File []]> (<["net.pt" := File sample_binary]> ∅))
         (ready_world "net.pt")) in
  (exists b tr,
     tflite_convert sample_toolchain tr (onnx_converter "net.tflite" true) = Ok b
     /\ fs result.2 !! "net.tflite" = Some (File b))
  /\ fs result.2 !! "net.onnx" = None.
Proof.
  set (w := set_fs (<["net.onnx" := File []]> (<["net.pt" := File sample_binary]> ∅))
              (ready_world "net.pt")).
  destruct (convert_pytorch_model sample_toolchain "net.pt" "net.tflite" true w)
    as [r w'] eqn:E.
  cbv zeta. cbn [fst snd].
  assert (Hr : r = Return tt).
  { apply (f_equal fst) in E. cbn [fst] in E. rewrite <- E. vm_compute. reflexivity. }
  subst r.
  destruct (pytorch_success_leaves_only_output sample_toolchain "net.pt" "net.tflite"
              true w w' tt E) as (_ & Hout & Hgone & _).
  split; [exact Hout | exact Hgone].
Defined.

(** ** Inspection of a binary that declares no tensor *)

Lemma app_one_neq {A} (l : list A) (x : A) : l <> (l ++ [x])%list.
Proof.
  intros E. apply (f_equal (@length A)) in E.
  rewrite length_app in E. cbn [length] in E. lia.
Qed.

(** When the interpreter was called during a TensorFlow conversion, the
    inspection started with the output file written and its outcome is the
    outcome of the conversion. *)
Lemma inspection_started (tc : Toolchain) (model_path output_path : string) (q : bool)
    (w w' : World) (r : Outcome unit) (b : list byte) (evs : list Event) :
  convert_tensorflow_model tc model_path output_path q w = (r, w') ->
  trace w' = (trace w ++ evs)%list ->
  In (EvInterpreter b) evs ->
  exists w_mid,
    fs w_mid = <[output_path := File b]> (fs w)
    /\ print_model_info tc b w_mid = (r, w')
    /\ fs w' = fs w_mid
    /\ trace w' = (trace w_mid ++ [EvInterpreter b])%list.
Proof.
  intros H Hevs Hin.
  destruct (convert_tensorflow_model_stages _ _ _ _ _ _ _ H)
    as (_ & loads & convs & tail & Htr & Hloads & Hcases).
  rewrite Hevs in Htr. apply app_inv_head in Htr. subst evs.
  assert (Htail : In (EvInterpreter b) tail).
  { rewrite !in_app_iff in Hin. destruct Hin as [Hin|[Hin|Hin]]; [| |exact Hin].
    - rewrite Forall_forall in Hloads.
      apply list_elem_of_In, Hloads in Hin. destruct Hin.
    - apply in_map_iff in Hin as (c & [=] & _). }
  destruct Hcases as [(_ & -> & _)|(m & src & w_l & _ & Hc)]; [destruct Htail|].
  cbv zeta in Hc.
  destruct Hc as (_ & [(_ & -> & _)|(b0 & c' & tr & Hc' & Hok & Hw)]);
    [destruct Htail|].
  destruct Hw as [(-> & _)|(w_mid & Hfs & Htm & Hinfo & Hfs' & Ht)];
    [destruct Htail|].
  destruct Ht as [->| ->]; [destruct Htail|].
  destruct Htail as [[= ->]|[]].
  exists w_mid. split; [exact Hfs|]. split; [exact Hinfo|]. split; [exact Hfs'|].
  rewrite Hevs, Htm. now rewrite <- !app_assoc.
Qed.

Lemma print_model_info_no_details (tc : Toolchain) (b : list byte) (w w' : World)
    (r : Outcome unit) (ins outs : list TensorDetail) :
  print_model_info tc b w = (r, w') ->
  trace w' = (trace w ++ [EvInterpreter b])%list ->
  tflite_interpreter tc b = Ok (ins, outs) ->
  ins = [] \/ outs = [] ->
  r = Raise IndexError /\ last (stdout w') = Some (MsgSize (length b)) \/
  r = Raise IndexError
  /\ exists i, last (stdout w') = Some (MsgInputShape (td_shape i)).
Proof.
  unfold print_model_info, tf_lite_Interpreter. py_unfold. intros H T Hi Hempty.
  rewrite Hi in H.
  destruct (g_tf w) eqn:G; try (injection H as <- <-; now apply app_one_neq in T).
  world_simpl.
  destruct ins as [|i ins]; cbn [fst snd] in H.
  - injection H as <- <-. world_simpl. left. split; [reflexivity|]. apply last_snoc.
  - destruct Hempty as [[=]| ->]. injection H as <- <-. world_simpl.
    right. split; [reflexivity|]. exists i. apply last_snoc.
Qed.

(** X14: a binary for which the interpreter reports no input tensor, or no
    output tensor, makes the TensorFlow converter end on [IndexError] in the
    middle of the model summary: the size line, or the input shape line, is
    the last one printed, and the output file holds the binary all the
    same. *)
Theorem no_tensor_details_index_error (tc : Toolchain)
    (model_path output_path : string) (q : bool) (w w' : World) (r : Outcome unit)
    (b : list byte) (evs : list Event) (ins outs : list TensorDetail) :
  convert_tensorflow_model tc model_path output_path q w = (r, w') ->
  trace w' = (trace w ++ evs)%list ->
  In (EvInterpreter b) evs ->
  tflite_interpreter tc b = Ok (ins, outs) ->
  ins = [] \/ outs = [] ->
  r = Raise IndexError
  /\ fs w' !! output_path = Some (File b)
  /\ (last (stdout w') = Some (MsgSize (length b))
      \/ exists i, last (stdout w') = Some (MsgInputShape (td_shape i))).
Proof.
  intros H Hevs Hin Hi Hempty.
  destruct (inspection_started _ _ _ _ _ _ _ _ _ H Hevs Hin)
    as (w_mid & Hfs & Hinfo & Hfs' & Htr).
  assert (Hb : fs w' !! output_path = Some (File b))
    by (rewrite Hfs', Hfs; apply lookup_insert_eq).
  destruct (print_model_info_no_details _ _ _ _ _ _ _ Hinfo Htr Hi Hempty)
    as [(-> & Hl)|(-> & Hl)]; auto.
Qed.

Lemma no_tensor_details_index_error_witness :
  let result :=
    convert_tensorflow_model tensorless_toolchain "net.h5" "net.tflite" true
      (ready_world "net.h5") in
  result.1 = Raise IndexError
  /\ fs result.2 !! "net.tflite" = Some (File sample_binary).
Proof.
  set (w := ready_world "net.h5").
  destruct (convert_tensorflow_model tensorless_toolchain "net.h5" "net.tflite" true w)
    as [r w'] eqn:E.
  cbv zeta. cbn [fst snd].
  destruct (no_tensor_details_index_error tensorless_toolchain "net.h5" "net.tflite"
              true w w' r sample_binary
              [EvKerasLoadModel "net.h5";
               EvConvert (quantization_settings sample_model true
                            (new_converter (from_keras_model sample_model)));
               EvInterpreter sample_binary] [] [] E)
    as (H1 & H2 & _).
  - apply (f_equal snd) in E. cbn [snd] in E. rewrite <- E. vm_compute. reflexivity.
  - right. right. left. reflexivity.
  - reflexivity.
  - left. reflexivity.
  - split; [exact H1 | exact H2].
Defined.

(** ** A checkpoint that is not a module *)

(** X15: a pytorch request whose file [torch.load] reads as something
    without an [eval] method (a saved state dictionary) ends with exit code
    1 on [AttributeError]: after the imports the only call made is
    [torch.load], nothing is exported and no file is written. *)
Theorem state_dict_checkpoint_fails (tc : Toolchain) (args : Args)
    (files : gmap string node) (seed : N) (m : TorchModel) :
  import_tensorflow tc = true ->
  import_torch tc && import_torchvision tc = true ->
  is_Some (files !! model args) ->
  framework args = pytorch ->
  torch_load tc files (model args) = Ok m ->
  tm_is_module m = false ->
  let result := run tc args files seed in
  result.1 = 1%nat
  /\ fs result.2 = files
  /\ trace result.2 = (attempted_imports tc ++ [EvTorchLoad (model args)])%list
  /\ last (stdout result.2) = Some (MsgConversionFailed (AttributeError "eval")).
Proof.
  intros Htf Htorch Hfile Hf Hload Hm. cbv zeta. unfold run.
  destruct (main_after_setup tc args files seed Htf Hfile)
    as (w1 & E & F & _ & T & _ & G & _).
  rewrite E. rewrite Htorch in G. cbn [module_or_none] in G.
  assert (Hc : convert_pytorch_model tc (model args) (output args) (quantize args) w1
               = (Raise (AttributeError "eval"),
                  add_event (EvTorchLoad (model args))
                    (add_stdout (MsgConvertingPyTorch (model args)) w1))).
  { unfold convert_pytorch_model, torch_load_cpu, torch_eval. py_unfold.
    rewrite G. world_simpl. rewrite F, Hload, Hm. reflexivity. }
  rewrite (main_try_raises tc args w1
             (add_event (EvTorchLoad (model args))
                (add_stdout (MsgConvertingPyTorch (model args)) w1))
             (AttributeError "eval")
             (convert_pytorch_model tc (model args) (output args) (quantize args)));
    [ | unfold main_try; now rewrite Hf | exact Hc | reflexivity].
  cbn [fst snd exit_code]. world_simpl. rewrite last_snoc, T. auto.
Qed.

Lemma state_dict_checkpoint_fails_witness :
  let result :=
    run state_dict_toolchain pytorch_request (<["net.pt" := File sample_binary]> ∅) 0 in
  result.1 = 1%nat
  /\ fs result.2 = <["net.pt" := File sample_binary]> ∅
  /\ last (stdout result.2) = Some (MsgConversionFailed (AttributeError "eval")).
Proof.
  destruct (state_dict_checkpoint_fails state_dict_toolchain pytorch_request
              (<["net.pt" := File sample_binary]> ∅) 0
              {| tm_payload := sample_binary; tm_is_module := false |})
    as (H1 & H2 & _ & H4).
  - reflexivity.
  - reflexivity.
  - vm_compute. eauto.
  - reflexivity.
  - vm_compute. reflexivity.
  - reflexivity.
  - cbv zeta. split; [exact H1|]. split; [exact H2 | exact H4].
Defined.

(** ** TensorFlow is required by every request *)

(** X16: without TensorFlow every request, also an onnx or a pytorch one,
    ends with exit code 1 in [setup_imports]: the import of TensorFlow is
    the only call made, the optional libraries are not even looked for, the
    model path is not checked, no file is touched, and the one line printed
    is the hint to install TensorFlow. *)
Theorem tensorflow_is_mandatory (tc : Toolchain) (args : Args)
    (files : gmap string node) (seed : N) :
  import_tensorflow tc = false ->
  let result := run tc args files seed in
  result.1 = 1%nat
  /\ fs result.2 = files
  /\ trace result.2 = [EvImport "tensorflow"]
  /\ stdout result.2 = [MsgTensorFlowNotFound].
Proof.
  intros Htf. cbv zeta.
  destruct (setup_imports_spec tc (fresh_process files seed))
    as (w1 & E & Hfs & _ & Htr & _ & Hout).
  assert (Hmain : main tc args (fresh_process files seed) = (Raise (SystemExit 1), w1)).
  { rewrite Htf in E. unfold main. unfold bind at 1. now rewrite E. }
  unfold run. rewrite Hmain. cbn [fst snd exit_code].
  specialize (Hout Htf). unfold attempted_imports in Htr. rewrite Htf in Htr.
  world_simpl. auto.
Qed.

Lemma tensorflow_is_mandatory_witness :
  let result :=
    run without_tensorflow onnx_request (<["net.onnx" := File sample_binary]> ∅) 0 in
  result.1 = 1%nat
  /\ fs result.2 = <["net.onnx" := File sample_binary]> ∅
  /\ trace result.2 = [EvImport "tensorflow"]
  /\ stdout result.2 = [MsgTensorFlowNotFound].
Proof.
  apply (tensorflow_is_mandatory without_tensorflow onnx_request
           (<["net.onnx" := File sample_binary]> ∅) 0).
  reflexivity.
Defined.

(** ** What the retry keeps of the first attempt *)

(** X17: the second attempt of the TensorFlow converter runs on the
    converter of the first with only [optimizations] emptied.  When the first
    attempt carried a representative dataset, the second still carries it,
    still asks for the int8 operator set and still declares int8 input and
    output types: it is not the converter of a request without
    quantization. *)
Theorem retry_keeps_integer_settings (tc : Toolchain)
    (model_path output_path : string) (q : bool) (w w' : World) (r : Outcome unit)
    (c1 c2 : TFLiteConverter) :
  convert_tensorflow_model tc model_path output_path q w = (r, w') ->
  conversions (trace w') = (conversions (trace w) ++ [c1; c2])%list ->
  representative_dataset c1 <> None ->
  c2 = set_optimizations [] c1
  /\ optimizations c2 = []
  /\ representative_dataset c2 = representative_dataset c1
  /\ supported_ops c2 = [TFLITE_BUILTINS_INT8]
  /\ inference_input_type c2 = int8
  /\ inference_output_type c2 = int8
  /\ ~ unquantized c2.
Proof.
  intros H Hc Hrd.
  destruct (convert_tensorflow_model_stages _ _ _ _ _ _ _ H)
    as (_ & loads & convs & tail & T & L & Hcases).
  assert (Hconv : conversions (trace w') =
                  (conversions (trace w) ++ convs ++ conversions tail)%list).
  { rewrite T, !conversions_app, conversions_map, (conversions_loads _ L).
    reflexivity. }
  rewrite Hconv in Hc. apply app_inv_head in Hc.
  destruct Hcases as [(-> & -> & _)|(m & src & w_l & _ & Hrun)]; [discriminate Hc|].
  cbv zeta in Hrun. destruct Hrun as (Hcv & Hrest).
  assert (Htail : conversions tail = []).
  { destruct Hrest as [(_ & -> & _)
                      |(b & c' & tr & _ & _ & [(-> & _)|(w_mid & _ & _ & _ & _ & [->| ->])])];
      reflexivity. }
  rewrite Htail, app_nil_r in Hc. subst convs.
  destruct Hcv as [[=]|[= -> ->]].
  unfold quantization_settings in *.
  destruct q; [destruct (input_shape m) as [[|batch dims]|]|];
    cbn in Hrd; try (now destruct Hrd).
  cbn. repeat (split; [reflexivity|]).
  intros (_ & Hx & _). discriminate Hx.
Qed.

Lemma retry_keeps_integer_settings_witness :
  let c1 := quantization_settings sample_model true
              (new_converter (from_keras_model sample_model)) in
  supported_ops (set_optimizations [] c1) = [TFLITE_BUILTINS_INT8]
  /\ inference_input_type (set_optimizations [] c1) = int8
  /\ ~ unquantized (set_optimizations [] c1).
Proof.
  set (w := ready_world "net.h5").
  set (c1 := quantization_settings sample_model true
               (new_converter (from_keras_model sample_model))).
  destruct (convert_tensorflow_model optimization_averse_toolchain
              "net.h5" "net.tflite" true w) as [r w'] eqn:E.
  destruct (retry_keeps_integer_settings optimization_averse_toolchain
              "net.h5" "net.tflite" true w w' r c1 (set_optimizations [] c1) E)
    as (_ & _ & _ & H4 & H5 & _ & H7).
  - apply (f_equal snd) in E. cbn [snd] in E. rewrite <- E. vm_compute. reflexivity.
  - discriminate.
  - cbv zeta. split; [exact H4|]. split; [exact H5 | exact H7].
Defined.

(** * Requests as a whole *)

(** ** The calls of a statement *)

Section Emits.

Variable P : Event -> Prop.

Lemma emits_quiet {A} (m : Py A) :
  (forall w, trace (m w).2 = trace w) -> emits P m.
Proof.
  intros H w r w' E. exists []. split; [|constructor].
  specialize (H w). rewrite E in H. cbn [snd] in H. now rewrite app_nil_r.
Qed.

Lemma emits_ret {A} (a : A) : emits P (ret a).
Proof. now apply emits_quiet. Qed.

Lemma emits_raise {A} (e : Exn) : emits P (@raise A e).
Proof. now apply emits_quiet. Qed.

Lemma emits_bind {A B} (m : Py A) (k : A -> Py B) :
  emits P m -> (forall a, emits P (k a)) -> emits P (bind m k).
Proof.
  intros Hm Hk w r w' E.
  apply bind_inv in E as [(a & w1 & E1 & E2)|(e & E1 & _)].
  - destruct (Hm _ _ _ E1) as (evs1 & T1 & P1).
    destruct (Hk a _ _ _ E2) as (evs2 & T2 & P2).
    exists (evs1 ++ evs2)%list.
    split; [now rewrite T2, T1, <- app_assoc | now apply Forall_app].
  - exact (Hm _ _ _ E1).
Qed.

Lemma emits_try_except {A} (m : Py A) (h : Exn -> Py A) :
  emits P m -> (forall e, emits P (h e)) -> emits P (try_except m h).
Proof.
  intros Hm Hh w r w' E.
  apply try_except_inv in E as [(a & E1 & _)|[(e & w1 & E1 & _ & E2)|(e & E1 & _)]].
  - exact (Hm _ _ _ E1).
  - destruct (Hm _ _ _ E1) as (evs1 & T1 & P1).
    destruct (Hh e _ _ _ E2) as (evs2 & T2 & P2).
    exists (evs1 ++ evs2)%list.
    split; [now rewrite T2, T1, <- app_assoc | now apply Forall_app].
  - exact (Hm _ _ _ E1).
Qed.

Lemma emits_log_call (e : Event) : P e -> emits P (log_call e).
Proof.
  intros He w r w' [= <- <-]. exists [e]. split; [reflexivity | now repeat constructor].
Qed.

Lemma emits_print (m : Msg) : emits P (print m).
Proof. now apply emits_quiet. Qed.


Lemma emits_answer {A} (tool : string) (r : ToolResult A) : emits P (answer tool r).
Proof. apply emits_quiet. now destruct r. Qed.

Lemma emits_reader {A} (tool : string) (f : gmap string node -> ToolResult A) :
  emits P (fun w => answer tool (f (fs w)) w).
Proof. apply emits_quiet. intros w. now destruct (f (fs w)). Qed.

Lemma emits_global (name : string) (get : World -> Global) : emits P (global name get).
Proof. apply emits_quiet. intros w. unfold global. now destruct (get w). Qed.

Lemma emits_use_tf : emits P use_tf.
Proof.
  apply emits_quiet. intros w. unfold use_tf, bind, global, ret, raise.
  now destruct (g_tf w).
Qed.



Lemma emits_write_binary (p : string) (data : list byte) : emits P (write_binary p data).
Proof.
  apply emits_quiet. intros w. unfold write_binary. now destruct (fs w !! p) as [[c|]|].
Qed.

Lemma emits_os_remove (p : string) : emits P (os_remove p).
Proof.
  apply emits_quiet. intros w. unfold os_remove. now destruct (fs w !! p) as [[c|]|].
Qed.

Lemma emits_shutil_rmtree (p : string) : emits P (shutil_rmtree p).
Proof.
  apply emits_quiet. intros w. unfold shutil_rmtree. now destruct (fs w !! p) as [[c|]|].
Qed.




End Emits.





(** ** Requests without quantization, from the command line to the file *)











(** ** Paths derived from an output path without the suffix *)

Section Paths.

Variable tc : Toolchain.

Lemma emits_converter_convert (P : Event -> Prop) (c : TFLiteConverter) :
  P (EvConvert c) -> emits P (converter_convert tc c).
Proof.
  intros Hc w r w' E. rewrite converter_convert_eq in E.
  exists [EvConvert c]. split; [|now repeat constructor].
  destruct (tflite_convert tc (conversions (trace w)) c); now injection E as _ <-.
Qed.

Lemma emits_onnx2tf_convert_to (P : Event -> Prop) (input folder : string) :
  P (EvOnnx2tf input folder) -> emits P (onnx2tf_convert_to tc input folder).
Proof.
  intros He w r w' E. apply onnx2tf_convert_to_spec in E as (_ & T & _).
  exists [EvOnnx2tf input folder]. split; [exact T | now repeat constructor].
Qed.

(** The calls of the ONNX converter: the folder it hands to [onnx2tf] and
    opens as a SavedModel is the path derived from the output path. *)
Lemma emits_convert_onnx_model (export_to model_path output_path : string) (q : bool) :
  emits (uses_paths export_to model_path
           (PyStr.replace output_path ".tflite" "_tf_model"))
        (convert_onnx_model tc model_path output_path q).
Proof.
  unfold convert_onnx_model.
  apply emits_bind; [apply emits_global|intros g].
  assert (Hrun : emits (uses_paths export_to model_path
                          (PyStr.replace output_path ".tflite" "_tf_model"))
                   (print (MsgConvertingOnnx model_path) ;;
                    try_except (convert_onnx_model_try tc model_path output_path q)
                      (fun e => print (MsgOnnxConversionFailed e) ;;
                                print MsgConsiderOnnx2tf ;; raise e))).
  { apply emits_bind; [apply emits_print|intros _].
    apply emits_try_except.
    - unfold convert_onnx_model_try, import_onnx2tf_local,
        TFLiteConverter_from_saved_model. cbv zeta.
      apply emits_bind.
      { apply emits_bind; [now apply emits_log_call|intros _].
        destruct (import_onnx2tf tc); [apply emits_ret | apply emits_raise]. }
      intros _.
      apply emits_bind; [now apply emits_onnx2tf_convert_to|intros _].
      apply emits_bind.
      { apply emits_bind; [apply emits_use_tf|intros _].
        apply emits_bind; [now apply emits_log_call|intros _].
        apply emits_bind; [|intros _; apply emits_ret].
        apply (emits_reader _ "tensorflow"
                 (fun files => saved_model_open tc files
                    (PyStr.replace output_path ".tflite" "_tf_model"))). }
      intros c.
      apply emits_bind; [now apply emits_converter_convert|intros b].
      apply emits_bind; [apply emits_write_binary|intros _].
      apply emits_bind; [apply emits_shutil_rmtree|intros _].
      apply emits_print.
    - intros e. apply emits_bind; [apply emits_print|intros _].
      apply emits_bind; [apply emits_print | intros _; apply emits_raise]. }
  destruct g; [exact Hrun | apply emits_raise | exact Hrun].
Qed.

(** The calls of the PyTorch converter: it exports to the path derived
    from the output path and hands that file to the ONNX converter. *)
Lemma emits_convert_pytorch_model (model_path output_path : string) (q : bool) :
  emits (uses_paths (PyStr.replace output_path ".tflite" ".onnx")
           (PyStr.replace output_path ".tflite" ".onnx")
           (PyStr.replace output_path ".tflite" "_tf_model"))
        (convert_pytorch_model tc model_path output_path q).
Proof.
  unfold convert_pytorch_model.
  apply emits_bind; [apply emits_global|intros g].
  match goal with |- emits ?P _ => set (Q := P) end.
  assert (Hrun : emits Q
    (print (MsgConvertingPyTorch model_path) ;;
     model <- torch_load_cpu tc model_path ;;
     torch_eval model ;;
     let onnx_path := PyStr.replace output_path ".tflite" ".onnx" in
     dummy_input <- torch_randn_tensor tc dummy_input_shape ;;
     print MsgConvertingToOnnx ;;
     torch_onnx_export_to tc model dummy_input onnx_path ;;
     convert_onnx_model tc onnx_path output_path q ;;
     os_remove onnx_path)).
  { apply emits_bind; [apply emits_print|intros _].
    apply emits_bind.
    { unfold torch_load_cpu.
      apply emits_bind; [now apply emits_log_call|intros _].
      apply (emits_reader _ "torch" (fun files => torch_load tc files model_path)). }
    intros m.
    apply emits_bind.
    { unfold torch_eval. destruct (tm_is_module m); [apply emits_ret | apply emits_raise]. }
    intros _. cbv zeta.
    apply emits_bind.
    { apply emits_quiet. intros w. unfold torch_randn_tensor.
      now destruct (torch_randn tc (torch_rng w) dummy_input_shape). }
    intros dummy.
    apply emits_bind; [apply emits_print|intros _].
    apply emits_bind.
    { unfold torch_onnx_export_to.
      apply emits_bind; [now apply emits_log_call|intros _].
      apply emits_bind; [apply emits_answer | intros graph; apply emits_write_binary]. }
    intros _.
    apply emits_bind; [|intros _; apply emits_os_remove].
    apply emits_convert_onnx_model. }
  destruct g; [exact Hrun | apply emits_raise | exact Hrun].
Qed.

Lemma in_trace_grows (e : Event) (w w' : World) (evs : list Event) :
  trace w' = (trace w ++ evs)%list -> In e (trace w) -> In e (trace w').
Proof. intros -> H. rewrite in_app_iff. auto. Qed.

(** With the ONNX toolchain in place the ONNX converter does call
    [onnx2tf], on the folder derived from the output path. *)
Lemma convert_onnx_model_calls_onnx2tf (model_path output_path : string) (q : bool)
    (w w' : World) (r : Outcome unit) :
  g_onnx w = Module ->
  import_onnx2tf tc = true ->
  convert_onnx_model tc model_path output_path q w = (r, w') ->
  In (EvOnnx2tf model_path (PyStr.replace output_path ".tflite" "_tf_model")) (trace w').
Proof.
  intros Hg Hi E. rewrite convert_onnx_model_unfold, Hg in E.
  apply bind_inv in E as [(u & w1 & E1 & E)|(e & E1 & _)]; [|discriminate].
  injection E1 as _ <-.
  assert (Htry : forall v r' v',
            convert_onnx_model_try tc model_path output_path q v = (r', v') ->
            In (EvOnnx2tf model_path (PyStr.replace output_path ".tflite" "_tf_model"))
               (trace v')).
  { intros v r' v' Ht. unfold convert_onnx_model_try in Ht. cbv zeta in Ht.
    apply bind_inv in Ht as [(u1 & v1 & Ei & Ht)|(e & Ei & _)].
    2:{ unfold import_onnx2tf_local, bind, log_call in Ei. rewrite Hi in Ei.
        discriminate. }
    match type of Ht with
    | bind ?m ?k v1 = _ =>
        assert (Hk : forall a, emits (fun _ => True) (k a))
    end.
    { intros _. unfold TFLiteConverter_from_saved_model.
      apply emits_bind.
      { apply emits_bind; [apply emits_use_tf|intros _].
        apply emits_bind; [now apply emits_log_call|intros _].
        apply emits_bind; [|intros _; apply emits_ret].
        apply (emits_reader _ "tensorflow"
                 (fun files => saved_model_open tc files
                    (PyStr.replace output_path ".tflite" "_tf_model"))). }
      intros c.
      apply emits_bind; [now apply emits_converter_convert|intros b].
      apply emits_bind; [apply emits_write_binary|intros _].
      apply emits_bind; [apply emits_shutil_rmtree|intros _].
      apply emits_print. }
    apply bind_inv in Ht as [(u2 & v2 & Ec & Ht)|(e & Ec & _)];
      apply onnx2tf_convert_to_spec in Ec as (_ & Tc & _).
    - destruct (Hk u2 _ _ _ Ht) as (evs & T & _).
      apply (in_trace_grows _ _ _ _ T). rewrite Tc, in_app_iff. right. now left.
    - rewrite Tc, in_app_iff. right. now left. }
  apply try_except_inv in E
    as [(a & Em & _)|[(e & w2 & Em & _ & Eh)|(e & Em & _)]];
    try (now apply Htry in Em).
  apply Htry in Em. unfold bind, print, raise in Eh. injection Eh as _ <-.
  exact Em.
Qed.

(** After a successful load of a module the PyTorch converter does call
    the exporter, on the path derived from the output path. *)
Lemma convert_pytorch_model_calls_export (model_path output_path : string) (q : bool)
    (w w' : World) (r : Outcome unit) (m : TorchModel) :
  g_torch w = Module ->
  torch_load tc (fs w) model_path = Ok m ->
  tm_is_module m = true ->
  convert_pytorch_model tc model_path output_path q w = (r, w') ->
  exists dummy_input,
    t_shape dummy_input = [1; 3; 224; 224]%nat
    /\ In (EvTorchOnnxExport m dummy_input (PyStr.replace output_path ".tflite" ".onnx"))
          (trace w').
Proof.
  intros Hg Hload Hmod E.
  unfold convert_pytorch_model, torch_load_cpu, torch_eval, torch_randn_tensor,
    torch_onnx_export_to, dummy_input_shape in E.
  unfold bind at 1 in E. unfold global in E. rewrite Hg in E.
  unfold bind at 1 in E. unfold print at 1 in E.
  unfold bind at 1 in E. unfold bind at 1 in E. unfold log_call at 1 in E.
  world_simpl. rewrite Hload in E. unfold answer at 1 in E. unfold ret at 1 in E.
  unfold bind at 1 in E. rewrite Hmod in E. unfold ret at 1 in E.
  unfold bind at 1 in E. world_simpl.
  destruct (torch_randn tc (torch_rng w) [1; 3; 224; 224]%nat) as [data rng'].
  unfold bind at 1 in E. unfold print at 1 in E.
  rewrite bind_assoc in E. unfold bind at 1 in E. unfold log_call at 1 in E.
  exists {| t_shape := [1; 3; 224; 224]%nat; t_dtype := float32; t_data := data |}.
  split; [reflexivity|].
  match type of E with
  | ?k ?w1 = _ => assert (Hk : emits (fun _ => True) k)
  end.
  { apply emits_bind.
    { apply emits_bind; [apply emits_answer | intros graph; apply emits_write_binary]. }
    intros _. apply emits_bind; [|intros _; apply emits_os_remove].
    intros v r' v' Ev.
    destruct (emits_convert_onnx_model EmptyString _ _ _ _ _ _ Ev) as (evs & T & _).
    exists evs. split; [exact T|]. now apply Forall_forall. }
  destruct (Hk _ _ _ E) as (evs & T & _).
  apply (in_trace_grows _ _ _ _ T). world_simpl. rewrite in_app_iff. right. now left.
Qed.

End Paths.

(** C9: when the output path has no '.tflite' in it, the paths the script
    derives from it by [str.replace] are the output path itself, and the
    script uses them so.  When [main]'s [try] block returns from a request
    with [--generate-header], the output path holds the header text of the
    converted binary, no longer the binary; the header step run on an output
    file always writes over it.  The PyTorch converter makes every export to
    the output path and hands that same path to the ONNX converter as the
    file to read, and after a successful load the export does take place.
    The ONNX converter makes [onnx2tf] write its folder at the output path,
    and with the ONNX toolchain in place that call does take place.  Neither
    of the two converters returns. *)
Theorem derived_paths_collide (tc : Toolchain) (output_path : string) :
  ~ PyStr.contains output_path ".tflite" ->
  (PyStr.replace output_path ".tflite" ".h" = output_path
   /\ PyStr.replace output_path ".tflite" ".onnx" = output_path
   /\ PyStr.replace output_path ".tflite" "_tf_model" = output_path)
  /\ (forall (args : Args) (w w' : World),
        output args = output_path ->
        generate_header args = true ->
        main_try tc args w = (Return tt, w') ->
        exists b tr c,
          tflite_convert tc tr c = Ok b
          /\ fs w' !! output_path
             = Some (File (list_byte_of_string (header_content b))))
  /\ (forall (w : World) (binary : list byte),
        fs w !! output_path = Some (File binary) ->
        exists w',
          generate_model_header output_path
            (PyStr.replace output_path ".tflite" ".h") w = (Return tt, w')
          /\ fs w' = <[output_path :=
                        File (list_byte_of_string (header_content binary))]> (fs w))
  /\ (forall (model_path : string) (q : bool) (w w' : World) (r : Outcome unit),
        convert_pytorch_model tc model_path output_path q w = (r, w') ->
        (exists evs,
           trace w' = (trace w ++ evs)%list
           /\ Forall (uses_paths output_path output_path output_path) evs)
        /\ (forall m : TorchModel,
              g_torch w = Module ->
              torch_load tc (fs w) model_path = Ok m ->
              tm_is_module m = true ->
              exists dummy_input,
                In (EvTorchOnnxExport m dummy_input output_path) (trace w'))
        /\ exists e, r = Raise e)
  /\ (forall (model_path : string) (q : bool) (w w' : World) (r : Outcome unit),
        convert_onnx_model tc model_path output_path q w = (r, w') ->
        (exists evs,
           trace w' = (trace w ++ evs)%list
           /\ Forall (uses_paths output_path model_path output_path) evs)
        /\ (g_onnx w = Module ->
            import_onnx2tf tc = true ->
            In (EvOnnx2tf model_path output_path) (trace w'))
        /\ exists e, r = Raise e).
Proof.
  intros H.
  assert (Honnx : forall mp q w w' r,
            convert_onnx_model tc mp output_path q w = (r, w') -> exists e, r = Raise e).
  { intros mp q w w' [u|e] E; [|eauto].
    apply onnx_return_has_suffix in E. contradiction. }
  assert (Htorch : forall mp q w w' r,
            convert_pytorch_model tc mp output_path q w = (r, w') -> exists e, r = Raise e).
  { intros mp q w w' [u|e] E; [|eauto].
    apply convert_pytorch_model_return_inv in E as (w6 & w7 & E & _).
    apply onnx_return_has_suffix in E. contradiction. }
  split; [rewrite !replace_absent by exact H; auto|].
  split; [|split; [|split]].
  - intros args w w' Hout Hgen Hm. subst output_path.
    unfold main_try in Hm. rewrite Hgen in Hm. cbv zeta in Hm.
    rewrite (replace_absent _ _ _ H) in Hm.
    apply bind_return_inv in Hm as (u2 & w2 & Hconv & Hm).
    apply bind_return_inv in Hm as (u3 & w3 & [= _ <-] & Hm).
    apply bind_return_inv in Hm as (u4 & w4 & Hhead & [= <-]).
    destruct (framework args).
    + destruct (tensorflow_returns_output _ _ _ _ _ _ _ Hconv)
        as (b & tr & c & Hok & Hfs).
      apply generate_model_header_inv in Hhead as (data & Hdata & Hfs4).
      world_simpl. rewrite Hfs, lookup_insert_eq in Hdata. injection Hdata as <-.
      exists b, tr, c. split; [exact Hok|]. rewrite Hfs4. apply lookup_insert_eq.
    + destruct (Htorch _ _ _ _ _ Hconv) as (e & [=]).
    + destruct (Honnx _ _ _ _ _ Hconv) as (e & [=]).
  - intros w binary Hb. rewrite (replace_absent _ _ _ H).
    apply generate_model_header_writes; [exact Hb | congruence].
  - intros model_path q w w' r E.
    split; [|split; [|now apply Htorch in E]].
    + pose proof (emits_convert_pytorch_model tc model_path output_path q _ _ _ E) as He.
      now rewrite !replace_absent in He by exact H.
    + intros m Hg Hload Hmod.
      destruct (convert_pytorch_model_calls_export tc _ _ _ _ _ _ m Hg Hload Hmod E)
        as (dummy & _ & Hin).
      rewrite (replace_absent _ _ _ H) in Hin. eauto.
  - intros model_path q w w' r E.
    split; [|split; [|now apply Honnx in E]].
    + pose proof (emits_convert_onnx_model tc output_path model_path output_path q
                    _ _ _ E) as He.
      now rewrite !replace_absent in He by exact H.
    + intros Hg Hi.
      pose proof (convert_onnx_model_calls_onnx2tf tc _ _ _ _ _ _ Hg Hi E) as Hin.
      now rewrite (replace_absent _ _ _ H) in Hin.
Qed.

Lemma derived_paths_collide_witness :
  (PyStr.replace "model.bin" ".tflite" ".h" = "model.bin"
   /\ PyStr.replace "model.bin" ".tflite" ".onnx" = "model.bin"
   /\ PyStr.replace "model.bin" ".tflite" "_tf_model" = "model.bin")
  /\ (exists b tr c,
        tflite_convert sample_toolchain tr c = Ok b
        /\ fs (main_try sample_toolchain suffixless_request (ready_world "net.h5")).2
             !! "model.bin"
           = Some (File (list_byte_of_string (header_content b))))
  /\ In (EvOnnx2tf "net.onnx" "model.bin")
        (trace (convert_onnx_model sample_toolchain "net.onnx" "model.bin" true
                  (ready_world "net.onnx")).2).
Proof.
  destruct (derived_paths_collide sample_toolchain "model.bin")
    as (H1 & H2 & _ & _ & H5).
  - apply not_contains. reflexivity.
  - split; [exact H1|]. split.
    + apply (H2 suffixless_request (ready_world "net.h5") _ eq_refl eq_refl).
      vm_compute. reflexivity.
    + destruct (H5 "net.onnx" true (ready_world "net.onnx")
                  (convert_onnx_model sample_toolchain "net.onnx" "model.bin" true
                     (ready_world "net.onnx")).2
                  (convert_onnx_model sample_toolchain "net.onnx" "model.bin" true
                     (ready_world "net.onnx")).1)
        as (_ & H & _); [apply surjective_pairing|].
      apply H; reflexivity.
Defined.

(** ** Exit codes *)

(** X8: whatever the command line, the toolchain and the files, [main]
    lets no exception of its own escape: it returns, or the process is
    ended by [sys.exit].  The exit code is 2 exactly when [argparse] rejects
    the command line, 1 exactly when a parsed request ends in one of the two
    [sys.exit(1)] of the script or in the one of [setup_imports], and 0
    exactly when the help text was asked for or [main] returned. *)
Theorem main_exit_codes (tc : Toolchain) (cl : CommandLine)
    (files : gmap string node) (seed : N) :
  let outcome := (main_from_command_line tc cl (fresh_process files seed)).1 in
  let code := (run_command_line tc cl files seed).1 in
  (outcome = Return tt \/ exists c, outcome = Raise (SystemExit c))
  /\ (code = 0%nat \/ code = 1%nat \/ code = 2%nat)
  /\ (code = 2%nat <-> cl = UsageError)
  /\ (code = 1%nat <-> exists args, cl = Parsed args /\ outcome = Raise (SystemExit 1))
  /\ (code = 0%nat <-> cl = HelpRequested \/ outcome = Return tt)
  /\ (forall args, cl = Parsed args ->
        code = (run tc args files seed).1
        /\ (outcome = Return tt \/ outcome = Raise (SystemExit 1))).
Proof.
  cbv zeta. unfold run_command_line. destruct cl as [args| |].
  - cbn [main_from_command_line].
    pose proof (main_outcomes tc args files seed) as H.
    assert (Hrun : forall a, Parsed args = Parsed a ->
              (run tc a files seed).1
              = exit_code (main tc args (fresh_process files seed)).1).
    { intros a [= <-]. unfold run.
      now destruct (main tc args (fresh_process files seed)). }
    destruct (main tc args (fresh_process files seed)) as [r w'].
    cbn [fst snd] in *.
    destruct H as [-> | ->]; cbn [exit_code] in *.
    + split; [auto|]. split; [auto|]. split; [split; [lia | discriminate]|].
      split; [split; [lia | intros (a & _ & [=])]|].
      split; [split; auto|]. intros a Ha. rewrite (Hrun a Ha). auto.
    + split; [eauto|]. split; [auto|]. split; [split; [lia | discriminate]|].
      split; [split; eauto|].
      split; [split; [lia | intros [[=]|[=]]]|].
      intros a Ha. rewrite (Hrun a Ha). auto.
  - cbn. split; [eauto|]. split; [auto|]. split; [split; [lia | discriminate]|].
    split; [split; [lia | intros (a & [=] & _)]|].
    split; [split; auto|]. intros a [=].
  - cbn. split; [eauto|]. split; [auto|]. split; [split; auto|].
    split; [split; [lia | intros (a & [=] & _)]|].
    split; [split; [lia | intros [[=]|[=]]]|]. intros a [=].
Qed.

Lemma main_exit_codes_witness :
  (run_command_line sample_toolchain UsageError ∅ 0).1 = 2%nat
  /\ (run_command_line sample_toolchain HelpRequested ∅ 0).1 = 0%nat
  /\ (run_command_line sample_toolchain (Parsed tensorflow_request) ∅ 0).1
     = (run sample_toolchain tensorflow_request ∅ 0).1.
Proof.
  split; [|split].
  - destruct (main_exit_codes sample_toolchain UsageError ∅ 0) as (_ & _ & H & _).
    apply H. reflexivity.
  - destruct (main_exit_codes sample_toolchain HelpRequested ∅ 0)
      as (_ & _ & _ & _ & H & _).
    apply H. left. reflexivity.
  - destruct (main_exit_codes sample_toolchain (Parsed tensorflow_request) ∅ 0)
      as (_ & _ & _ & _ & _ & H).
    apply (H tensorflow_request). reflexivity.
Defined.
